(** * mcp-woocommerce: the bridge, the two SSE variants and the Woo tool server

    A shallow embedding of the four small Express programs of the
    repository:

    - [Bridge]    src/server.js                     (streaming JSON-RPC relay)
    - [VariantA]  src/unnamed/part_000, first file  (WooCommerce client with
                                                     header or query auth)
    - [VariantB]  src/unnamed/part_000, second file (ping/time, probe routes)
    - [Woo]       src/unnamed/part_001              (product tools)

    The JavaScript runtime pieces the programs call (string methods,
    [encodeURIComponent], [Buffer], [JSON.stringify], [fetch] responses,
    Express routing) are modelled in [JS], [Http] and [Express]. *)

From Stdlib Require Import List String Ascii NArith ZArith Bool Lia Arith.
From Stdlib Require Import Decimal Zify.
Import ListNotations.

Set Warnings "-register-all".

(* ================================================================== *)
(** ** JavaScript strings and values *)
(* ================================================================== *)

Module JS.

Local Open Scope N_scope.

(** A JavaScript string is a sequence of UTF-16 code units; [length] and
    [slice] count code units. *)
Definition jsstring := list N.

(** ASCII literals of the source text. *)
Definition lit (s : string) : jsstring :=
  map N_of_ascii (list_ascii_of_string s).

(** The literal of the source that holds the single code unit U+2026
    (horizontal ellipsis). *)
Definition ellipsis : jsstring := [8230].

Definition str_eqb (a b : jsstring) : bool :=
  if list_eq_dec N.eq_dec a b then true else false.

(** [s.startsWith(p)] at position 0 and [s.includes(p)]. *)
Fixpoint starts_with (s p : jsstring) : bool :=
  match p, s with
  | [], _ => true
  | _ :: _, [] => false
  | x :: p', y :: s' => (x =? y) && starts_with s' p'
  end.

Fixpoint includes (s p : jsstring) : bool :=
  starts_with s p ||
  match s with
  | [] => false
  | _ :: s' => includes s' p
  end.

(** [s.slice(0, n)] for a non-negative [n], and [s.length]. *)
Definition slice0 (n : nat) (s : jsstring) : jsstring := firstn n s.
Definition str_length (s : jsstring) : N := N.of_nat (List.length s).

(** ASCII case folding.  [toLowerCase] and the [i] flag of a regular
    expression also fold letters outside ASCII.  [toLowerCase] takes such
    a letter onto ASCII only for k (from U+212A) and i (from U+0130), the
    [i] flag never; every comparison below is against a literal of the
    source without k and i, or between header names. *)
Definition lower_unit (c : N) : N :=
  if (65 <=? c) && (c <=? 90) then c + 32 else c.
Definition toLowerCase (s : jsstring) : jsstring := map lower_unit s.

(** Truthiness of a string: nonempty. *)
Definition truthy_str (s : jsstring) : bool :=
  match s with [] => false | _ :: _ => true end.

(** *** Numbers to decimal text *)

Fixpoint uint_units (d : Decimal.uint) : jsstring :=
  match d with
  | Nil => []
  | D0 d => 48 :: uint_units d
  | D1 d => 49 :: uint_units d
  | D2 d => 50 :: uint_units d
  | D3 d => 51 :: uint_units d
  | D4 d => 52 :: uint_units d
  | D5 d => 53 :: uint_units d
  | D6 d => 54 :: uint_units d
  | D7 d => 55 :: uint_units d
  | D8 d => 56 :: uint_units d
  | D9 d => 57 :: uint_units d
  end.

(** [String(n)] for a non-negative integer. *)
Definition N_to_string (n : N) : jsstring := uint_units (N.to_uint n).

(** [String(z)] for an integer of a magnitude below 10^21, which
    JavaScript writes in plain decimal; the numbers of the programs
    (identifiers, counts, page numbers, status codes) are of that kind. *)
Definition Z_to_string (z : Z) : jsstring :=
  match z with
  | Z0 => lit "0"
  | Zpos p => N_to_string (Npos p)
  | Zneg p => lit "-" ++ N_to_string (Npos p)
  end.

(** *** Code points and UTF-8 *)

Inductive CodePoint :=
| Scalar (n : N)
| LoneSurrogate (u : N).

Definition is_high (u : N) : bool := (55296 <=? u) && (u <=? 56319).
Definition is_low (u : N) : bool := (56320 <=? u) && (u <=? 57343).

(** StringToCodePoints: a high surrogate followed by a low one makes one
    supplementary code point; any other surrogate stands alone. *)
Fixpoint code_points (s : jsstring) : list CodePoint :=
  match s with
  | [] => []
  | h :: t =>
      if is_high h then
        match t with
        | l :: rest =>
            if is_low l
            then Scalar (65536 + (h - 55296) * 1024 + (l - 56320)) :: code_points rest
            else LoneSurrogate h :: code_points t
        | [] => [LoneSurrogate h]
        end
      else if is_low h then LoneSurrogate h :: code_points t
      else Scalar h :: code_points t
  end.

(** The UTF-8 bytes of a scalar value. *)
Definition utf8_scalar (n : N) : list N :=
  if n <? 128 then [n]
  else if n <? 2048 then
    [N.lor 192 (N.shiftr n 6); N.lor 128 (N.land n 63)]
  else if n <? 65536 then
    [N.lor 224 (N.shiftr n 12);
     N.lor 128 (N.land (N.shiftr n 6) 63);
     N.lor 128 (N.land n 63)]
  else
    [N.lor 240 (N.shiftr n 18);
     N.lor 128 (N.land (N.shiftr n 12) 63);
     N.lor 128 (N.land (N.shiftr n 6) 63);
     N.lor 128 (N.land n 63)].

(** [Buffer.from(s)] (UTF-8): a lone surrogate becomes U+FFFD. *)
Definition utf8_encode (s : jsstring) : list N :=
  flat_map (fun c => match c with
                     | Scalar n => utf8_scalar n
                     | LoneSurrogate _ => utf8_scalar 65533
                     end) (code_points s).

(** *** Percent encoding *)

Definition hex_digit (d : N) : N :=
  if d <? 10 then 48 + d else 55 + d.

Definition percent_byte (b : N) : jsstring :=
  [37; hex_digit (N.shiftr b 4); hex_digit (N.land b 15)].

Definition is_alnum (c : N) : bool :=
  ((48 <=? c) && (c <=? 57)) || ((65 <=? c) && (c <=? 90)) ||
  ((97 <=? c) && (c <=? 122)).

(** The characters [encodeURIComponent] leaves alone:
    letters, digits and  - _ . ! ~ * ' ( ) *)
Definition uri_unreserved (c : N) : bool :=
  is_alnum c ||
  existsb (N.eqb c) [45; 95; 46; 33; 126; 42; 39; 40; 41].

(** *** Thrown values and fallible computations *)

(** What a [throw] or a rejected promise carries.  [UserError] is
    [new Error(message)]; the others are raised by the runtime. *)
Inductive Thrown :=
| UserError (message : jsstring)
| TypeError
| URIError
| SyntaxError
| FetchFailed
| BodyUnreadable.

Inductive Result (A : Type) :=
| Ok (a : A)
| Throw (e : Thrown).
Arguments Ok {A} a.
Arguments Throw {A} e.

Definition bind {A B} (r : Result A) (k : A -> Result B) : Result B :=
  match r with
  | Ok a => k a
  | Throw e => Throw e
  end.

(** [p.catch(() => d)] *)
Definition catch {A} (r : Result A) (d : A) : A :=
  match r with
  | Ok a => a
  | Throw _ => d
  end.

Definition returns {A} (r : Result A) : bool :=
  match r with Ok _ => true | Throw _ => false end.

(** [encodeURIComponent(s)]: unreserved ASCII is kept, every other code
    point is written as the percent-encoded bytes of its UTF-8 form; a lone
    surrogate raises URIError. *)
Definition encode_point (c : CodePoint) : Result jsstring :=
  match c with
  | LoneSurrogate _ => Throw URIError
  | Scalar n =>
      if (n <? 128) && uri_unreserved n then Ok [n]
      else Ok (flat_map percent_byte (utf8_scalar n))
  end.

Fixpoint encode_points (cs : list CodePoint) : Result jsstring :=
  match cs with
  | [] => Ok []
  | c :: cs' =>
      bind (encode_point c) (fun x =>
      bind (encode_points cs') (fun xs => Ok (x ++ xs)))
  end.

Definition encodeURIComponent (s : jsstring) : Result jsstring :=
  encode_points (code_points s).

(** The serializer of [URLSearchParams]: UTF-8 bytes, a space becomes [+],
    letters, digits and  * - . _  are kept, every other byte is
    percent-encoded; pairs are joined by [&]. *)
Definition form_byte (b : N) : jsstring :=
  if b =? 32 then [43]
  else if is_alnum b || existsb (N.eqb b) [42; 45; 46; 95] then [b]
  else percent_byte b.

Definition form_encode (s : jsstring) : jsstring :=
  flat_map form_byte (utf8_encode s).

Fixpoint join (sep : jsstring) (parts : list jsstring) : jsstring :=
  match parts with
  | [] => []
  | [p] => p
  | p :: rest => p ++ sep ++ join sep rest
  end.

Definition url_search_params (params : list (jsstring * jsstring)) : jsstring :=
  join (lit "&")
       (map (fun kv => form_encode (fst kv) ++ lit "=" ++ form_encode (snd kv))
            params).

(** *** Base64 ([buf.toString('base64')]) *)

Definition b64_char (i : N) : N :=
  if i <? 26 then 65 + i
  else if i <? 52 then 71 + i
  else if i <? 62 then i - 4
  else if i =? 62 then 43
  else 47.

Fixpoint base64 (bs : list N) : jsstring :=
  match bs with
  | [] => []
  | [a] =>
      [b64_char (N.shiftr a 2);
       b64_char (N.shiftl (N.land a 3) 4);
       61; 61]
  | [a; b] =>
      [b64_char (N.shiftr a 2);
       b64_char (N.lor (N.shiftl (N.land a 3) 4) (N.shiftr b 4));
       b64_char (N.shiftl (N.land b 15) 2);
       61]
  | a :: b :: c :: rest =>
      [b64_char (N.shiftr a 2);
       b64_char (N.lor (N.shiftl (N.land a 3) 4) (N.shiftr b 4));
       b64_char (N.lor (N.shiftl (N.land b 15) 2) (N.shiftr c 6));
       b64_char (N.land c 63)] ++ base64 rest
  end.

(** *** Values *)

(** The values that reach the programs: what [JSON.parse] produces, plus
    [undefined].  Numbers are restricted to integers; none of the code
    modelled here computes with a fraction.  The fields of an object are
    listed in property order, without repeated keys. *)
Inductive JSValue :=
| JUndefined
| JNull
| JBool (b : bool)
| JNum (z : Z)
| JStr (s : jsstring)
| JArr (items : list JSValue)
| JObj (fields : list (jsstring * JSValue)).

Fixpoint lookup (k : jsstring) (fields : list (jsstring * JSValue)) : JSValue :=
  match fields with
  | [] => JUndefined
  | (k', v) :: rest => if str_eqb k k' then v else lookup k rest
  end.

Definition is_nullish (v : JSValue) : bool :=
  match v with JUndefined | JNull => true | _ => false end.

(** [v.k] for a property name [k] that is neither [length] nor an index
    (so strings and arrays have no such own property): TypeError on
    [undefined] and [null]. *)
Definition get (v : JSValue) (k : jsstring) : Result JSValue :=
  match v with
  | JUndefined | JNull => Throw TypeError
  | JObj fields => Ok (lookup k fields)
  | _ => Ok JUndefined
  end.

(** [v?.k] *)
Definition get_opt (v : JSValue) (k : jsstring) : JSValue :=
  match v with
  | JObj fields => lookup k fields
  | _ => JUndefined
  end.

(** [a ?? b] *)
Definition nullish_or (a b : JSValue) : JSValue :=
  if is_nullish a then b else a.

(** ToString. *)
Fixpoint to_string (v : JSValue) : jsstring :=
  match v with
  | JUndefined => lit "undefined"
  | JNull => lit "null"
  | JBool true => lit "true"
  | JBool false => lit "false"
  | JNum z => Z_to_string z
  | JStr s => s
  | JArr items =>
      join (lit ",")
           ((fix each (l : list JSValue) : list jsstring :=
               match l with
               | [] => []
               | x :: r => (if is_nullish x then [] else to_string x) :: each r
               end) items)
  | JObj _ => lit "[object Object]"
  end.

(** *** JSON.stringify *)

Definition hex_lower (d : N) : N :=
  if d <? 10 then 48 + d else 87 + d.

(** [\uXXXX] *)
Definition unicode_escape (u : N) : jsstring :=
  [92; 117;
   hex_lower (N.land (N.shiftr u 12) 15);
   hex_lower (N.land (N.shiftr u 8) 15);
   hex_lower (N.land (N.shiftr u 4) 15);
   hex_lower (N.land u 15)].

Definition utf16_scalar (n : N) : jsstring :=
  if n <? 65536 then [n]
  else [55296 + (n - 65536) / 1024; 56320 + (n - 65536) mod 1024].

Definition quote_point (c : CodePoint) : jsstring :=
  match c with
  | LoneSurrogate u => unicode_escape u
  | Scalar n =>
      if n =? 8 then [92; 98]
      else if n =? 9 then [92; 116]
      else if n =? 10 then [92; 110]
      else if n =? 12 then [92; 102]
      else if n =? 13 then [92; 114]
      else if n =? 34 then [92; 34]
      else if n =? 92 then [92; 92]
      else if n <? 32 then unicode_escape n
      else utf16_scalar n
  end.

(** QuoteJSONString *)
Definition quote (s : jsstring) : jsstring :=
  [34] ++ flat_map quote_point (code_points s) ++ [34].

(** The text between the brackets of an array or object, for the
    serialized members [parts], at the indentation [stepback] of the
    enclosing value. *)
Definition wrap (open close gap stepback : jsstring) (parts : list jsstring)
  : jsstring :=
  match parts with
  | [] => open ++ close
  | _ :: _ =>
      if truthy_str gap then
        let indent := stepback ++ gap in
        open ++ [10] ++ indent ++ join ([44; 10] ++ indent) parts
             ++ [10] ++ stepback ++ close
      else open ++ join [44] parts ++ close
  end.

(** SerializeJSONProperty: [None] is [undefined]; a member of an object
    that serializes to [undefined] is left out, an element of an array
    becomes [null]. *)
Fixpoint serialize (gap stepback : jsstring) (v : JSValue) : option jsstring :=
  match v with
  | JUndefined => None
  | JNull => Some (lit "null")
  | JBool true => Some (lit "true")
  | JBool false => Some (lit "false")
  | JNum z => Some (Z_to_string z)
  | JStr s => Some (quote s)
  | JArr items =>
      Some (wrap [91] [93] gap stepback
        ((fix each (l : list JSValue) : list jsstring :=
            match l with
            | [] => []
            | x :: r =>
                match serialize gap (stepback ++ gap) x with
                | Some t => t
                | None => lit "null"
                end :: each r
            end) items))
  | JObj fields =>
      Some (wrap [123] [125] gap stepback
        ((fix each (l : list (jsstring * JSValue)) : list jsstring :=
            match l with
            | [] => []
            | (k, x) :: r =>
                match serialize gap (stepback ++ gap) x with
                | Some t =>
                    (quote k ++ [58] ++ (if truthy_str gap then [32] else []) ++ t)
                      :: each r
                | None => each r
                end
            end) fields))
  end.

(** [JSON.stringify(v)] and [JSON.stringify(v, null, 2)]. *)
Definition JSON_stringify (v : JSValue) : option jsstring :=
  serialize [] [] v.
Definition JSON_stringify_2 (v : JSValue) : option jsstring :=
  serialize [32; 32] [] v.

(** *** decodeURIComponent *)

Definition hex_value (c : N) : option N :=
  if (48 <=? c) && (c <=? 57) then Some (c - 48)
  else if (65 <=? c) && (c <=? 70) then Some (c - 55)
  else if (97 <=? c) && (c <=? 102) then Some (c - 87)
  else None.

(** A code unit taken as it is, or the byte of an escape [%XX]. *)
Inductive Token :=
| Plain (c : N)
| Escape (b : N).

(** The escapes of a string: a percent sign must be followed by two
    hexadecimal digits. *)
Fixpoint escapes (s : jsstring) : Result (list Token) :=
  match s with
  | [] => Ok []
  | c :: rest =>
      if c =? 37 then
        match rest with
        | h1 :: h2 :: rest' =>
            match hex_value h1, hex_value h2 with
            | Some a, Some b =>
                bind (escapes rest') (fun ts => Ok (Escape (16 * a + b) :: ts))
            | _, _ => Throw URIError
            end
        | _ => Throw URIError
        end
      else bind (escapes rest) (fun ts => Ok (Plain c :: ts))
  end.

Definition is_continuation (b : N) : bool := (128 <=? b) && (b <=? 191).

(** The escaped bytes read as UTF-8: a byte below 128 stands for itself,
    a lead byte takes the one, two or three continuation bytes that
    follow it as escapes; an overlong form, a surrogate, a code point
    above U+10FFFF and a stray continuation byte are errors. *)
Fixpoint unescape (ts : list Token) : Result jsstring :=
  match ts with
  | [] => Ok []
  | Plain c :: r => bind (unescape r) (fun s => Ok (c :: s))
  | Escape b :: r =>
      if b <? 128 then bind (unescape r) (fun s => Ok (b :: s))
      else if b <? 192 then Throw URIError
      else if b <? 224 then
        match r with
        | Escape b1 :: r' =>
            let cp := (b - 192) * 64 + (b1 - 128) in
            if is_continuation b1 && (128 <=? cp)
            then bind (unescape r') (fun s => Ok (cp :: s))
            else Throw URIError
        | _ => Throw URIError
        end
      else if b <? 240 then
        match r with
        | Escape b1 :: Escape b2 :: r' =>
            let cp := (b - 224) * 4096 + (b1 - 128) * 64 + (b2 - 128) in
            if is_continuation b1 && is_continuation b2 && (2048 <=? cp)
               && negb ((55296 <=? cp) && (cp <=? 57343))
            then bind (unescape r') (fun s => Ok (cp :: s))
            else Throw URIError
        | _ => Throw URIError
        end
      else if b <? 248 then
        match r with
        | Escape b1 :: Escape b2 :: Escape b3 :: r' =>
            let cp := (b - 240) * 262144 + (b1 - 128) * 4096
                      + (b2 - 128) * 64 + (b3 - 128) in
            if is_continuation b1 && is_continuation b2 && is_continuation b3
               && (65536 <=? cp) && (cp <=? 1114111)
            then bind (unescape r') (fun s => Ok (utf16_scalar cp ++ s))
            else Throw URIError
        | _ => Throw URIError
        end
      else Throw URIError
  end.

(** [decodeURIComponent(s)]: a URIError on a malformed escape. *)
Definition decodeURIComponent (s : jsstring) : Result jsstring :=
  bind (escapes s) unescape.

End JS.

Import JS.
Local Open Scope N_scope.

(* ================================================================== *)
(** ** HTTP: header lists, fetch responses, the server-side response *)
(* ================================================================== *)

Module Http.

Definition Headers := list (jsstring * jsstring).

Definition name_eqb (a b : jsstring) : bool :=
  str_eqb (toLowerCase a) (toLowerCase b).

(** [headers.get(name)] of a fetch response: header names compare without
    case, repeated headers are joined by a comma and a space, an absent
    header is [null]. *)
Definition headers_get (h : Headers) (name : jsstring) : option jsstring :=
  match filter (fun kv => name_eqb (fst kv) name) h with
  | [] => None
  | found => Some (join (lit ", ") (map snd found))
  end.

(** [x || d] for a string-or-null [x]: the fallback replaces [null] and
    the empty string. *)
Definition or_default (x : option jsstring) (d : jsstring) : jsstring :=
  match x with
  | Some (c :: r) => c :: r
  | _ => d
  end.

(** A response body as the reader of a stream sees it: chunks, then the
    end of the stream or an error. *)
Inductive Stream :=
| Chunk (c : list N) (rest : Stream)
| Closed
| Errored.

Fixpoint chunks_of (s : Stream) : list (list N) :=
  match s with
  | Chunk c rest => c :: chunks_of rest
  | Closed | Errored => []
  end.

Fixpoint stream_of (cs : list (list N)) (last : Stream) : Stream :=
  match cs with
  | [] => last
  | c :: cs' => Chunk c (stream_of cs' last)
  end.

(** A fetch [Response].  [resp_text] and [resp_json] are the outcomes of
    its [text()] and [json()] methods, [resp_body] its [body] property
    ([None] is a null body). *)
Record Response := {
  status : N;
  statusText : jsstring;
  resp_headers : Headers;
  resp_body : option Stream;
  resp_text : Result jsstring;
  resp_json : Result JSValue
}.

(** [res.ok] *)
Definition ok (r : Response) : bool :=
  (200 <=? status r) && (status r <=? 299).

Record FetchRequest := {
  url : jsstring;
  fetch_method : jsstring;
  fetch_headers : Headers;
  fetch_body : option jsstring
}.

(** The upstream: what each outgoing request is answered with. *)
Definition Fetch := FetchRequest -> Result Response.

(** The response the server is writing to its client. *)
Record ServerResponse := {
  statusCode : N;
  headers : Headers;
  written : list (list N);
  ended : bool
}.

Definition fresh : ServerResponse :=
  {| statusCode := 200; headers := []; written := []; ended := false |}.

Definition res_status (code : N) (r : ServerResponse) : ServerResponse :=
  {| statusCode := code; headers := headers r;
     written := written r; ended := ended r |}.

Definition res_setHeader (name value : jsstring) (r : ServerResponse)
  : ServerResponse :=
  {| statusCode := statusCode r;
     headers := filter (fun kv => negb (name_eqb (fst kv) name)) (headers r)
                  ++ [(name, value)];
     written := written r; ended := ended r |}.

(** [res.write(chunk)]: nothing is written once the response has ended. *)
Definition res_write (chunk : list N) (r : ServerResponse) : ServerResponse :=
  if ended r then r
  else {| statusCode := statusCode r; headers := headers r;
          written := written r ++ [chunk]; ended := false |}.

(** [res.end()]: a second call changes nothing. *)
Definition res_end (r : ServerResponse) : ServerResponse :=
  {| statusCode := statusCode r; headers := headers r;
     written := written r; ended := true |}.

(** [res.json(v)] in a handler that only POST requests reach: the
    compact JSON text of [v].  (What [res.send] does for GET and HEAD
    requests is in [Express.send].) *)
Definition res_json (v : JSValue) (r : ServerResponse) : ServerResponse :=
  res_end (res_write (utf8_encode (or_default (JSON_stringify v) []))
    (res_setHeader (lit "Content-Type")
                   (lit "application/json; charset=utf-8") r)).

(** The reason phrases of the status codes the programs send. *)
Definition status_message (code : N) : jsstring :=
  if code =? 200 then lit "OK"
  else if code =? 204 then lit "No Content"
  else if code =? 400 then lit "Bad Request"
  else if code =? 404 then lit "Not Found"
  else if code =? 413 then lit "Payload Too Large"
  else N_to_string code.

Definition res_removeHeader (name : jsstring) (r : ServerResponse)
  : ServerResponse :=
  {| statusCode := statusCode r;
     headers := filter (fun kv => negb (name_eqb (fst kv) name)) (headers r);
     written := written r; ended := ended r |}.

End Http.

Import Http.

(* ================================================================== *)
(** ** Express: requests, path patterns and the router *)
(* ================================================================== *)

Module Express.

Inductive Method := GET | HEAD | POST | PUT | PATCH | DELETE | OPTIONS.

Definition method_eqb (a b : Method) : bool :=
  match a, b with
  | GET, GET | HEAD, HEAD | POST, POST | PUT, PUT
  | PATCH, PATCH | DELETE, DELETE | OPTIONS, OPTIONS => true
  | _, _ => false
  end.

(** What [express.json()] makes of the request body: the value it leaves
    in [req.body], or the status of the error it passes on (400 for text
    that does not parse, 413 above the size limit). *)
Inductive Body :=
| Parsed (v : JSValue)
| Rejected (code : N).

(** An inbound request; [path] is the path of the URL, without the query
    string.  [revalidates] tells whether the request is a conditional one
    whose validators cover the response being sent: it carries an
    [If-None-Match] that names the entity tag Express computes for the
    body (or the star), and no [Cache-Control: no-cache]. *)
Record Request := {
  method : Method;
  path : jsstring;
  body : Body;
  revalidates : bool
}.

Definition req_body (req : Request) : JSValue :=
  match body req with
  | Parsed v => v
  | Rejected _ => JUndefined
  end.

(** What a request has caused so far. *)
Inductive Event :=
| UpstreamCall (r : FetchRequest)
| SseConnect
| ConsoleError (text : jsstring).

Record St := {
  res : ServerResponse;
  events : list Event
}.

Definition init : St := {| res := fresh; events := [] |}.

Definition on_res (f : ServerResponse -> ServerResponse) (st : St) : St :=
  {| res := f (res st); events := events st |}.

Definition emit (e : Event) (st : St) : St :=
  {| res := res st; events := events st ++ [e] |}.

Definition is_upstream (e : Event) : bool :=
  match e with UpstreamCall _ => true | _ => false end.

(** How a handler leaves the request: it called [next()], it answered (or
    keeps the response open), it called [next(err)] with a status, or it
    threw. *)
Inductive Signal :=
| Next
| Handled
| NextErr (code : N)
| Escaped (e : Thrown).

Definition Handler := Request -> St -> St * Signal.

(** The path patterns the programs register, as the router compiles them
    (matching ignores case, a route tolerates one trailing slash):
    - [MountAll]   app.use(fn)
    - [Mount p]    app.use(p, fn): [p], then the end or a slash
    - [Literal p]  a route on the fixed path [p]
    - [Param p]    a route on [p/:name]: one nonempty segment after [p/]
    - [Splat p]    a route on [p/:name] with the star pattern: anything
                   after [p/]
    - [Star]       a route on the lone star *)
Inductive Pattern :=
| MountAll
| Mount (p : jsstring)
| Literal (p : jsstring)
| Param (p : jsstring)
| Splat (p : jsstring)
| Star.

Fixpoint strip_prefix (p s : jsstring) : option jsstring :=
  match p, s with
  | [], _ => Some s
  | _ :: _, [] => None
  | x :: p', y :: s' =>
      if lower_unit x =? lower_unit y then strip_prefix p' s' else None
  end.

Definition slash : N := 47.

(** A nonempty run without a slash, then at most one closing slash. *)
Fixpoint one_segment (s : jsstring) : bool :=
  match s with
  | [] => false
  | c :: r =>
      negb (c =? slash) &&
      match r with
      | [] => true
      | [d] => true
      | _ :: _ :: _ => one_segment r
      end
  end.

(** [s] without its closing slash, when it has one. *)
Definition strip_slash (s : jsstring) : jsstring :=
  match List.rev s with
  | c :: r => if c =? slash then List.rev r else s
  | [] => s
  end.

(** Whether the compiled expression of the pattern accepts the path.  The
    slash a route tolerates at the end is the closing slash of the
    pattern itself when it has one: the route on the root path accepts
    the root path and nothing longer. *)
Definition matches (pat : Pattern) (s : jsstring) : bool :=
  match pat with
  | MountAll | Star => true
  | Mount p =>
      match strip_prefix p s with
      | Some [] => true
      | Some (c :: _) => c =? slash
      | None => false
      end
  | Literal p =>
      match strip_prefix (strip_slash p) s with
      | Some [] => true
      | Some [c] => c =? slash
      | _ => false
      end
  | Param p =>
      match strip_prefix (p ++ [slash]) s with
      | Some rest => one_segment rest
      | None => false
      end
  | Splat p =>
      match strip_prefix (p ++ [slash]) s with
      | Some _ => true
      | None => false
      end
  end.

(** The text a pattern with a parameter captures from a path it accepts:
    the segment, the remainder, the whole path. *)
Definition captured (pat : Pattern) (s : jsstring) : option jsstring :=
  match pat with
  | Param p =>
      match strip_prefix (p ++ [slash]) s with
      | Some rest => Some (strip_slash rest)
      | None => None
      end
  | Splat p => strip_prefix (p ++ [slash]) s
  | Star => Some s
  | MountAll | Mount _ | Literal _ => None
  end.

(** The router passes what a layer captured through
    [decodeURIComponent]. *)
Definition params_decode (pat : Pattern) (s : jsstring) : bool :=
  match captured pat s with
  | Some v => returns (decodeURIComponent v)
  | None => true
  end.

(** A layer of the router stack: middleware ([verb = None]) runs for every
    method, a route only for its verb; a GET route also serves HEAD. *)
Record Layer := {
  verb : option Method;
  pattern : Pattern;
  handler : Handler
}.

Definition handles (v : Method) (m : Method) : bool :=
  method_eqb v m || (method_eqb v GET && method_eqb m HEAD).

(** The response of the default error handler to [next(err)] and to a
    thrown error. *)
Definition error_response (code : N) (st : St) : St :=
  on_res (fun r => res_end (res_write (utf8_encode (status_message code))
                     (res_status code r))) st.

Definition not_found : St -> St := error_response 404.

(** The stack is walked in registration order.  A layer is tried when its
    pattern accepts the path; its parameter is decoded before the method
    is looked at, and a parameter that does not decode ends the walk with
    the error response 400: no later handler runs.  A route whose path
    matches an OPTIONS request for which it has no handler is remembered;
    when nothing answers, such a request gets the automatic 200 with the
    [Allow] list, every other request the default 404. *)
Fixpoint route (stack : list Layer) (req : Request) (allowed : bool) (st : St)
  : St * option Thrown :=
  match stack with
  | [] =>
      if allowed then (on_res (fun r => res_end (res_status 200 r)) st, None)
      else (not_found st, None)
  | l :: rest =>
      if matches (pattern l) (path req) then
        if params_decode (pattern l) (path req) then
          match verb l with
          | Some v =>
              if handles v (method req) then
                match handler l req st with
                | (st', Next) => route rest req allowed st'
                | (st', Handled) => (st', None)
                | (st', NextErr code) => (error_response code st', None)
                | (st', Escaped e) => (st', Some e)
                end
              else route rest req (allowed || method_eqb (method req) OPTIONS) st
          | None =>
              match handler l req st with
              | (st', Next) => route rest req allowed st'
              | (st', Handled) => (st', None)
              | (st', NextErr code) => (error_response code st', None)
              | (st', Escaped e) => (st', Some e)
              end
          end
        else (error_response 400 st, None)
      else route rest req allowed st
  end.

Definition serve (stack : list Layer) (req : Request) : St * option Thrown :=
  route stack req false init.

(** [req.fresh], as [res.send] reads it: a GET or HEAD request, a
    response status of the 2xx range (or 304), validators that cover the
    response. *)
Definition req_fresh (req : Request) (r : ServerResponse) : bool :=
  (method_eqb (method req) GET || method_eqb (method req) HEAD)
  && (((200 <=? statusCode r) && (statusCode r <? 300)) || (statusCode r =? 304))
  && revalidates req.

(** [res.send(text)] on a response of the given content type: a fresh
    request is answered 304; a 204 and a 304 lose the content type and
    the body; a HEAD request gets the head alone.  (The [ETag] header
    Express adds, a hash of the body, is left out.) *)
Definition send (req : Request) (content_type text : jsstring)
  (r : ServerResponse) : ServerResponse :=
  let r1 := res_setHeader (lit "Content-Type") content_type r in
  let r2 := if req_fresh req r1 then res_status 304 r1 else r1 in
  if (statusCode r2 =? 204) || (statusCode r2 =? 304)
  then res_end (res_removeHeader (lit "Content-Type") r2)
  else if method_eqb (method req) HEAD then res_end r2
  else res_end (res_write (utf8_encode text) r2).

(** [res.json(v)] *)
Definition send_json (req : Request) (v : JSValue) (r : ServerResponse)
  : ServerResponse :=
  send req (lit "application/json; charset=utf-8")
       (or_default (JSON_stringify v) []) r.

(** [res.sendStatus(code)]: the reason phrase as a text body. *)
Definition res_sendStatus (req : Request) (code : N) (r : ServerResponse)
  : ServerResponse :=
  send req (lit "text/plain; charset=utf-8") (status_message code)
       (res_status code r).

(** [(req, res) => res.sendStatus(code)] *)
Definition send_status (code : N) : Handler :=
  fun req st => (on_res (res_sendStatus req code) st, Handled).

(** The middleware of the two SSE variants:
    [Cache-Control] and [X-Accel-Buffering], then [next()]. *)
Definition sse_headers : Handler :=
  fun _ st =>
    (on_res (fun r =>
       res_setHeader (lit "X-Accel-Buffering") (lit "no")
         (res_setHeader (lit "Cache-Control") (lit "no-cache, no-transform") r))
       st, Next).

(** [handleSse] of part_000: the response is handed to the
    [SSEServerTransport] of the MCP library and stays open. *)
Definition handleSse : Handler :=
  fun _ st => (emit SseConnect st, Handled).

(** [cors()] with its default options: a preflight (OPTIONS) request is
    answered 204 with an empty body, any other request gets the
    allow-origin header and goes on.  (The preflight answer also echoes
    the [Access-Control-Request-Headers] of the request; requests carry no
    headers here.) *)
Definition cors : Handler :=
  fun req st =>
    let st1 := on_res (res_setHeader (lit "Access-Control-Allow-Origin") (lit "*")) st in
    if method_eqb (method req) OPTIONS then
      (on_res (fun r =>
         res_end (res_setHeader (lit "Content-Length") (lit "0")
           (res_status 204
             (res_setHeader (lit "Vary") (lit "Access-Control-Request-Headers")
               (res_setHeader (lit "Access-Control-Allow-Methods")
                              (lit "GET,HEAD,PUT,PATCH,POST,DELETE") r))))) st1,
       Handled)
    else (st1, Next).

(** [express.json(...)]: a body it cannot accept is passed on as an
    error, otherwise [req.body] is set and the request goes on. *)
Definition express_json : Handler :=
  fun req st =>
    match body req with
    | Rejected code => (st, NextErr code)
    | Parsed _ => (st, Next)
    end.

(** *** Handler bodies: state and exceptions *)

Definition M (A : Type) := St -> St * Result A.

Definition ret {A} (a : A) : M A := fun st => (st, Ok a).

Definition raise {A} (e : Thrown) : M A := fun st => (st, Throw e).

Definition bindM {A B} (c : M A) (k : A -> M B) : M B :=
  fun st =>
    match c st with
    | (st', Ok a) => k a st'
    | (st', Throw e) => (st', Throw e)
    end.

(** [try { c } catch (err) { h(err) }]; also [c.catch(h)] on a promise. *)
Definition try_catch {A} (c : M A) (h : Thrown -> M A) : M A :=
  fun st =>
    match c st with
    | (st', Ok a) => (st', Ok a)
    | (st', Throw e) => h e st'
    end.

Definition respond (f : ServerResponse -> ServerResponse) : M unit :=
  fun st => (on_res f st, Ok tt).

Definition log (e : Event) : M unit :=
  fun st => (emit e st, Ok tt).

Definition when (b : bool) (c : M unit) : M unit :=
  if b then c else ret tt.

(** An async route handler as a layer: a rejection of its promise is not
    turned into a response. *)
Definition async_handler (h : Request -> M unit) : Handler :=
  fun req st =>
    match h req st with
    | (st', Ok _) => (st', Handled)
    | (st', Throw e) => (st', Escaped e)
    end.

End Express.

Import Express.

Declare Scope handler_scope.
Delimit Scope handler_scope with handler.
Notation "x <- c ;; k" := (bindM c (fun x => k))
  (at level 61, c at next level, right associativity) : handler_scope.
Notation "c ;; k" := (bindM c (fun _ => k))
  (at level 61, right associativity) : handler_scope.

(* ================================================================== *)
(** ** src/server.js: the streaming bridge *)
(* ================================================================== *)

Module Bridge.

Section Program.

(** Configuration read from the environment, and the upstream. *)
Variable TARGET_STREAM_URL : jsstring.
Variable BEARER : jsstring.
Variable fetch : Fetch.

Local Open Scope handler_scope.

Definition call_upstream (r : FetchRequest) : M Response :=
  fun st => (emit (UpstreamCall r) st, fetch r).

(** The underlying sink of a [WritableStream]. *)
Record Sink := {
  sink_write : list N -> M unit;
  sink_close : M unit;
  sink_abort : M unit
}.

(** [readable.pipeTo(new WritableStream(sink))]: every chunk read is
    written to the sink in turn; the end of the source closes the sink and
    fulfils the promise, an error of the source aborts the sink and rejects
    the promise. *)
Fixpoint pipeTo (s : Stream) (sink : Sink) : M unit :=
  match s with
  | Chunk c rest => sink_write sink c ;; pipeTo rest sink
  | Closed => sink_close sink
  | Errored => sink_abort sink ;; raise BodyUnreadable
  end.

(** The sink of lines 63-73. *)
Definition client_sink : Sink :=
  {| sink_write := fun chunk => respond (res_write chunk);
     sink_close := respond res_end;
     sink_abort := respond res_end |}.

Definition proxy_error (id : JSValue) : JSValue :=
  JObj [(lit "jsonrpc", JStr (lit "2.0"));
        (lit "id", id);
        (lit "error", JObj [(lit "code", JNum (-32603));
                            (lit "message", JStr (lit "Upstream proxy error"))])].

(** Lines 33-46: the request sent upstream. *)
Definition forwarded (req : Request) : FetchRequest :=
  let headers :=
    [(lit "Content-Type", lit "application/json");
     (lit "Accept", lit "application/json, text/event-stream")]
    ++ (if truthy_str BEARER
        then [(lit "Authorization", lit "Bearer " ++ BEARER)] else []) in
  let body := JSON_stringify (nullish_or (req_body req) (JObj [])) in
  {| url := TARGET_STREAM_URL;
     fetch_method := lit "POST";
     fetch_headers := headers;
     fetch_body := body |}.

(** [app.post("/sse", async (req, res) => ...)] *)
Definition post_sse (req : Request) : M unit :=
  try_catch
    (upstream <- call_upstream (forwarded req) ;;
     respond (res_status (status upstream)) ;;
     let ct := or_default (headers_get (resp_headers upstream) (lit "content-type"))
                          (lit "application/json") in
     let proto := or_default (headers_get (resp_headers upstream)
                                          (lit "mcp-protocol-version")) [] in
     let transport := or_default (headers_get (resp_headers upstream)
                                              (lit "x-transport-type")) [] in
     respond (res_setHeader (lit "Content-Type") ct) ;;
     when (truthy_str proto)
          (respond (res_setHeader (lit "mcp-protocol-version") proto)) ;;
     when (truthy_str transport)
          (respond (res_setHeader (lit "x-transport-type") transport)) ;;
     match resp_body upstream with
     | None => respond res_end
     | Some stream =>
         try_catch (pipeTo stream client_sink) (fun _ => respond res_end)
     end)
    (fun err =>
       log (ConsoleError (lit "Proxy error:")) ;;
       respond (res_status 502) ;;
       respond (res_json (proxy_error
                            (nullish_or (get_opt (req_body req) (lit "id")) JNull)))).

(** [app.get("/health", ...)] and the closing [app.get("/", ...)]. *)
Definition health : Handler :=
  fun req st =>
    (on_res (fun r => send req (lit "text/html; charset=utf-8") (lit "ok")
                           (res_status 200 r)) st, Handled).

Definition root : Handler :=
  fun req st =>
    (on_res (fun r =>
       send_json req (JObj [(lit "ok", JBool true);
                            (lit "sse", JStr (lit "/sse"));
                            (lit "target", JStr TARGET_STREAM_URL)])
                 (res_status 200 r)) st, Handled).

(** Lines 25-28. *)
Definition options_204 : Handler :=
  fun req st =>
    if method_eqb (method req) OPTIONS
    then (on_res (res_sendStatus req 204) st, Handled)
    else (st, Next).

(** The application, in registration order. *)
Definition app : list Layer :=
  [ {| verb := None; pattern := MountAll; handler := cors |};
    {| verb := None; pattern := MountAll; handler := express_json |};
    {| verb := Some GET; pattern := Literal (lit "/health"); handler := health |};
    {| verb := None; pattern := Mount (lit "/.well-known");
       handler := send_status 404 |};
    {| verb := None; pattern := MountAll; handler := options_204 |};
    {| verb := Some POST; pattern := Literal (lit "/sse");
       handler := async_handler post_sse |};
    {| verb := Some GET; pattern := Literal (lit "/"); handler := root |} ].

End Program.

End Bridge.

(* ================================================================== *)
(** ** The process: environment, start-up, tool results *)
(* ================================================================== *)

Module Proc.

(** [process.env]: a variable is a string or is absent ([undefined]). *)
Definition Env := string -> option jsstring.

(** A value of [process.env] inside a template literal or under
    [String(...)]: an absent variable reads "undefined". *)
Definition template (x : option jsstring) : jsstring :=
  match x with
  | Some s => s
  | None => lit "undefined"
  end.

(** [!x] for a value of [process.env]: absent or empty. *)
Definition missing (x : option jsstring) : bool :=
  match x with
  | Some (_ :: _) => false
  | _ => true
  end.

(** How the top level of a program ends: the module does not link,
    because it imports [name] from a module that does not export it, and
    no statement runs; [process.exit(code)] after the lines written to
    standard error; or a server that listens, with the configuration its
    handlers close over. *)
Inductive Process (Config : Type) :=
| Unlinked (name : string)
| Exited (code : N) (stderr : list jsstring)
| Listening (cfg : Config).
Arguments Unlinked {Config} name.
Arguments Exited {Config} code stderr.
Arguments Listening {Config} cfg.

(** The names the module [@modelcontextprotocol/sdk/server/sse.js]
    exports. *)
Definition sse_module_exports : list string := ["SSEServerTransport"%string].

Definition exported (name : string) (exports : list string) : bool :=
  existsb (String.eqb name) exports.

(** The content array a tool handler returns. *)
Record ContentItem := {
  type : jsstring;
  text : option jsstring
}.

Definition ToolResult := list ContentItem.

Definition text_content (t : option jsstring) : ToolResult :=
  [{| type := lit "text"; text := t |}].

(** Truthiness of a value. *)
Definition truthy (v : JSValue) : bool :=
  match v with
  | JUndefined | JNull | JBool false | JNum Z0 | JStr [] => false
  | _ => true
  end.

Fixpoint map_result {A B} (f : A -> Result B) (l : list A) : Result (list B) :=
  match l with
  | [] => Ok []
  | x :: r =>
      bind (f x) (fun y => bind (map_result f r) (fun ys => Ok (y :: ys)))
  end.

(** The object literal [{ k1: c.k1, k2: c.k2, ... }]. *)
Definition pick (names : list jsstring) (c : JSValue) : Result JSValue :=
  bind (map_result (fun k => bind (get c k) (fun v => Ok (k, v))) names)
       (fun fields => Ok (JObj fields)).

(** [data.map(f)] on a value that has come out of [JSON.parse]: only an
    array has [map]. *)
Definition array_map (f : JSValue -> Result JSValue) (data : JSValue)
  : Result JSValue :=
  match data with
  | JArr items => bind (map_result f items) (fun l => Ok (JArr l))
  | _ => Throw TypeError
  end.

End Proc.

Import Proc.

(* ================================================================== *)
(** ** src/unnamed/part_000, first program: header or query auth *)
(* ================================================================== *)

Module VariantA.

Section Program.

Variable env : Env.
Variable fetch : Fetch.

Definition base : jsstring := template (env "WC_URL"%string) ++ lit "/wp-json/wc/v3".

Definition useQueryAuth : bool :=
  str_eqb (toLowerCase (or_default (env "WC_AUTH_IN_QUERY"%string) []))
          (lit "true").

Definition authHeaders : Headers :=
  [(lit "Content-Type", lit "application/json")]
  ++ (if negb useQueryAuth
      then [(lit "Authorization",
             lit "Basic " ++
             base64 (utf8_encode (template (env "WC_KEY"%string) ++ lit ":" ++
                                  template (env "WC_SECRET"%string))))]
      else []).

Definition withAuth (path : jsstring) : Result jsstring :=
  if negb useQueryAuth then Ok (base ++ path)
  else
    let sep := if includes path (lit "?") then lit "&" else lit "?" in
    bind (encodeURIComponent (template (env "WC_KEY"%string))) (fun k =>
    bind (encodeURIComponent (template (env "WC_SECRET"%string))) (fun s =>
    Ok (base ++ path ++
        (sep ++ lit "consumer_key=" ++ k) ++
        (lit "&consumer_secret=" ++ s)))).

(** [wc(path, method = 'GET', body)] *)
Definition wc (path method : jsstring) (body : JSValue) : Result JSValue :=
  bind (withAuth path) (fun target =>
  bind (fetch {| url := target;
                 fetch_method := method;
                 fetch_headers := authHeaders;
                 fetch_body := if truthy body then JSON_stringify body else None |})
       (fun res =>
  if negb (ok res) then
    let txt := catch (resp_text res) [] in
    Throw (UserError (N_to_string (status res) ++ lit " " ++ statusText res ++
                      (if truthy_str txt then lit " - " ++ txt else [])))
  else
    let ct := or_default (headers_get (resp_headers res) (lit "content-type")) [] in
    if includes ct (lit "application/json") then resp_json res else Ok JNull)).

(** The [ping] and [list_categories] tools. *)
Definition ping : Result ToolResult := Ok (text_content (Some (lit "pong"))).

Definition list_categories (input : JSValue) : Result ToolResult :=
  let per := nullish_or (get_opt input (lit "per_page")) (JNum 50) in
  let page := nullish_or (get_opt input (lit "page")) (JNum 1) in
  bind (wc (lit "/products/categories?per_page=" ++ to_string per ++
            lit "&page=" ++ to_string page) (lit "GET") JUndefined) (fun data =>
  bind (array_map (pick [lit "id"; lit "name"; lit "slug"; lit "count"])
                  (if truthy data then data else JArr [])) (fun slim =>
  Ok (text_content (JSON_stringify_2 slim)))).

(** The one route. *)
Definition app : list Layer :=
  [ {| verb := Some GET; pattern := Literal (lit "/sse"); handler := handleSse |} ].

End Program.

(** The top level: nothing is checked; the server listens whatever the
    environment holds. *)
Definition startup (env : Env) : Process Env := Listening env.

End VariantA.

(* ================================================================== *)
(** ** src/unnamed/part_000, second program: ping, time, probe routes *)
(* ================================================================== *)

Module VariantB.

Definition ping : Result ToolResult := Ok (text_content (Some (lit "pong"))).

(** [time]: the clock reading, as ISO text, is the input. *)
Definition time (now_iso : jsstring) : Result ToolResult :=
  Ok (text_content (Some now_iso)).

Definition app : list Layer :=
  [ {| verb := None; pattern := MountAll; handler := sse_headers |};
    {| verb := Some GET; pattern := Splat (lit "/.well-known");
       handler := send_status 404 |};
    {| verb := Some OPTIONS; pattern := Star; handler := send_status 204 |};
    {| verb := Some POST; pattern := Star; handler := send_status 200 |};
    {| verb := Some GET; pattern := Literal (lit "/sse"); handler := handleSse |};
    {| verb := Some GET; pattern := Literal (lit "/"); handler := handleSse |} ].

End VariantB.

(* ================================================================== *)
(** ** src/unnamed/part_001: the WooCommerce product tools *)
(* ================================================================== *)

Module Woo.

(** The three constants of lines 7-9, once the check of line 11 has
    passed. *)
Record Config := {
  BASE_URL : jsstring;
  CK : jsstring;
  CS : jsstring
}.

(** Lines 4-14.  The import of line 4 is resolved before any statement
    runs: [exports] are the names the SSE module of the library provides.
    Only when [SseServerTransport] is among them does the check of line 11
    run. *)
Definition startup (exports : list string) (env : Env) : Process Config :=
  if negb (exported "SseServerTransport" exports)
  then Unlinked "SseServerTransport"
  else if missing (env "BASE_URL"%string)
          || missing (env "WOO_CONSUMER_KEY"%string)
          || missing (env "WOO_CONSUMER_SECRET"%string)
  then Exited 1 [lit "Missing env: BASE_URL, WOO_CONSUMER_KEY, WOO_CONSUMER_SECRET"]
  else Listening {| BASE_URL := template (env "BASE_URL"%string);
                    CK := template (env "WOO_CONSUMER_KEY"%string);
                    CS := template (env "WOO_CONSUMER_SECRET"%string) |}.

Section Program.

Variable cfg : Config.
Variable fetch : Fetch.

Definition wcHeaders : Headers :=
  let token := base64 (utf8_encode (CK cfg ++ lit ":" ++ CS cfg)) in
  [(lit "Authorization", lit "Basic " ++ token);
   (lit "Content-Type", lit "application/json");
   (lit "Accept", lit "application/json")].

(** [wcGet(path, params = {})]; [params] holds the entries of the object
    as [URLSearchParams] reads them, each value as a string. *)
Definition wcGet (path : jsstring) (params : list (jsstring * jsstring))
  : Result JSValue :=
  let qs := url_search_params params in
  let target := BASE_URL cfg ++ path ++ (if truthy_str qs then lit "?" ++ qs else []) in
  bind (fetch {| url := target; fetch_method := lit "GET";
                 fetch_headers := wcHeaders; fetch_body := None |}) (fun res =>
  if negb (ok res) then
    bind (resp_text res) (fun txt =>
    Throw (UserError (lit "Woo GET " ++ target ++ lit " -> " ++
                      N_to_string (status res) ++ lit " " ++ txt)))
  else resp_json res).

Definition wcPut (path : jsstring) (body : JSValue) : Result JSValue :=
  let target := BASE_URL cfg ++ path in
  bind (fetch {| url := target; fetch_method := lit "PUT";
                 fetch_headers := wcHeaders;
                 fetch_body := JSON_stringify body |}) (fun res =>
  if negb (ok res) then
    bind (resp_text res) (fun txt =>
    Throw (UserError (lit "Woo PUT " ++ target ++ lit " -> " ++
                      N_to_string (status res) ++ lit " " ++ txt)))
  else resp_json res).

(** *** Tools *)

Definition ping : Result ToolResult := Ok (text_content (Some (lit "pong"))).

(** A destructured parameter with a default: [{ k = d }]. *)
Definition param_or (input : list (jsstring * JSValue)) (k : jsstring)
  (d : JSValue) : JSValue :=
  match lookup k input with
  | JUndefined => d
  | v => v
  end.

(** The handlers take the members of the arguments object of the call. *)
Definition wc_search_products (input : list (jsstring * JSValue))
  : Result ToolResult :=
  let q := lookup (lit "q") input in
  let per_page := param_or input (lit "per_page") (JNum 10) in
  let page := param_or input (lit "page") (JNum 1) in
  bind (wcGet (lit "/wp-json/wc/v3/products")
              [(lit "search", to_string q);
               (lit "per_page", to_string per_page);
               (lit "page", to_string page);
               (lit "orderby", lit "date");
               (lit "order", lit "desc")]) (fun data =>
  bind (array_map (pick [lit "id"; lit "name"; lit "price"; lit "permalink";
                         lit "status"; lit "stock_status"; lit "date_modified"])
                  data) (fun items =>
  Ok (text_content (JSON_stringify_2 items)))).

Definition wc_get_product (input : list (jsstring * JSValue))
  : Result ToolResult :=
  let id := lookup (lit "id") input in
  bind (wcGet (lit "/wp-json/wc/v3/products/" ++ to_string id) []) (fun p =>
  bind (pick [lit "id"; lit "name"; lit "permalink"; lit "description";
              lit "short_description"; lit "price"; lit "stock_status"] p)
       (fun out =>
  Ok (text_content (JSON_stringify_2 out)))).

(** [d?.slice(0, 200)]: nothing is called on [undefined] or [null]; a
    string and an array have [slice]; on any other value of a JSON
    document [slice] is not a function. *)
Definition opt_slice200 (d : JSValue) : Result JSValue :=
  match d with
  | JUndefined | JNull => Ok JUndefined
  | JStr s => Ok (JStr (slice0 200 s))
  | JArr items => Ok (JArr (firstn 200 items))
  | JBool _ | JNum _ | JObj _ => Throw TypeError
  end.

(** [d?.length > 200], evaluated after [opt_slice200] has returned:
    [undefined > 200] is false. *)
Definition longer_than_200 (d : JSValue) : bool :=
  match d with
  | JStr s => 200 <? str_length s
  | JArr items => 200 <? N.of_nat (List.length items)
  | _ => false
  end.

(** Line 137: the value of the [description] member. *)
Definition description_of (d : JSValue) : Result JSValue :=
  bind (opt_slice200 d) (fun head =>
  Ok (JStr (to_string head ++ (if longer_than_200 d then ellipsis else [])))).

(** Lines 132-139: the object [out]. *)
Definition update_out (updated : JSValue) : Result JSValue :=
  bind (get updated (lit "id")) (fun id =>
  bind (get updated (lit "name")) (fun name =>
  bind (get updated (lit "permalink")) (fun permalink =>
  bind (get updated (lit "short_description")) (fun short_description =>
  bind (get updated (lit "description")) (fun d =>
  bind (description_of d) (fun description =>
  bind (get updated (lit "date_modified")) (fun date_modified =>
  Ok (JObj [(lit "id", id);
            (lit "name", name);
            (lit "permalink", permalink);
            (lit "short_description", short_description);
            (lit "description", description);
            (lit "date_modified", date_modified)])))))))).

Definition wc_update_product (input : list (jsstring * JSValue))
  : Result ToolResult :=
  let id := lookup (lit "id") input in
  let patch := JObj (filter (fun kv => negb (str_eqb (fst kv) (lit "id"))) input) in
  bind (wcPut (lit "/wp-json/wc/v3/products/" ++ to_string id) patch)
       (fun updated =>
  bind (update_out updated) (fun out =>
  Ok (text_content (JSON_stringify_2 out)))).

(** *** Routes *)

(** Lines 158-161: the response is handed to a transport made with the
    class imported in line 4, which is there only in a module that has
    linked. *)
Definition handleSse : Handler :=
  fun _ st => (emit SseConnect st, Handled).

(** The routes of lines 146-163, which serve once the process listens. *)
Definition app : list Layer :=
  [ {| verb := None; pattern := MountAll; handler := sse_headers |};
    {| verb := Some GET; pattern := Param (lit "/.well-known");
       handler := send_status 404 |};
    {| verb := Some GET; pattern := Literal (lit "/sse"); handler := handleSse |};
    {| verb := Some GET; pattern := Literal (lit "/"); handler := handleSse |} ].

End Program.

End Woo.

(* ================================================================== *)
(** ** Vocabulary of the statements *)
(* ================================================================== *)

(** The state a relay leaves behind: every chunk of the stream appended
    to what was written, the response ended. *)
Definition relayed (st : St) (s : Stream) : St :=
  {| res := {| statusCode := statusCode (res st);
               headers := headers (res st);
               written := written (res st) ++ chunks_of s;
               ended := true |};
     events := events st |}.

(** How the promise of [pipeTo] settles. *)
Fixpoint pipe_outcome (s : Stream) : Result unit :=
  match s with
  | Chunk _ rest => pipe_outcome rest
  | Closed => Ok tt
  | Errored => Throw BodyUnreadable
  end.

(** A request was answered with [code], the response is complete, nothing
    escaped and no upstream call was made. *)
Definition answered (code : N) (out : St * option Thrown) : Prop :=
  snd out = None /\
  statusCode (res (fst out)) = code /\
  ended (res (fst out)) = true /\
  existsb is_upstream (events (fst out)) = false.

(** The error message of the specification:
    "<status> <statusText> - <body>", or "<status> <statusText>" when the
    captured body is empty. *)
Definition documented_message (code : N) (reason captured : jsstring) : jsstring :=
  N_to_string code ++ lit " " ++ reason ++
  match captured with
  | [] => []
  | _ :: _ => lit " - " ++ captured
  end.

(** The body text as captured: empty when it cannot be read. *)
Definition captured_body (r : Response) : jsstring := catch (resp_text r) [].

(** The requests [wc], [wcGet] and [wcPut] send. *)
Definition wc_request (env : Env) (target method : jsstring) (body : JSValue)
  : FetchRequest :=
  {| url := target; fetch_method := method;
     fetch_headers := VariantA.authHeaders env;
     fetch_body := if truthy body then JSON_stringify body else None |}.

Definition wcGet_url (cfg : Woo.Config) (path : jsstring)
  (params : list (jsstring * jsstring)) : jsstring :=
  Woo.BASE_URL cfg ++ path ++
  match url_search_params params with
  | [] => []
  | c :: qs => lit "?" ++ c :: qs
  end.

Definition wcGet_request (cfg : Woo.Config) (path : jsstring)
  (params : list (jsstring * jsstring)) : FetchRequest :=
  {| url := wcGet_url cfg path params; fetch_method := lit "GET";
     fetch_headers := Woo.wcHeaders cfg; fetch_body := None |}.

Definition put_request (cfg : Woo.Config) (input : list (jsstring * JSValue))
  : FetchRequest :=
  {| url := Woo.BASE_URL cfg ++ lit "/wp-json/wc/v3/products/" ++
            to_string (lookup (lit "id") input);
     fetch_method := lit "PUT";
     fetch_headers := Woo.wcHeaders cfg;
     fetch_body := JSON_stringify
       (JObj (filter (fun kv => negb (str_eqb (fst kv) (lit "id"))) input)) |}.

(** The message of [wcGet] on a failure. *)
Definition wcGet_message (target : jsstring) (code : N) (captured : jsstring)
  : jsstring :=
  lit "Woo GET " ++ target ++ lit " -> " ++ N_to_string code ++ lit " " ++ captured.

(** A string without a lone surrogate; every value of [process.env] is
    one. *)
Definition is_scalar (c : CodePoint) : bool :=
  match c with Scalar _ => true | LoneSurrogate _ => false end.

Definition well_formed (s : jsstring) : bool := forallb is_scalar (code_points s).

(** The serialized members of an object, at the indentation [inner]:
    ["key": value] for every member whose value serializes. *)
Definition members (gap inner : jsstring) (fields : list (jsstring * JSValue))
  : list jsstring :=
  flat_map (fun kv =>
    match serialize gap inner (snd kv) with
    | Some t => [quote (fst kv) ++ [58] ++ (if truthy_str gap then [32] else []) ++ t]
    | None => []
    end) fields.

(** The characters of a Base64 text: letters, digits, [+], [/] and the
    padding [=]. *)
Definition is_base64_char (c : N) : bool :=
  is_alnum c || (c =? 43) || (c =? 47) || (c =? 61).

(** The value of a Base64 character, and the reading of a padded Base64
    text back into bytes. *)
Definition b64_value (c : N) : option N :=
  if (65 <=? c) && (c <=? 90) then Some (c - 65)
  else if (97 <=? c) && (c <=? 122) then Some (c - 71)
  else if (48 <=? c) && (c <=? 57) then Some (c + 4)
  else if c =? 43 then Some 62
  else if c =? 47 then Some 63
  else None.

Fixpoint base64_decode (s : jsstring) : option (list N) :=
  match s with
  | [] => Some []
  | a :: b :: c :: d :: rest =>
      match b64_value a, b64_value b with
      | Some x, Some y =>
          if c =? 61 then
            match d =? 61, rest with
            | true, [] => Some [x * 4 + y / 16]
            | _, _ => None
            end
          else
            match b64_value c with
            | Some z =>
                if d =? 61 then
                  match rest with
                  | [] => Some [x * 4 + y / 16; (y mod 16) * 16 + z / 4]
                  | _ :: _ => None
                  end
                else
                  match b64_value d, base64_decode rest with
                  | Some w, Some bs =>
                      Some (x * 4 + y / 16 :: (y mod 16) * 16 + z / 4
                            :: (z mod 4) * 64 + w :: bs)
                  | _, _ => None
                  end
            | None => None
            end
      | _, _ => None
      end
  | _ => None
  end.

(** Bytes, code units and code points within their ranges. *)
Definition is_byte (b : N) : Prop := b < 256.
Definition is_unit (u : N) : Prop := u < 65536.

Definition point_in_range (c : CodePoint) : Prop :=
  match c with
  | Scalar n => n < 1114112
  | LoneSurrogate _ => True
  end.

(** A character that cannot end or split a query parameter. *)
Definition url_safe (c : N) : bool := uri_unreserved c || (c =? 37).

Definition missing_env_message : jsstring :=
  lit "Missing env: BASE_URL, WOO_CONSUMER_KEY, WOO_CONSUMER_SECRET".

(** *** Concrete inputs *)

Module Sample.

Definition target : jsstring := lit "https://shop.example/wp-json/wp/v2/wpmcp/streamable".

Definition rpc : JSValue :=
  JObj [(lit "jsonrpc", JStr (lit "2.0"));
        (lit "id", JNum 7);
        (lit "method", JStr (lit "tools/list"))].

Definition post_rpc : Request :=
  {| method := POST; path := lit "/sse"; body := Parsed rpc;
     revalidates := false |}.

Definition streaming (s : Stream) : Response :=
  {| status := 200; statusText := lit "OK";
     resp_headers := [(lit "content-type", lit "text/event-stream")];
     resp_body := Some s;
     resp_text := bind (pipe_outcome s) (fun _ => Ok (List.concat (chunks_of s)));
     resp_json := Throw SyntaxError |}.

Definition abc : list (list N) := [lit "a"; lit "b"; lit "c"].

Definition upstream_abc : Fetch := fun _ => Ok (streaming (stream_of abc Closed)).
Definition upstream_cut : Fetch :=
  fun _ => Ok (streaming (stream_of [lit "a"; lit "b"] Errored)).
Definition upstream_down : Fetch := fun _ => Throw FetchFailed.

(** An upstream that fails every request, reporting the URL it was asked
    for. *)
Definition upstream_echo : Fetch := fun r => Throw (UserError (url r)).

Definition empty_env : Env := fun _ => None.

Definition header_env : Env :=
  fun name =>
    if String.eqb name "WC_URL" then Some (lit "https://shop.example")
    else if String.eqb name "WC_KEY" then Some (lit "ck_1")
    else if String.eqb name "WC_SECRET" then Some (lit "cs 2&x")
    else None.

Definition query_env : Env :=
  fun name =>
    if String.eqb name "WC_AUTH_IN_QUERY" then Some (lit "True")
    else header_env name.

Definition cfg : Woo.Config :=
  {| Woo.BASE_URL := lit "https://shop.example";
     Woo.CK := lit "ck_1";
     Woo.CS := lit "cs 2&x" |}.

Definition not_found_response : Response :=
  {| status := 404; statusText := lit "Not Found";
     resp_headers := [(lit "content-type", lit "application/json")];
     resp_body := None;
     resp_text := Ok (lit "no route");
     resp_json := Throw SyntaxError |}.

Definition html_response : Response :=
  {| status := 200; statusText := lit "OK";
     resp_headers := [(lit "Content-Type", lit "text/html; charset=UTF-8")];
     resp_body := None;
     resp_text := Ok (lit "<html></html>");
     resp_json := Throw SyntaxError |}.

Definition json_response (v : JSValue) : Response :=
  {| status := 200; statusText := lit "OK";
     resp_headers := [(lit "Content-Type", lit "application/json; charset=UTF-8")];
     resp_body := None;
     resp_text := Ok (or_default (JSON_stringify v) []);
     resp_json := Ok v |}.

Definition long_text : jsstring := repeat 120 201.

Definition update_input : list (jsstring * JSValue) :=
  [(lit "id", JNum 7); (lit "name", JStr (lit "Basket"))].

Definition updated (d : JSValue) : JSValue :=
  JObj [(lit "id", JNum 7); (lit "name", JStr (lit "Basket")); (lit "description", d)].

Definition updated_bare : JSValue :=
  JObj [(lit "id", JNum 7); (lit "name", JStr (lit "Basket"))].

Definition probe_get : Request :=
  {| method := GET; path := lit "/.well-known/x"; body := Parsed JUndefined;
     revalidates := false |}.
Definition probe_post : Request :=
  {| method := POST; path := lit "/.well-known/x"; body := Parsed JUndefined;
     revalidates := false |}.
Definition probe_options : Request :=
  {| method := OPTIONS; path := lit "/.well-known/x"; body := Parsed JUndefined;
     revalidates := false |}.
Definition probe_delete_deep : Request :=
  {| method := DELETE; path := lit "/.well-known/a/b"; body := Parsed JUndefined;
     revalidates := false |}.
Definition probe_malformed : Request :=
  {| method := GET; path := lit "/.well-known/%zz"; body := Parsed JUndefined;
     revalidates := false |}.
Definition probe_bad_body : Request :=
  {| method := GET; path := lit "/.well-known/x"; body := Rejected 400;
     revalidates := false |}.
Definition options_malformed : Request :=
  {| method := OPTIONS; path := lit "/%zz"; body := Parsed JUndefined;
     revalidates := false |}.
Definition options_elsewhere : Request :=
  {| method := OPTIONS; path := lit "/foo"; body := Parsed JUndefined;
     revalidates := false |}.

End Sample.

(* ================================================================== *)
(** ** src/server.js, lines 5-13: the configuration of the bridge *)
(* ================================================================== *)

Module BridgeProcess.

Record Config := {
  TARGET_STREAM_URL : jsstring;
  BEARER : jsstring
}.

Definition default_target : jsstring :=
  lit "https://africancreationsbaskets.com/wp-json/wp/v2/wpmcp/streamable".

(** [process.env.X || fallback]: the fallback stands in for an absent and
    for an empty variable. *)
Definition configure (env : Env) : Config :=
  {| TARGET_STREAM_URL := or_default (env "TARGET_STREAM_URL"%string) default_target;
     BEARER := or_default (env "BEARER"%string) [] |}.

(** The application as the top level builds it. *)
Definition app (env : Env) (fetch : Fetch) : list Layer :=
  Bridge.app (TARGET_STREAM_URL (configure env)) (BEARER (configure env)) fetch.

End BridgeProcess.

(* ================================================================== *)
(** ** Vocabulary of the statements, continued *)
(* ================================================================== *)

(** The bridge without the middleware of lines 25-28. *)
Definition bridge_without_options (TARGET BEARER : jsstring) (fetch : Fetch)
  : list Layer :=
  [ {| verb := None; pattern := MountAll; handler := cors |};
    {| verb := None; pattern := MountAll; handler := express_json |};
    {| verb := Some GET; pattern := Literal (lit "/health");
       handler := Bridge.health |};
    {| verb := None; pattern := Mount (lit "/.well-known");
       handler := send_status 404 |};
    {| verb := Some POST; pattern := Literal (lit "/sse");
       handler := async_handler (Bridge.post_sse TARGET BEARER fetch) |};
    {| verb := Some GET; pattern := Literal (lit "/");
       handler := Bridge.root TARGET |} ].

(** The upstream calls among the events of a request. *)
Definition upstream_calls (st : St) : list Event := filter is_upstream (events st).

(** An object made of the named members of [c], in the order of the
    names; a member [c] lacks is [undefined]. *)
Definition project (names : list jsstring) (c : JSValue) : JSValue :=
  JObj (map (fun k => (k, get_opt c k)) names).

Definition is_object (v : JSValue) : bool :=
  match v with JObj _ => true | _ => false end.

(** The member lists of the three projections. *)
Definition category_fields : list jsstring :=
  [lit "id"; lit "name"; lit "slug"; lit "count"].

Definition search_fields : list jsstring :=
  [lit "id"; lit "name"; lit "price"; lit "permalink"; lit "status";
   lit "stock_status"; lit "date_modified"].

Definition product_fields : list jsstring :=
  [lit "id"; lit "name"; lit "permalink"; lit "description";
   lit "short_description"; lit "price"; lit "stock_status"].

(** The characters the serializer of [URLSearchParams] writes. *)
Definition form_safe (c : N) : bool :=
  is_alnum c || existsb (N.eqb c) [42; 45; 46; 95; 43; 37].

(** The body [wc_update_product] sends: the input without its [id]. *)
Definition patch_of (input : list (jsstring * JSValue)) : list (jsstring * JSValue) :=
  filter (fun kv => negb (str_eqb (fst kv) (lit "id"))) input.

(** A request for the URL [u] alone. *)
Definition probe_url (u : jsstring) (r : FetchRequest) : bool := str_eqb (url r) u.

Module Sample2.

Definition bearer_env : Env :=
  fun name => if String.eqb name "BEARER" then Some (lit "tok") else None.

Definition plain (s : Stream) (extra : Headers) : Response :=
  {| status := 201; statusText := lit "Created";
     resp_headers := [(lit "Content-Type", lit "text/event-stream")] ++ extra;
     resp_body := Some s;
     resp_text := Throw BodyUnreadable;
     resp_json := Throw SyntaxError |}.

Definition no_content : Response :=
  {| status := 204; statusText := lit "No Content";
     resp_headers := [];
     resp_body := None;
     resp_text := Ok [];
     resp_json := Throw SyntaxError |}.

Definition get_health : Request :=
  {| method := GET; path := lit "/health"; body := Parsed JUndefined;
     revalidates := false |}.
Definition get_root : Request :=
  {| method := GET; path := lit "/"; body := Parsed JUndefined;
     revalidates := false |}.
Definition get_root_again : Request :=
  {| method := GET; path := lit "/"; body := Parsed JUndefined;
     revalidates := true |}.
Definition get_sse : Request :=
  {| method := GET; path := lit "/sse"; body := Parsed JUndefined;
     revalidates := false |}.
Definition bad_json : Request :=
  {| method := POST; path := lit "/sse"; body := Rejected 400;
     revalidates := false |}.
Definition post_anywhere : Request :=
  {| method := POST; path := lit "/anything/at/all"; body := Parsed JUndefined;
     revalidates := false |}.

Definition category (id : Z) (name : string) : JSValue :=
  JObj [(lit "id", JNum id); (lit "name", JStr (lit name));
        (lit "slug", JStr (lit name)); (lit "count", JNum 3);
        (lit "description", JStr (lit "not passed on"))].

Definition categories : list JSValue := [category 1 "baskets"; category 2 "bowls"].

Definition product : JSValue :=
  JObj [(lit "id", JNum 7); (lit "name", JStr (lit "Basket"));
        (lit "price", JStr (lit "12.00"));
        (lit "sku", JStr (lit "not passed on"))].

Definition server_error : Response :=
  {| status := 500; statusText := lit "Internal Server Error";
     resp_headers := [];
     resp_body := None;
     resp_text := Ok (lit "boom");
     resp_json := Throw SyntaxError |}.

Definition unreadable_error : Response :=
  {| status := 502; statusText := lit "Bad Gateway";
     resp_headers := [];
     resp_body := None;
     resp_text := Throw BodyUnreadable;
     resp_json := Throw SyntaxError |}.



End Sample2.

(** The response head the bridge copies from an upstream response
    (lines 49-56), on top of the response [r]. *)
Definition mirrored (up : Response) (r : ServerResponse) : ServerResponse :=
  let ct := or_default (headers_get (resp_headers up) (lit "content-type"))
                       (lit "application/json") in
  let proto := or_default (headers_get (resp_headers up)
                                       (lit "mcp-protocol-version")) [] in
  let transport := or_default (headers_get (resp_headers up)
                                           (lit "x-transport-type")) [] in
  let r1 := res_setHeader (lit "Content-Type") ct (res_status (status up) r) in
  let r2 := if truthy_str proto
            then res_setHeader (lit "mcp-protocol-version") proto r1 else r1 in
  if truthy_str transport
  then res_setHeader (lit "x-transport-type") transport r2 else r2.

(** The chunks of a body that may be null. *)
Definition body_chunks (b : option Stream) : list (list N) :=
  match b with
  | Some s => chunks_of s
  | None => []
  end.

(** The response as the routes of the bridge first see it. *)
Definition after_cors : St :=
  on_res (res_setHeader (lit "Access-Control-Allow-Origin") (lit "*")) init.

(** The answer of [cors()] to a preflight request. *)
Definition preflight : St :=
  on_res (fun r =>
    res_end (res_setHeader (lit "Content-Length") (lit "0")
      (res_status 204
        (res_setHeader (lit "Vary") (lit "Access-Control-Request-Headers")
          (res_setHeader (lit "Access-Control-Allow-Methods")
                         (lit "GET,HEAD,PUT,PATCH,POST,DELETE") r)))))
    after_cors.

(** A header value that is there and not empty. *)
Definition nonempty_value (x : option jsstring) : option jsstring :=
  match x with
  | Some (c :: r) => Some (c :: r)
  | _ => None
  end.

(** What the routes of the bridge do with a request, route by route. *)
Definition bridge_dispatch (TARGET BEARER : jsstring) (fetch : Fetch)
  (req : Request) : St * option Thrown :=
  if method_eqb (method req) OPTIONS then (preflight, None)
  else
    match body req with
    | Rejected code => (error_response code after_cors, None)
    | Parsed _ =>
        if matches (Literal (lit "/health")) (path req) && handles GET (method req)
        then (fst (Bridge.health req after_cors), None)
        else if matches (Mount (lit "/.well-known")) (path req)
        then (fst (send_status 404 req after_cors), None)
        else if matches (Literal (lit "/sse")) (path req)
                && handles POST (method req)
        then match Bridge.post_sse TARGET BEARER fetch req after_cors with
             | (st', Ok _) => (st', None)
             | (st', Throw e) => (st', Some e)
             end
        else if matches (Literal (lit "/")) (path req) && handles GET (method req)
        then (fst (Bridge.root TARGET req after_cors), None)
        else (not_found after_cors, None)
    end.

(** The path [list_categories] asks for (line 60). *)
Definition categories_path (input : JSValue) : jsstring :=
  lit "/products/categories?per_page=" ++
  to_string (nullish_or (get_opt input (lit "per_page")) (JNum 50)) ++
  lit "&page=" ++
  to_string (nullish_or (get_opt input (lit "page")) (JNum 1)).

(** A character that would end or split a query parameter. *)
Definition query_delimiter (c : N) : bool :=
  existsb (N.eqb c) [38; 61; 35; 63; 32].

(** The URL [wc_update_product] writes to. *)
Definition product_url (cfg : Woo.Config) (id : JSValue) : jsstring :=
  Woo.BASE_URL cfg ++ lit "/wp-json/wc/v3/products/" ++ to_string id.

(** The URL [wc_search_products] reads, for the search text [q] and the
    page size and number as written. *)
Definition search_url (cfg : Woo.Config) (q per_page page : jsstring) : jsstring :=
  Woo.BASE_URL cfg ++ lit "/wp-json/wc/v3/products?search=" ++ form_encode q ++
  lit "&per_page=" ++ form_encode per_page ++
  lit "&page=" ++ form_encode page ++
  lit "&orderby=date&order=desc".

Definition is_plain_text (d : JSValue) : bool :=
  match d with JStr _ => true | _ => false end.

(** A description that has no [slice]: a number, a boolean or an
    object. *)
Definition lacks_slice (d : JSValue) : bool :=
  match d with JBool _ | JNum _ | JObj _ => true | _ => false end.

(** A path whose escapes are well formed: [decodeURIComponent] returns
    on it. *)
Definition decodes (s : jsstring) : bool := returns (decodeURIComponent s).

(** A pattern without a percent sign. *)
Definition percent_free (p : jsstring) : bool :=
  forallb (fun x => negb (lower_unit x =? 37)) p.

(** The response as the routes of the two SSE variants first see it. *)
Definition unbuffered : St :=
  on_res (fun r =>
    res_setHeader (lit "X-Accel-Buffering") (lit "no")
      (res_setHeader (lit "Cache-Control") (lit "no-cache, no-transform") r))
    init.

(** What the routes of the second program of part_000 do with a request,
    route by route. *)
Definition variantB_dispatch (req : Request) : St * option Thrown :=
  if negb (decodes (path req)) then (error_response 400 unbuffered, None)
  else if matches (Splat (lit "/.well-known")) (path req)
          && handles GET (method req)
  then (fst (send_status 404 req unbuffered), None)
  else if method_eqb (method req) OPTIONS
  then (fst (send_status 204 req unbuffered), None)
  else if method_eqb (method req) POST
  then (fst (send_status 200 req unbuffered), None)
  else if (matches (Literal (lit "/sse")) (path req)
           || matches (Literal (lit "/")) (path req))
          && handles GET (method req)
  then (emit SseConnect unbuffered, None)
  else (not_found unbuffered, None).

(** Evaluates the comparisons of two literal header names in a goal. *)
Ltac name_tests :=
  repeat match goal with
         | |- context [name_eqb (lit ?a) (lit ?b)] =>
             let v := eval vm_compute in (name_eqb (lit a) (lit b)) in
             change (name_eqb (lit a) (lit b)) with v
         end.


(* ================================================================== *)
(** ** Properties *)
(* ================================================================== *)

Ltac divmod := zify; Z.to_euclidean_division_equations; lia.

(** *** Strings and headers *)

Lemma str_eqb_eq (a b : jsstring) : str_eqb a b = true <-> a = b.
Proof.
  unfold str_eqb. destruct (list_eq_dec N.eq_dec a b); split; congruence.
Qed.

Lemma starts_with_app (p s : jsstring) : starts_with (p ++ s) p = true.
Proof.
  induction p as [|x p IH]; [destruct s; reflexivity|].
  simpl. rewrite N.eqb_refl, IH. reflexivity.
Qed.

Lemma includes_unfold (s p : jsstring) :
  includes s p =
  starts_with s p || match s with [] => false | _ :: s' => includes s' p end.
Proof. destruct s; reflexivity. Qed.

Lemma includes_app (a p b : jsstring) : includes (a ++ p ++ b) p = true.
Proof.
  induction a as [|x a IH].
  - rewrite includes_unfold. simpl. rewrite starts_with_app. reflexivity.
  - simpl. rewrite IH. apply orb_true_r.
Qed.

Lemma name_eqb_trans_r (k n n' : jsstring) :
  name_eqb n n' = true -> name_eqb k n' = name_eqb k n.
Proof.
  unfold name_eqb. intros H. apply str_eqb_eq in H. rewrite H. reflexivity.
Qed.

(** A header just set is the one read back, whatever the case of its
    name. *)
Lemma headers_get_set (h : Headers) (n n' v : jsstring) :
  name_eqb n n' = true ->
  headers_get (filter (fun kv => negb (name_eqb (fst kv) n)) h ++ [(n, v)]) n'
  = Some v.
Proof.
  intros Hn. unfold headers_get. rewrite filter_app.
  replace (filter (fun kv => name_eqb (fst kv) n')
             (filter (fun kv => negb (name_eqb (fst kv) n)) h))
    with (@nil (jsstring * jsstring)).
  - cbn [filter fst app]. rewrite Hn. reflexivity.
  - induction h as [|[k x] h IH]; [reflexivity|].
    cbn [filter fst]. destruct (name_eqb k n) eqn:E; cbn [negb].
    + exact IH.
    + cbn [filter fst]. rewrite (name_eqb_trans_r k n n' Hn), E. exact IH.
Qed.

Lemma or_default_some (t : jsstring) : or_default (Some t) [] = t.
Proof. destruct t; reflexivity. Qed.

Lemma stringify_object (fields : list (jsstring * JSValue)) :
  exists t, JSON_stringify (JObj fields) = Some t.
Proof. eexists. reflexivity. Qed.

Lemma encode_points_total (cs : list CodePoint) :
  forallb is_scalar cs = true -> exists r, encode_points cs = Ok r.
Proof.
  induction cs as [|c cs IH]; cbn [forallb encode_points].
  - intros _. eexists. reflexivity.
  - intros H. apply andb_true_iff in H. destruct H as [Hc Hcs].
    destruct (IH Hcs) as [r Hr]. rewrite Hr.
    destruct c as [n|u]; [|discriminate].
    cbn [encode_point]. destruct ((n <? 128) && uri_unreserved n);
      eexists; reflexivity.
Qed.

(** [encodeURIComponent] returns on every well-formed string. *)
Lemma encodeURIComponent_total (s : jsstring) :
  well_formed s = true -> exists r, encodeURIComponent s = Ok r.
Proof. apply encode_points_total. Qed.

(** The length of a Base64 text: four characters for every three bytes,
    the last group padded. *)
Lemma base64_length (bs : list N) :
  List.length (base64 bs) = (4 * ((List.length bs + 2) / 3))%nat.
Proof.
  assert (H : forall n (l : list N), (List.length l <= n)%nat ->
            List.length (base64 l) = (4 * ((List.length l + 2) / 3))%nat).
  { induction n as [|n IH]; intros l Hl.
    - destruct l; [reflexivity|simpl in Hl; lia].
    - destruct l as [|a [|b [|c l]]]; try reflexivity.
      change (base64 (a :: b :: c :: l)) with
        (b64_char (N.shiftr a 2)
         :: b64_char (N.lor (N.shiftl (N.land a 3) 4) (N.shiftr b 4))
         :: b64_char (N.lor (N.shiftl (N.land b 15) 2) (N.shiftr c 6))
         :: b64_char (N.land c 63) :: base64 l).
      cbn [List.length]. rewrite IH by (simpl in Hl; lia).
      replace (S (S (S (List.length l))) + 2)%nat
        with ((List.length l + 2) + 1 * 3)%nat by lia.
      rewrite Nat.div_add by lia. lia. }
  apply (H (List.length bs)). lia.
Qed.

(** The test vectors of RFC 4648, section 10. *)
Example base64_rfc4648 :
  base64 (utf8_encode (lit "")) = lit "" /\
  base64 (utf8_encode (lit "f")) = lit "Zg==" /\
  base64 (utf8_encode (lit "fo")) = lit "Zm8=" /\
  base64 (utf8_encode (lit "foo")) = lit "Zm9v" /\
  base64 (utf8_encode (lit "foob")) = lit "Zm9vYg==" /\
  base64 (utf8_encode (lit "fooba")) = lit "Zm9vYmE=" /\
  base64 (utf8_encode (lit "foobar")) = lit "Zm9vYmFy".
Proof. repeat split. Qed.

(** U+00E9, U+20AC and U+1F600 (a surrogate pair) are written as the
    percent-encoded bytes of their UTF-8 forms; a lone surrogate is
    refused. *)
Example encodeURIComponent_samples :
  encodeURIComponent (lit "a b&c=d/e~") = Ok (lit "a%20b%26c%3Dd%2Fe~") /\
  encodeURIComponent [233; 8364; 55357; 56832] = Ok (lit "%C3%A9%E2%82%AC%F0%9F%98%80") /\
  encodeURIComponent [97; 55357] = Throw URIError.
Proof. repeat split. Qed.

(** *** JSON text *)

Lemma serialize_object (gap stepback : jsstring) (fields : list (jsstring * JSValue)) :
  serialize gap stepback (JObj fields)
  = Some (wrap [123] [125] gap stepback (members gap (stepback ++ gap) fields)).
Proof.
  cbn [serialize]. do 2 f_equal.
  induction fields as [|[k x] r IH]; [reflexivity|].
  cbn [members flat_map fst snd].
  destruct (serialize gap (stepback ++ gap) x); rewrite IH; reflexivity.
Qed.

Lemma join_splits (sep x : jsstring) (parts : list jsstring) :
  In x parts -> exists a b, join sep parts = a ++ x ++ b.
Proof.
  induction parts as [|p parts IH]; [contradiction|].
  intros [->|Hin].
  - exists []. destruct parts as [|q parts].
    + exists []. cbn. rewrite app_nil_r. reflexivity.
    + eexists. reflexivity.
  - destruct (IH Hin) as (a & b & E).
    destruct parts as [|q parts]; [contradiction|].
    exists (p ++ sep ++ a), b.
    change (join sep (p :: q :: parts)) with (p ++ sep ++ join sep (q :: parts)).
    rewrite E, <- !app_assoc. reflexivity.
Qed.

Lemma includes_inside (pre a x b post : jsstring) :
  includes (pre ++ (a ++ x ++ b) ++ post) x = true.
Proof.
  replace (pre ++ (a ++ x ++ b) ++ post) with ((pre ++ a) ++ x ++ (b ++ post))
    by (rewrite <- !app_assoc; reflexivity).
  apply includes_app.
Qed.

Lemma includes_wrapped (open close gap stepback x : jsstring) (parts : list jsstring) :
  In x parts -> includes (wrap open close gap stepback parts) x = true.
Proof.
  intros Hin. destruct (join_splits gap x parts Hin) as (a0 & b0 & _).
  destruct parts as [|p parts]; [contradiction|].
  unfold wrap. destruct (truthy_str gap).
  - destruct (join_splits ([44; 10] ++ stepback ++ gap) x (p :: parts) Hin)
      as (a & b & E).
    rewrite E.
    replace (open ++ [10] ++ (stepback ++ gap) ++ (a ++ x ++ b) ++ [10] ++ stepback ++ close)
      with ((open ++ [10] ++ stepback ++ gap) ++ (a ++ x ++ b) ++ ([10] ++ stepback ++ close))
      by (rewrite <- !app_assoc; reflexivity).
    apply includes_inside.
  - destruct (join_splits [44] x (p :: parts) Hin) as (a & b & E).
    rewrite E. apply includes_inside.
Qed.

Lemma stringified_member (fields : list (jsstring * JSValue)) (k s : jsstring) :
  In (k, JStr s) fields ->
  exists text,
    JSON_stringify_2 (JObj fields) = Some text /\
    includes text (quote k ++ lit ": " ++ quote s) = true.
Proof.
  intros Hin. unfold JSON_stringify_2. rewrite serialize_object.
  eexists. split; [reflexivity|].
  apply includes_wrapped. unfold members. apply in_flat_map.
  exists (k, JStr s). split; [exact Hin|].
  cbn [snd fst serialize truthy_str]. left. reflexivity.
Qed.

(** *** Base64 *)

Lemma b64_char_in_alphabet (i : N) : is_base64_char (b64_char i) = true.
Proof.
  unfold b64_char, is_base64_char, is_alnum.
  destruct (i <? 26) eqn:E1; [apply N.ltb_lt in E1|apply N.ltb_ge in E1].
  { replace ((65 <=? 65 + i) && (65 + i <=? 90)) with true; [now rewrite orb_true_r|].
    symmetry. apply andb_true_iff. split; apply N.leb_le; lia. }
  destruct (i <? 52) eqn:E2; [apply N.ltb_lt in E2|apply N.ltb_ge in E2].
  { replace ((97 <=? 71 + i) && (71 + i <=? 122)) with true; [now rewrite orb_true_r|].
    symmetry. apply andb_true_iff. split; apply N.leb_le; lia. }
  destruct (i <? 62) eqn:E3; [apply N.ltb_lt in E3|apply N.ltb_ge in E3].
  { replace ((48 <=? i - 4) && (i - 4 <=? 57)) with true; [reflexivity|].
    symmetry. apply andb_true_iff. split; apply N.leb_le; lia. }
  destruct (i =? 62); reflexivity.
Qed.

Lemma base64_alphabet (bs : list N) : forallb is_base64_char (base64 bs) = true.
Proof.
  assert (H : forall n (l : list N), (List.length l <= n)%nat ->
            forallb is_base64_char (base64 l) = true).
  { induction n as [|n IH]; intros l Hl.
    - destruct l; [reflexivity|simpl in Hl; lia].
    - destruct l as [|a [|b [|c l]]]; [reflexivity| | |].
      + cbn [base64 forallb]. rewrite !b64_char_in_alphabet. reflexivity.
      + cbn [base64 forallb]. rewrite !b64_char_in_alphabet. reflexivity.
      + change (base64 (a :: b :: c :: l)) with
          (b64_char (N.shiftr a 2)
           :: b64_char (N.lor (N.shiftl (N.land a 3) 4) (N.shiftr b 4))
           :: b64_char (N.lor (N.shiftl (N.land b 15) 2) (N.shiftr c 6))
           :: b64_char (N.land c 63) :: base64 l).
        cbn [forallb]. rewrite !b64_char_in_alphabet.
        rewrite IH by (simpl in Hl; lia). reflexivity. }
  apply (H (List.length bs)). lia.
Qed.

Lemma forallb_below (P : N -> bool) (n : nat) :
  forallb P (map N.of_nat (seq 0 n)) = true ->
  forall x, x < N.of_nat n -> P x = true.
Proof.
  intros H x Hx. rewrite forallb_forall in H. apply H.
  apply in_map_iff. exists (N.to_nat x). split; [apply N2Nat.id|].
  apply in_seq. lia.
Qed.

Lemma b64_value_char (i : N) :
  i < 64 -> b64_value (b64_char i) = Some i /\ (b64_char i =? 61) = false.
Proof.
  intros Hi.
  pose proof (forallb_below
    (fun i => match b64_value (b64_char i) with
              | Some j => (j =? i) && negb (b64_char i =? 61)
              | None => false
              end) 64 eq_refl i Hi) as H.
  cbv beta in H. destruct (b64_value (b64_char i)) as [j|]; [|discriminate].
  apply andb_true_iff in H. destruct H as [Hj Hp].
  apply N.eqb_eq in Hj. subst j. split; [reflexivity|].
  destruct (b64_char i =? 61); [discriminate|reflexivity].
Qed.

Lemma lor_high2 (u v : N) :
  u < 4 -> v < 16 -> N.lor (N.shiftl u 4) v = u * 16 + v.
Proof.
  intros Hu Hv.
  pose proof (forallb_below
    (fun u => forallb (fun v => N.lor (N.shiftl u 4) v =? u * 16 + v)
                      (map N.of_nat (seq 0 16))) 4 eq_refl u Hu) as H.
  cbv beta in H. apply N.eqb_eq. exact (forallb_below _ 16 H v Hv).
Qed.

Lemma lor_high4 (u v : N) :
  u < 16 -> v < 4 -> N.lor (N.shiftl u 2) v = u * 4 + v.
Proof.
  intros Hu Hv.
  pose proof (forallb_below
    (fun u => forallb (fun v => N.lor (N.shiftl u 2) v =? u * 4 + v)
                      (map N.of_nat (seq 0 4))) 16 eq_refl u Hu) as H.
  cbv beta in H. apply N.eqb_eq. exact (forallb_below _ 4 H v Hv).
Qed.

Lemma sextets (a b c : N) :
  a < 256 -> b < 256 -> c < 256 ->
  N.shiftr a 2 = a / 4 /\
  N.lor (N.shiftl (N.land a 3) 4) (N.shiftr b 4) = (a mod 4) * 16 + b / 16 /\
  N.lor (N.shiftl (N.land b 15) 2) (N.shiftr c 6) = (b mod 16) * 4 + c / 64 /\
  N.land c 63 = c mod 64 /\
  N.shiftl (N.land a 3) 4 = (a mod 4) * 16 /\
  N.shiftl (N.land b 15) 2 = (b mod 16) * 4.
Proof.
  intros Ha Hb Hc.
  assert (E3 : N.land a 3 = a mod 4)
    by (change 3 with (N.ones 2); rewrite N.land_ones; reflexivity).
  assert (E15 : N.land b 15 = b mod 16)
    by (change 15 with (N.ones 4); rewrite N.land_ones; reflexivity).
  assert (E63 : N.land c 63 = c mod 64)
    by (change 63 with (N.ones 6); rewrite N.land_ones; reflexivity).
  rewrite E3, E15, E63, !N.shiftr_div_pow2.
  change (2 ^ 2) with 4. change (2 ^ 4) with 16. change (2 ^ 6) with 64.
  rewrite lor_high2 by divmod. rewrite lor_high4 by divmod.
  rewrite !N.shiftl_mul_pow2.
  change (2 ^ 2) with 4. change (2 ^ 4) with 16.
  repeat split.
Qed.

(** Reading back what [base64] wrote gives the bytes. *)
Lemma base64_round_trip (bs : list N) :
  Forall (fun b => b < 256) bs -> base64_decode (base64 bs) = Some bs.
Proof.
  assert (H : forall n (l : list N), (List.length l <= n)%nat ->
            Forall (fun b => b < 256) l -> base64_decode (base64 l) = Some l).
  { induction n as [|n IH]; intros l Hl Hall.
    - destruct l; [reflexivity|simpl in Hl; lia].
    - destruct l as [|a [|b [|c l]]]; [reflexivity| | |].
      + inversion Hall as [|? ? Ha _]; subst.
        destruct (sextets a 0 0 Ha eq_refl eq_refl) as (E0 & _ & _ & _ & E1 & _).
        cbn [base64 base64_decode]. rewrite E0, E1.
        destruct (b64_value_char (a / 4)) as [-> _]; [divmod|].
        destruct (b64_value_char (a mod 4 * 16)) as [-> _]; [divmod|].
        cbn. do 2 f_equal. divmod.
      + inversion Hall as [|? ? Ha Hall']; subst.
        inversion Hall' as [|? ? Hb _]; subst.
        destruct (sextets a b 0 Ha Hb eq_refl) as (E0 & E1 & _ & _ & _ & E2).
        cbn [base64 base64_decode]. rewrite E0, E1, E2.
        destruct (b64_value_char (a / 4)) as [-> _]; [divmod|].
        destruct (b64_value_char (a mod 4 * 16 + b / 16)) as [-> _]; [divmod|].
        destruct (b64_value_char (b mod 16 * 4)) as [-> ->]; [divmod|].
        cbn. f_equal. f_equal; [divmod|]. f_equal. divmod.
      + inversion Hall as [|? ? Ha Hall']; subst.
        inversion Hall' as [|? ? Hb Hall'']; subst.
        inversion Hall'' as [|? ? Hc Hl']; subst.
        destruct (sextets a b c Ha Hb Hc) as (E0 & E1 & E2 & E3 & _ & _).
        change (base64 (a :: b :: c :: l)) with
          (b64_char (N.shiftr a 2)
           :: b64_char (N.lor (N.shiftl (N.land a 3) 4) (N.shiftr b 4))
           :: b64_char (N.lor (N.shiftl (N.land b 15) 2) (N.shiftr c 6))
           :: b64_char (N.land c 63) :: base64 l).
        cbn [base64_decode]. rewrite E0, E1, E2, E3.
        destruct (b64_value_char (a / 4)) as [-> _]; [divmod|].
        destruct (b64_value_char (a mod 4 * 16 + b / 16)) as [-> _]; [divmod|].
        destruct (b64_value_char (b mod 16 * 4 + c / 64)) as [-> ->]; [divmod|].
        destruct (b64_value_char (c mod 64)) as [-> ->]; [divmod|].
        rewrite IH by (simpl in Hl; try lia; assumption).
        f_equal. f_equal; [divmod|]. f_equal; [divmod|]. f_equal. divmod. }
  apply (H (List.length bs)). lia.
Qed.

(** *** UTF-8 *)

Lemma lor_below (k a b : N) : a < 2 ^ k -> b < 2 ^ k -> N.lor a b < 2 ^ k.
Proof.
  intros Ha Hb.
  destruct (N.eq_dec a 0) as [->|Na]; [rewrite N.lor_0_l; exact Hb|].
  destruct (N.eq_dec b 0) as [->|Nb]; [rewrite N.lor_0_r; exact Ha|].
  assert (Hpos : 0 < N.lor a b).
  { apply N.neq_0_lt_0. intros E. apply N.lor_eq_0_iff in E. tauto. }
  apply N.log2_lt_pow2; [exact Hpos|].
  rewrite N.log2_lor.
  apply N.max_lub_lt; apply N.log2_lt_pow2; try assumption; lia.
Qed.

Lemma lead_byte (m x : N) : m < 256 -> x < 256 -> is_byte (N.lor m x).
Proof. intros Hm Hx. apply (lor_below 8); assumption. Qed.

Lemma trail_byte (x : N) : is_byte (N.lor 128 (N.land x 63)).
Proof.
  apply lead_byte; [reflexivity|].
  change 63 with (N.ones 6). rewrite N.land_ones. divmod.
Qed.

Lemma utf8_scalar_bytes (n : N) : n < 1114112 -> Forall is_byte (utf8_scalar n).
Proof.
  intros Hn. unfold utf8_scalar.
  destruct (n <? 128) eqn:E1; [apply N.ltb_lt in E1|apply N.ltb_ge in E1].
  { repeat constructor. unfold is_byte. lia. }
  destruct (n <? 2048) eqn:E2; [apply N.ltb_lt in E2|apply N.ltb_ge in E2].
  { repeat constructor; try apply trail_byte.
    apply lead_byte; [reflexivity|]. rewrite N.shiftr_div_pow2. divmod. }
  destruct (n <? 65536) eqn:E3; [apply N.ltb_lt in E3|apply N.ltb_ge in E3].
  { repeat constructor; try apply trail_byte.
    apply lead_byte; [reflexivity|]. rewrite N.shiftr_div_pow2. divmod. }
  repeat constructor; try apply trail_byte.
  apply lead_byte; [reflexivity|]. rewrite N.shiftr_div_pow2. divmod.
Qed.

Lemma code_points_in_range (s : jsstring) :
  Forall is_unit s -> Forall point_in_range (code_points s).
Proof.
  assert (H : forall n (l : jsstring), (List.length l <= n)%nat ->
            Forall is_unit l -> Forall point_in_range (code_points l)).
  { induction n as [|n IH]; intros l Hl Hall.
    - destruct l; [constructor|simpl in Hl; lia].
    - destruct l as [|h t]; [constructor|].
      inversion Hall as [|? ? Hh Ht]; subst.
      cbn [code_points]. destruct (is_high h) eqn:Ehigh.
      + destruct t as [|l rest]; [repeat constructor|].
        inversion Ht as [|? ? Hlow Hrest]; subst.
        destruct (is_low l) eqn:Elow.
        * constructor; [|apply IH; [simpl in *; lia|assumption]].
          unfold is_high, is_low in *.
          apply andb_true_iff in Ehigh, Elow.
          destruct Ehigh as [H1 H2], Elow as [H3 H4].
          apply N.leb_le in H1, H2, H3, H4. cbn [point_in_range]. lia.
        * constructor; [exact I|]. apply IH; [simpl in *; lia|assumption].
      + destruct (is_low h).
        * constructor; [exact I|]. apply IH; [simpl in *; lia|assumption].
        * constructor; [|apply IH; [simpl in *; lia|assumption]].
          cbn [point_in_range]. unfold is_unit in Hh. lia.
  }
  apply (H (List.length s)). lia.
Qed.

Lemma utf8_encode_bytes (s : jsstring) :
  Forall is_unit s -> Forall is_byte (utf8_encode s).
Proof.
  intros Hs. unfold utf8_encode.
  pose proof (code_points_in_range s Hs) as Hcp.
  induction Hcp as [|c cs Hc _ IH]; [constructor|].
  cbn [flat_map]. apply Forall_app. split; [|exact IH].
  destruct c as [n|u]; [apply utf8_scalar_bytes; exact Hc|].
  apply utf8_scalar_bytes. reflexivity.
Qed.

(** The credentials can be read back from the header. *)
Lemma credentials_recoverable (key secret : jsstring) :
  Forall is_unit key -> Forall is_unit secret ->
  base64_decode (base64 (utf8_encode (key ++ lit ":" ++ secret)))
  = Some (utf8_encode (key ++ lit ":" ++ secret)).
Proof.
  intros Hk Hs. apply base64_round_trip. apply utf8_encode_bytes.
  apply Forall_app. split; [exact Hk|].
  apply Forall_app. split; [|exact Hs].
  repeat constructor.
Qed.

(** *** Percent encoding *)

Lemma hex_digit_safe (d : N) : d < 16 -> url_safe (hex_digit d) = true.
Proof.
  intros Hd. exact (forallb_below (fun d => url_safe (hex_digit d)) 16 eq_refl d Hd).
Qed.

Lemma percent_byte_safe (b : N) : is_byte b -> forallb url_safe (percent_byte b) = true.
Proof.
  unfold is_byte. intros Hb. unfold percent_byte. cbn [forallb].
  rewrite !hex_digit_safe; [reflexivity| |].
  - change 15 with (N.ones 4). rewrite N.land_ones. divmod.
  - rewrite N.shiftr_div_pow2. divmod.
Qed.

Lemma percent_bytes_safe (bs : list N) :
  Forall is_byte bs -> forallb url_safe (flat_map percent_byte bs) = true.
Proof.
  induction 1 as [|b bs Hb _ IH]; [reflexivity|].
  cbn [flat_map]. rewrite forallb_app, percent_byte_safe, IH by assumption.
  reflexivity.
Qed.

Lemma encode_points_safe (cs : list CodePoint) (r : jsstring) :
  Forall point_in_range cs ->
  encode_points cs = Ok r ->
  forallb url_safe r = true.
Proof.
  intros Hcs. revert r.
  induction Hcs as [|c cs Hc _ IH]; intros r; cbn [encode_points].
  - intros [= <-]. reflexivity.
  - destruct c as [n|u]; cbn [encode_point]; [|discriminate].
    destruct (encode_points cs) as [xs|e].
    + destruct ((n <? 128) && uri_unreserved n) eqn:E; cbn [bind]; intros [= <-].
      * cbn [app forallb]. apply andb_true_iff in E. destruct E as [_ E].
        unfold url_safe at 1. rewrite E. cbn [orb andb]. apply IH. reflexivity.
      * rewrite forallb_app, percent_bytes_safe, (IH xs eq_refl);
          [reflexivity|].
        apply utf8_scalar_bytes. exact Hc.
    + destruct ((n <? 128) && uri_unreserved n); cbn [bind]; discriminate.
Qed.

(** What [encodeURIComponent] returns holds only unreserved characters and
    percent escapes: no [&], [=], [?] or [#] can come out of a value. *)
Lemma encodeURIComponent_safe (s r : jsstring) :
  Forall is_unit s ->
  encodeURIComponent s = Ok r ->
  forallb url_safe r = true.
Proof.
  intros Hs. apply encode_points_safe. apply code_points_in_range. exact Hs.
Qed.

(** *** Routing *)

Lemma strip_prefix_self (p s : jsstring) : strip_prefix p (p ++ s) = Some s.
Proof.
  induction p as [|x p IH]; [destruct s; reflexivity|].
  simpl. rewrite N.eqb_refl. exact IH.
Qed.

(** Two patterns that part at their second character cannot both be a
    prefix of one path. *)
Lemma strip_prefix_second_differs (a b b' : N) (p p' s : jsstring) :
  lower_unit b <> lower_unit b' ->
  strip_prefix (a :: b :: p) s <> None ->
  strip_prefix (a :: b' :: p') s = None.
Proof.
  intros Hne Hs.
  destruct s as [|c1 [|c2 s]]; cbn [strip_prefix] in *; try congruence.
  - destruct (lower_unit a =? lower_unit c1); congruence.
  - destruct (lower_unit a =? lower_unit c1); [|reflexivity].
    destruct (lower_unit b =? lower_unit c2) eqn:E; [|congruence].
    apply N.eqb_eq in E.
    destruct (lower_unit b' =? lower_unit c2) eqn:E'; [|reflexivity].
    apply N.eqb_eq in E'. congruence.
Qed.

Lemma literal_strips (p s : jsstring) :
  strip_slash p = p ->
  matches (Literal p) s = true -> strip_prefix p s <> None.
Proof.
  intros Hp. cbn [matches]. rewrite Hp. destruct (strip_prefix p s); congruence.
Qed.

Lemma mount_strips (p s : jsstring) :
  matches (Mount p) s = true -> strip_prefix p s <> None.
Proof.
  cbn [matches]. destruct (strip_prefix p s); congruence.
Qed.

Lemma sse_path_not_health (p : jsstring) :
  matches (Literal (lit "/sse")) p = true ->
  matches (Literal (lit "/health")) p = false.
Proof.
  intros H. apply literal_strips in H; [|reflexivity]. cbn [matches].
  change (strip_slash (lit "/health")) with (47 :: 104 :: lit "ealth").
  rewrite (strip_prefix_second_differs 47 115 104 (lit "se") _ p); try reflexivity.
  - discriminate.
  - exact H.
Qed.

Lemma sse_path_not_well_known (p : jsstring) :
  matches (Literal (lit "/sse")) p = true ->
  matches (Mount (lit "/.well-known")) p = false.
Proof.
  intros H. apply literal_strips in H; [|reflexivity]. cbn [matches].
  change (lit "/.well-known") with (47 :: 46 :: lit "well-known").
  rewrite (strip_prefix_second_differs 47 115 46 (lit "se") _ p); try reflexivity.
  - discriminate.
  - exact H.
Qed.

(** A path under /.well-known is none of the fixed paths of the
    programs. *)
Lemma well_known_not_health (p : jsstring) :
  matches (Mount (lit "/.well-known")) p = true ->
  matches (Literal (lit "/health")) p = false.
Proof.
  intros H. apply mount_strips in H. cbn [matches].
  change (strip_slash (lit "/health")) with (47 :: 104 :: lit "ealth").
  rewrite (strip_prefix_second_differs 47 46 104 (lit "well-known") _ p); try reflexivity.
  - discriminate.
  - exact H.
Qed.

Lemma well_known_not_sse (p : jsstring) :
  matches (Mount (lit "/.well-known")) p = true ->
  matches (Literal (lit "/sse")) p = false.
Proof.
  intros H. apply mount_strips in H. cbn [matches].
  change (strip_slash (lit "/sse")) with (47 :: 115 :: lit "se").
  rewrite (strip_prefix_second_differs 47 46 115 (lit "well-known") _ p); try reflexivity.
  - discriminate.
  - exact H.
Qed.

(** The route on the root path accepts the root path alone. *)
Lemma root_path_only (p : jsstring) :
  matches (Literal (lit "/")) p = true -> p = [] \/ p = [slash].
Proof.
  cbn [matches]. change (strip_slash (lit "/")) with (@nil N).
  cbn [strip_prefix]. destruct p as [|c [|d p]]; try discriminate.
  - left; reflexivity.
  - intros H. apply N.eqb_eq in H. subst c. right; reflexivity.
Qed.

Lemma well_known_not_root (p : jsstring) :
  matches (Mount (lit "/.well-known")) p = true ->
  matches (Literal (lit "/")) p = false.
Proof.
  intros H. destruct (matches (Literal (lit "/")) p) eqn:E; [|reflexivity].
  apply root_path_only in E. destruct E; subst p; discriminate H.
Qed.

Lemma strip_prefix_snoc (p : jsstring) (x : N) (s : jsstring) :
  strip_prefix (p ++ [x]) s =
  match strip_prefix p s with
  | Some (c :: r) => if lower_unit x =? lower_unit c then Some r else None
  | _ => None
  end.
Proof.
  revert s. induction p as [|a p IH]; intros s.
  - destruct s as [|c r]; [reflexivity|]. simpl.
    destruct (lower_unit x =? lower_unit c); [destruct r|]; reflexivity.
  - destruct s as [|c r]; [reflexivity|]. simpl.
    destruct (lower_unit a =? lower_unit c); [apply IH|reflexivity].
Qed.

Lemma lower_unit_slash (c : N) : lower_unit slash = lower_unit c -> c = slash.
Proof.
  unfold lower_unit, slash. cbn.
  destruct ((65 <=? c) && (c <=? 90)) eqn:E; [|congruence].
  apply andb_true_iff in E. destruct E as [E1 E2].
  apply N.leb_le in E1. intros H. lia.
Qed.

(** Whatever lies under [p/] lies under [p]. *)
Lemma splat_under_mount (p s : jsstring) :
  matches (Splat p) s = true -> matches (Mount p) s = true.
Proof.
  cbn [matches]. rewrite strip_prefix_snoc.
  destruct (strip_prefix p s) as [[|c r]|]; try discriminate.
  destruct (lower_unit slash =? lower_unit c) eqn:E; [|discriminate].
  intros _. apply N.eqb_eq in E. apply lower_unit_slash in E. subst c.
  apply N.eqb_refl.
Qed.

(** *** Percent-decoding *)

Lemma decode_plain (c : N) (s : jsstring) :
  c <> 37 ->
  decodeURIComponent (c :: s) = bind (decodeURIComponent s) (fun t => Ok (c :: t)).
Proof.
  intros Hc. unfold decodeURIComponent. cbn [escapes].
  apply N.eqb_neq in Hc. rewrite Hc.
  destruct (escapes s) as [ts|e]; [|reflexivity]. reflexivity.
Qed.

Lemma decodes_plain (c : N) (s : jsstring) : c <> 37 -> decodes (c :: s) = decodes s.
Proof.
  intros Hc. unfold decodes. rewrite (decode_plain c s Hc).
  destruct (decodeURIComponent s); reflexivity.
Qed.

Lemma lower_unit_percent (c : N) : lower_unit c = 37 -> c = 37.
Proof.
  unfold lower_unit.
  destruct ((65 <=? c) && (c <=? 90)) eqn:E; [|congruence].
  apply andb_true_iff in E. destruct E as [E1 E2].
  apply N.leb_le in E1. intros H. lia.
Qed.

(** A pattern without a percent sign takes none from the path: what is
    left decodes exactly when the path does. *)
Lemma decodes_after_prefix (p s rest : jsstring) :
  percent_free p = true ->
  strip_prefix p s = Some rest ->
  decodes s = decodes rest.
Proof.
  revert s. induction p as [|x p IH]; intros s Hp Hs.
  - cbn in Hs. congruence.
  - destruct s as [|c s]; [discriminate|]. cbn [strip_prefix] in Hs.
    cbn [percent_free forallb] in Hp. apply andb_true_iff in Hp.
    destruct Hp as [Hx Hp].
    destruct (lower_unit x =? lower_unit c) eqn:E; [|discriminate].
    apply N.eqb_eq in E. apply negb_true_iff, N.eqb_neq in Hx.
    rewrite decodes_plain.
    + apply IH; assumption.
    + intros Hc. subst c. apply Hx. rewrite E. reflexivity.
Qed.

(** A path one of the fixed routes accepts has no escape at all. *)
Lemma literal_path_decodes (p s : jsstring) :
  percent_free (strip_slash p) = true ->
  matches (Literal p) s = true ->
  decodes s = true.
Proof.
  intros Hp. cbn [matches].
  destruct (strip_prefix (strip_slash p) s) as [rest|] eqn:E; [|discriminate].
  rewrite (decodes_after_prefix _ _ _ Hp E).
  destruct rest as [|c [|d rest]]; try discriminate.
  - reflexivity.
  - intros H. apply N.eqb_eq in H. subst c. reflexivity.
Qed.

(** *** The bridge (src/server.js) *)

Section BridgeFacts.

Variable TARGET BEARER : jsstring.
Variable fetch : Fetch.

Local Abbreviation post_sse := (Bridge.post_sse TARGET BEARER fetch).
Local Abbreviation forwarded := (Bridge.forwarded TARGET BEARER).
Local Abbreviation app := (Bridge.app TARGET BEARER fetch).

(** The pipe writes the chunks in the order read and ends the response,
    however the source ends. *)
Lemma pipeTo_client_sink (s : Stream) :
  forall st, ended (res st) = false ->
  Bridge.pipeTo s Bridge.client_sink st = (relayed st s, pipe_outcome s).
Proof.
  induction s as [c rest IH| |]; intros [r ev] Hopen; simpl in Hopen.
  - cbn [Bridge.pipeTo pipe_outcome]. unfold bindM at 1.
    cbn [Bridge.sink_write Bridge.client_sink respond].
    unfold on_res, res_write; cbn [res events]. rewrite Hopen.
    rewrite IH by reflexivity.
    unfold relayed; cbn. rewrite <- app_assoc. reflexivity.
  - cbn. unfold relayed; cbn. rewrite app_nil_r. reflexivity.
  - cbn. unfold relayed; cbn. rewrite app_nil_r. reflexivity.
Qed.

(** With the [catch] of line 74 the relay never rejects. *)
Lemma relay_never_rejects (s : Stream) (st : St) :
  ended (res st) = false ->
  try_catch (Bridge.pipeTo s Bridge.client_sink) (fun _ => respond res_end) st
  = (relayed st s, Ok tt).
Proof.
  intros Hopen. unfold try_catch. rewrite pipeTo_client_sink by assumption.
  destruct (pipe_outcome s) as [[]|e]; [reflexivity|].
  unfold respond, on_res, relayed; cbn. reflexivity.
Qed.

Lemma post_sse_streams (req : Request) (st : St) (up : Response) (s : Stream) :
  fetch (forwarded req) = Ok up ->
  resp_body up = Some s ->
  ended (res st) = false ->
  exists st',
    post_sse req st = (st', Ok tt) /\
    written (res st') = written (res st) ++ chunks_of s /\
    ended (res st') = true /\
    statusCode (res st') = status up /\
    events st' = events st ++ [UpstreamCall (forwarded req)].
Proof.
  intros Hfetch Hbody Hopen.
  unfold Bridge.post_sse, try_catch at 1, bindM at 1, Bridge.call_upstream.
  rewrite Hfetch, Hbody.
  cbv [bindM respond when ret].
  destruct (truthy_str (or_default (headers_get (resp_headers up)
                                      (lit "mcp-protocol-version")) []));
  destruct (truthy_str (or_default (headers_get (resp_headers up)
                                      (lit "x-transport-type")) []));
  rewrite relay_never_rejects by (destruct st as [r ev]; exact Hopen);
  (eexists; split; [reflexivity|]);
  destruct st as [r ev]; cbn; repeat split; reflexivity.
Qed.

(** A response without a body is ended at once, with nothing written. *)
Lemma post_sse_no_body (req : Request) (st : St) (up : Response) :
  fetch (forwarded req) = Ok up ->
  resp_body up = None ->
  exists st',
    post_sse req st = (st', Ok tt) /\
    written (res st') = written (res st) /\
    ended (res st') = true /\
    statusCode (res st') = status up.
Proof.
  intros Hfetch Hbody.
  unfold Bridge.post_sse, try_catch at 1, bindM at 1, Bridge.call_upstream.
  rewrite Hfetch, Hbody.
  cbv [bindM respond when ret].
  destruct (truthy_str (or_default (headers_get (resp_headers up)
                                      (lit "mcp-protocol-version")) []));
  destruct (truthy_str (or_default (headers_get (resp_headers up)
                                      (lit "x-transport-type")) []));
  (eexists; split; [reflexivity|]);
  destruct st as [r ev]; cbn; repeat split; reflexivity.
Qed.

Lemma post_sse_upstream_down (req : Request) (st : St) (e : Thrown) :
  fetch (forwarded req) = Throw e ->
  ended (res st) = false ->
  exists st',
    post_sse req st = (st', Ok tt) /\
    statusCode (res st') = 502 /\
    written (res st') =
      written (res st) ++
      [utf8_encode (or_default (JSON_stringify
         (Bridge.proxy_error (nullish_or (get_opt (req_body req) (lit "id")) JNull)))
         [])] /\
    ended (res st') = true /\
    headers_get (headers (res st')) (lit "content-type")
      = Some (lit "application/json; charset=utf-8").
Proof.
  intros Hfetch Hopen.
  unfold Bridge.post_sse, try_catch at 1, bindM at 1, Bridge.call_upstream.
  rewrite Hfetch.
  cbv [bindM respond log].
  eexists; split; [reflexivity|].
  destruct st as [r ev]; cbn [res events emit on_res] in *.
  unfold res_json, res_write, res_end, res_setHeader, res_status;
    cbn [ended statusCode written headers].
  rewrite Hopen. cbn [ended statusCode written headers].
  repeat split.
  apply (headers_get_set (headers r) (lit "Content-Type") (lit "content-type")).
  reflexivity.
Qed.

(** A POST to /sse whose body was accepted reaches the handler, with
    nothing written yet. *)
Lemma post_sse_is_routed (req : Request) (v : JSValue) :
  method req = POST ->
  matches (Literal (lit "/sse")) (path req) = true ->
  body req = Parsed v ->
  serve app req =
  match post_sse req (on_res (res_setHeader (lit "Access-Control-Allow-Origin")
                                            (lit "*")) init) with
  | (st', Ok _) => (st', None)
  | (st', Throw e) => (st', Some e)
  end.
Proof.
  intros Hm Hp Hb.
  unfold serve, Bridge.app.
  cbn [route pattern verb handler].
  change (matches MountAll (path req)) with true. cbv iota.
  unfold cors at 1. rewrite Hm. cbn [method_eqb].
  unfold express_json at 1. rewrite Hb.
  rewrite (sse_path_not_health _ Hp), (sse_path_not_well_known _ Hp).
  unfold Bridge.options_204 at 1. rewrite Hm. cbn [method_eqb].
  rewrite Hp. cbn [handles method_eqb orb].
  unfold async_handler.
  destruct (Bridge.post_sse _ _ _ _ _) as [st' [[]|e]]; reflexivity.
Qed.

End BridgeFacts.

Lemma stream_of_chunks (cs : list (list N)) (last : Stream) :
  last = Closed \/ last = Errored -> chunks_of (stream_of cs last) = cs.
Proof.
  intros H. induction cs as [|c cs IH]; cbn.
  - destruct H; subst; reflexivity.
  - rewrite IH. reflexivity.
Qed.

(** C1.  Whatever chunks the upstream response yields, and whether the
    stream then ends or breaks off, a POST to /sse writes exactly those
    chunks to the client, in the order received and unchanged, ends the
    response, and lets no exception out of the handler. *)
Theorem relay_writes_chunks_in_order
  (TARGET BEARER : jsstring) (fetch : Fetch)
  (req : Request) (v : JSValue) (up : Response)
  (cs : list (list N)) (last : Stream) :
  method req = POST ->
  matches (Literal (lit "/sse")) (path req) = true ->
  body req = Parsed v ->
  fetch (Bridge.forwarded TARGET BEARER req) = Ok up ->
  resp_body up = Some (stream_of cs last) ->
  last = Closed \/ last = Errored ->
  exists st',
    serve (Bridge.app TARGET BEARER fetch) req = (st', None) /\
    written (res st') = cs /\
    List.concat (written (res st')) = List.concat cs /\
    ended (res st') = true.
Proof.
  intros Hm Hp Hb Hfetch Hbody Hlast.
  destruct (post_sse_streams TARGET BEARER fetch req
              (on_res (res_setHeader (lit "Access-Control-Allow-Origin") (lit "*")) init)
              up (stream_of cs last) Hfetch Hbody eq_refl)
    as (st' & Hrun & Hw & He & _).
  exists st'. rewrite stream_of_chunks in Hw by assumption.
  cbn in Hw. rewrite Hw. repeat split; try assumption.
  rewrite (post_sse_is_routed TARGET BEARER fetch req v Hm Hp Hb), Hrun.
  reflexivity.
Qed.

Lemma relay_writes_chunks_in_order_witness :
  (method Sample.post_rpc = POST /\
   matches (Literal (lit "/sse")) (path Sample.post_rpc) = true /\
   body Sample.post_rpc = Parsed Sample.rpc /\
   Sample.upstream_abc (Bridge.forwarded Sample.target [] Sample.post_rpc)
     = Ok (Sample.streaming (stream_of Sample.abc Closed)) /\
   resp_body (Sample.streaming (stream_of Sample.abc Closed))
     = Some (stream_of Sample.abc Closed)) /\
  exists st',
    serve (Bridge.app Sample.target [] Sample.upstream_abc) Sample.post_rpc
      = (st', None) /\
    written (res st') = Sample.abc /\
    List.concat (written (res st')) = List.concat Sample.abc /\
    ended (res st') = true.
Proof.
  split.
  - repeat split.
  - apply (relay_writes_chunks_in_order Sample.target [] Sample.upstream_abc
             Sample.post_rpc Sample.rpc
             (Sample.streaming (stream_of Sample.abc Closed)) Sample.abc Closed);
      try reflexivity.
    left. reflexivity.
Defined.

(** The two runs of the specification: "a", "b", "c" and a normal end
    give "abc" and an ended response; a stream cut after "a", "b" gives
    "ab" and an ended response. *)
Example relay_abc :
  let st := fst (serve (Bridge.app Sample.target [] Sample.upstream_abc)
                       Sample.post_rpc) in
  List.concat (written (res st)) = lit "abc" /\ ended (res st) = true /\
  snd (serve (Bridge.app Sample.target [] Sample.upstream_abc) Sample.post_rpc) = None.
Proof. repeat split. Qed.

Example relay_cut :
  let st := fst (serve (Bridge.app Sample.target [] Sample.upstream_cut)
                       Sample.post_rpc) in
  List.concat (written (res st)) = lit "ab" /\ ended (res st) = true /\
  snd (serve (Bridge.app Sample.target [] Sample.upstream_cut) Sample.post_rpc) = None.
Proof. repeat split. Qed.

(** C2.  When the upstream fetch fails, a POST to /sse answers 502 with
    the JSON text of
    [{jsonrpc: "2.0", id, error: {code: -32603, message: "Upstream proxy error"}}],
    where [id] is the [id] of the request body, or [null] when the body
    has none. *)
Theorem upstream_failure_answers_502
  (TARGET BEARER : jsstring) (fetch : Fetch)
  (req : Request) (v : JSValue) (e : Thrown) :
  method req = POST ->
  matches (Literal (lit "/sse")) (path req) = true ->
  body req = Parsed v ->
  fetch (Bridge.forwarded TARGET BEARER req) = Throw e ->
  exists (st' : St) (id : JSValue) (text : jsstring),
    serve (Bridge.app TARGET BEARER fetch) req = (st', None) /\
    statusCode (res st') = 502 /\
    id = (if is_nullish (get_opt v (lit "id")) then JNull else get_opt v (lit "id")) /\
    JSON_stringify
      (JObj [(lit "jsonrpc", JStr (lit "2.0"));
             (lit "id", id);
             (lit "error",
              JObj [(lit "code", JNum (-32603));
                    (lit "message", JStr (lit "Upstream proxy error"))])])
      = Some text /\
    written (res st') = [utf8_encode text] /\
    ended (res st') = true /\
    headers_get (headers (res st')) (lit "Content-Type")
      = Some (lit "application/json; charset=utf-8").
Proof.
  intros Hm Hp Hb Hfetch.
  destruct (post_sse_upstream_down TARGET BEARER fetch req
              (on_res (res_setHeader (lit "Access-Control-Allow-Origin") (lit "*")) init)
              e Hfetch eq_refl)
    as (st' & Hrun & Hcode & Hw & He & Hct).
  unfold req_body in Hw. rewrite Hb in Hw.
  destruct (stringify_object
              [(lit "jsonrpc", JStr (lit "2.0"));
               (lit "id", nullish_or (get_opt v (lit "id")) JNull);
               (lit "error",
                JObj [(lit "code", JNum (-32603));
                      (lit "message", JStr (lit "Upstream proxy error"))])])
    as [text Htext].
  exists st', (nullish_or (get_opt v (lit "id")) JNull), text.
  split.
  { rewrite (post_sse_is_routed TARGET BEARER fetch req v Hm Hp Hb), Hrun.
    reflexivity. }
  split; [exact Hcode|]. split; [reflexivity|]. split; [exact Htext|].
  split.
  { rewrite Hw. unfold Bridge.proxy_error. rewrite Htext, or_default_some.
    reflexivity. }
  split; [exact He|].
  exact Hct.
Qed.

Lemma upstream_failure_answers_502_witness :
  (method Sample.post_rpc = POST /\
   matches (Literal (lit "/sse")) (path Sample.post_rpc) = true /\
   body Sample.post_rpc = Parsed Sample.rpc /\
   Sample.upstream_down (Bridge.forwarded Sample.target [] Sample.post_rpc)
     = Throw FetchFailed) /\
  exists (st' : St) (id : JSValue) (text : jsstring),
    serve (Bridge.app Sample.target [] Sample.upstream_down) Sample.post_rpc
      = (st', None) /\
    statusCode (res st') = 502 /\
    id = (if is_nullish (get_opt Sample.rpc (lit "id")) then JNull
          else get_opt Sample.rpc (lit "id")) /\
    JSON_stringify
      (JObj [(lit "jsonrpc", JStr (lit "2.0"));
             (lit "id", id);
             (lit "error",
              JObj [(lit "code", JNum (-32603));
                    (lit "message", JStr (lit "Upstream proxy error"))])])
      = Some text /\
    written (res st') = [utf8_encode text] /\
    ended (res st') = true /\
    headers_get (headers (res st')) (lit "Content-Type")
      = Some (lit "application/json; charset=utf-8").
Proof.
  split.
  - repeat split.
  - apply (upstream_failure_answers_502 Sample.target [] Sample.upstream_down
             Sample.post_rpc Sample.rpc FetchFailed); reflexivity.
Defined.

(** The body sent for a request with id 7, and for a request without a
    body: the text between the braces, with the quotation marks written
    by [quote]. *)
Example proxy_error_text :
  JSON_stringify (Bridge.proxy_error (JNum 7))
  = Some (lit "{" ++ quote (lit "jsonrpc") ++ lit ":" ++ quote (lit "2.0") ++
          lit "," ++ quote (lit "id") ++ lit ":7," ++
          quote (lit "error") ++ lit ":{" ++
          quote (lit "code") ++ lit ":-32603," ++
          quote (lit "message") ++ lit ":" ++ quote (lit "Upstream proxy error") ++
          lit "}}") /\
  nullish_or (get_opt JUndefined (lit "id")) JNull = JNull /\
  nullish_or (get_opt (JObj []) (lit "id")) JNull = JNull /\
  nullish_or (get_opt Sample.rpc (lit "id")) JNull = JNum 7.
Proof. repeat split. Qed.

(** *** The upstream clients: [wc] (part_000) and [wcGet] (part_001) *)

Lemma ok_false_from_400 (r : Response) : 400 <= status r -> ok r = false.
Proof.
  intros H. unfold ok. apply andb_false_iff. right. apply N.leb_gt. lia.
Qed.

Lemma wcGet_unfold (cfg : Woo.Config) (fetch : Fetch) (path : jsstring)
  (params : list (jsstring * jsstring)) :
  Woo.wcGet cfg fetch path params =
  bind (fetch (wcGet_request cfg path params)) (fun r =>
    if negb (ok r) then
      bind (resp_text r) (fun txt =>
        Throw (UserError (wcGet_message (wcGet_url cfg path params) (status r) txt)))
    else resp_json r).
Proof.
  unfold Woo.wcGet, wcGet_request, wcGet_url, wcGet_message.
  destruct (url_search_params params); reflexivity.
Qed.

Lemma wc_unfold (env : Env) (fetch : Fetch) (path method : jsstring) (body : JSValue) :
  VariantA.wc env fetch path method body =
  bind (VariantA.withAuth env path) (fun target =>
  bind (fetch (wc_request env target method body)) (fun r =>
    if negb (ok r) then
      Throw (UserError (documented_message (status r) (statusText r)
                                           (captured_body r)))
    else if includes (or_default (headers_get (resp_headers r) (lit "content-type")) [])
                     (lit "application/json")
         then resp_json r else Ok JNull)).
Proof.
  unfold VariantA.wc, wc_request, documented_message, captured_body.
  destruct (VariantA.withAuth env path) as [target|e]; [|reflexivity].
  cbn [bind]. destruct (fetch _) as [r|e]; [|reflexivity].
  cbn [bind]. destruct (catch (resp_text r) []); reflexivity.
Qed.

(** C3, as the code has it.  On a response whose status is not a success
    (every status from 400 up is one), [wc] raises an error whose message
    is "<status> <statusText> - <body>", or "<status> <statusText>" when
    the captured body is empty or unreadable; [wcGet] raises an error
    whose message is "Woo GET <url> -> <status> <body>" when the body can
    be read.  Both messages contain the status in decimal, and neither
    function returns a value. *)
Theorem non_success_raises
  (env : Env) (fetchA : Fetch) (pathA methodA targetA : jsstring)
  (bodyA : JSValue) (resA : Response)
  (cfg : Woo.Config) (fetchB : Fetch) (pathB : jsstring)
  (paramsB : list (jsstring * jsstring)) (resB : Response) :
  VariantA.withAuth env pathA = Ok targetA ->
  fetchA (wc_request env targetA methodA bodyA) = Ok resA ->
  ok resA = false ->
  fetchB (wcGet_request cfg pathB paramsB) = Ok resB ->
  ok resB = false ->
  (VariantA.wc env fetchA pathA methodA bodyA
     = Throw (UserError (documented_message (status resA) (statusText resA)
                                            (captured_body resA))) /\
   includes (documented_message (status resA) (statusText resA) (captured_body resA))
            (N_to_string (status resA)) = true) /\
  (returns (Woo.wcGet cfg fetchB pathB paramsB) = false /\
   forall txt, resp_text resB = Ok txt ->
     Woo.wcGet cfg fetchB pathB paramsB
       = Throw (UserError (wcGet_message (wcGet_url cfg pathB paramsB)
                                         (status resB) txt)) /\
     includes (wcGet_message (wcGet_url cfg pathB paramsB) (status resB) txt)
              (N_to_string (status resB)) = true) /\
  (forall r : Response, 400 <= status r -> ok r = false).
Proof.
  intros Ht HfA HokA HfB HokB. repeat split.
  - rewrite wc_unfold, Ht. cbn [bind]. rewrite HfA. cbn [bind].
    rewrite HokA. reflexivity.
  - apply (includes_app []).
  - rewrite wcGet_unfold, HfB. cbn [bind]. rewrite HokB. cbn [negb].
    destruct (resp_text resB); reflexivity.
  - rewrite wcGet_unfold, HfB. cbn [bind]. rewrite HokB. cbn [negb].
    rewrite H. reflexivity.
  - unfold wcGet_message.
    rewrite (app_assoc (lit "Woo GET ")), (app_assoc _ (lit " -> ")).
    apply includes_app.
  - apply ok_false_from_400.
Qed.

Lemma non_success_raises_witness :
  (VariantA.withAuth Sample.header_env (lit "/products/9")
     = Ok (lit "https://shop.example/wp-json/wc/v3/products/9") /\
   ok Sample.not_found_response = false) /\
  VariantA.wc Sample.header_env (fun _ => Ok Sample.not_found_response)
              (lit "/products/9") (lit "GET") JUndefined
    = Throw (UserError (lit "404 Not Found - no route")) /\
  Woo.wcGet Sample.cfg (fun _ => Ok Sample.not_found_response)
            (lit "/wp-json/wc/v3/products/9") []
    = Throw (UserError
        (lit "Woo GET https://shop.example/wp-json/wc/v3/products/9 -> 404 no route")).
Proof.
  pose proof (non_success_raises Sample.header_env
                (fun _ => Ok Sample.not_found_response)
                (lit "/products/9") (lit "GET")
                (lit "https://shop.example/wp-json/wc/v3/products/9")
                JUndefined Sample.not_found_response
                Sample.cfg (fun _ => Ok Sample.not_found_response)
                (lit "/wp-json/wc/v3/products/9") [] Sample.not_found_response
                eq_refl eq_refl eq_refl eq_refl eq_refl) as H.
  destruct H as [[HA _] [[_ HB] _]].
  split; [split; reflexivity|].
  split; [exact HA|].
  exact (proj1 (HB (lit "no route") eq_refl)).
Defined.

(** C3 as stated fails on [wcGet]: for a 404 "Not Found" whose body reads
    "no route" its message is not "404 Not Found - no route". *)
Lemma wcGet_message_differs :
  ok Sample.not_found_response = false /\
  Woo.wcGet Sample.cfg (fun _ => Ok Sample.not_found_response)
            (lit "/wp-json/wc/v3/products/9") []
    = Throw (UserError
        (lit "Woo GET https://shop.example/wp-json/wc/v3/products/9 -> 404 no route")) /\
  Woo.wcGet Sample.cfg (fun _ => Ok Sample.not_found_response)
            (lit "/wp-json/wc/v3/products/9") []
    <> Throw (UserError
         (documented_message (status Sample.not_found_response)
                             (statusText Sample.not_found_response)
                             (captured_body Sample.not_found_response))).
Proof.
  split; [reflexivity|]. split; [reflexivity|].
  intros H. vm_compute in H. discriminate H.
Qed.

(** C6, as the code has it.  On a response with a success status, [wc]
    returns what [res.json()] gives when the content type contains
    "application/json" and [null] otherwise; [wcGet] returns what
    [res.json()] gives whatever the content type. *)
Theorem success_body
  (env : Env) (fetchA : Fetch) (pathA methodA targetA : jsstring)
  (bodyA : JSValue) (resA : Response)
  (cfg : Woo.Config) (fetchB : Fetch) (pathB : jsstring)
  (paramsB : list (jsstring * jsstring)) (resB : Response) :
  VariantA.withAuth env pathA = Ok targetA ->
  fetchA (wc_request env targetA methodA bodyA) = Ok resA ->
  ok resA = true ->
  fetchB (wcGet_request cfg pathB paramsB) = Ok resB ->
  ok resB = true ->
  let ct := or_default (headers_get (resp_headers resA) (lit "content-type")) [] in
  (includes ct (lit "application/json") = true ->
     VariantA.wc env fetchA pathA methodA bodyA = resp_json resA) /\
  (includes ct (lit "application/json") = false ->
     VariantA.wc env fetchA pathA methodA bodyA = Ok JNull) /\
  Woo.wcGet cfg fetchB pathB paramsB = resp_json resB.
Proof.
  intros Ht HfA HokA HfB HokB ct. repeat split.
  - intros Hct. rewrite wc_unfold, Ht. cbn [bind]. rewrite HfA. cbn [bind].
    rewrite HokA. cbn [negb]. fold ct. rewrite Hct. reflexivity.
  - intros Hct. rewrite wc_unfold, Ht. cbn [bind]. rewrite HfA. cbn [bind].
    rewrite HokA. cbn [negb]. fold ct. rewrite Hct. reflexivity.
  - rewrite wcGet_unfold, HfB. cbn [bind]. rewrite HokB. reflexivity.
Qed.

Lemma success_body_witness :
  (VariantA.withAuth Sample.header_env (lit "/products/9")
     = Ok (lit "https://shop.example/wp-json/wc/v3/products/9") /\
   ok Sample.html_response = true /\
   ok (Sample.json_response (JArr [JNum 1])) = true) /\
  VariantA.wc Sample.header_env (fun _ => Ok Sample.html_response)
              (lit "/products/9") (lit "GET") JUndefined = Ok JNull /\
  Woo.wcGet Sample.cfg (fun _ => Ok (Sample.json_response (JArr [JNum 1])))
            (lit "/wp-json/wc/v3/products/9") [] = Ok (JArr [JNum 1]).
Proof.
  pose proof (success_body Sample.header_env
                (fun _ => Ok Sample.html_response)
                (lit "/products/9") (lit "GET")
                (lit "https://shop.example/wp-json/wc/v3/products/9")
                JUndefined Sample.html_response
                Sample.cfg (fun _ => Ok (Sample.json_response (JArr [JNum 1])))
                (lit "/wp-json/wc/v3/products/9") []
                (Sample.json_response (JArr [JNum 1]))
                eq_refl eq_refl eq_refl eq_refl eq_refl) as H.
  destruct H as (_ & HA & HB).
  split; [repeat split|].
  split; [exact (HA eq_refl)|exact HB].
Defined.

(** C6 as stated fails on [wcGet]: a 200 response of type text/html,
    whose body is not JSON, makes it throw instead of returning [null]. *)
Lemma wcGet_parses_any_content_type :
  ok Sample.html_response = true /\
  includes (or_default (headers_get (resp_headers Sample.html_response)
                                    (lit "content-type")) [])
           (lit "application/json") = false /\
  Woo.wcGet Sample.cfg (fun _ => Ok Sample.html_response)
            (lit "/wp-json/wc/v3/products/9") [] = Throw SyntaxError /\
  Woo.wcGet Sample.cfg (fun _ => Ok Sample.html_response)
            (lit "/wp-json/wc/v3/products/9") [] <> Ok JNull.
Proof.
  repeat split. intros H. vm_compute in H. discriminate H.
Qed.

(** *** Credentials (part_000: [withAuth], [authHeaders]; part_001: [wcHeaders]) *)

(** C4.  In query mode the target is the base URL, the path, then
    [consumer_key] and [consumer_secret] with their values as
    [encodeURIComponent] writes them, introduced by "?" when the path has
    no "?" and by "&" when it has one; the headers carry no
    [Authorization]. *)
Theorem query_auth_target (env : Env) (path : jsstring) :
  VariantA.useQueryAuth env = true ->
  well_formed (template (env "WC_KEY"%string)) = true ->
  well_formed (template (env "WC_SECRET"%string)) = true ->
  exists k s : jsstring,
    encodeURIComponent (template (env "WC_KEY"%string)) = Ok k /\
    encodeURIComponent (template (env "WC_SECRET"%string)) = Ok s /\
    (includes path (lit "?") = false ->
       VariantA.withAuth env path
       = Ok (VariantA.base env ++ path ++
             lit "?consumer_key=" ++ k ++ lit "&consumer_secret=" ++ s)) /\
    (includes path (lit "?") = true ->
       VariantA.withAuth env path
       = Ok (VariantA.base env ++ path ++
             lit "&consumer_key=" ++ k ++ lit "&consumer_secret=" ++ s)) /\
    VariantA.authHeaders env = [(lit "Content-Type", lit "application/json")] /\
    headers_get (VariantA.authHeaders env) (lit "Authorization") = None.
Proof.
  intros Hq Hk Hs.
  destruct (encodeURIComponent_total _ Hk) as [k Ek].
  destruct (encodeURIComponent_total _ Hs) as [s Es].
  exists k, s. split; [exact Ek|]. split; [exact Es|].
  unfold VariantA.withAuth, VariantA.authHeaders. rewrite Hq, Ek, Es.
  cbn [negb bind]. repeat split.
  - intros Hp. rewrite Hp. rewrite <- !app_assoc. reflexivity.
  - intros Hp. rewrite Hp. rewrite <- !app_assoc. reflexivity.
Qed.

Lemma query_auth_target_witness :
  (VariantA.useQueryAuth Sample.query_env = true /\
   well_formed (template (Sample.query_env "WC_KEY"%string)) = true /\
   well_formed (template (Sample.query_env "WC_SECRET"%string)) = true) /\
  exists k s : jsstring,
    encodeURIComponent (template (Sample.query_env "WC_KEY"%string)) = Ok k /\
    encodeURIComponent (template (Sample.query_env "WC_SECRET"%string)) = Ok s /\
    (includes (lit "/products?foo=bar") (lit "?") = false ->
       VariantA.withAuth Sample.query_env (lit "/products?foo=bar")
       = Ok (VariantA.base Sample.query_env ++ lit "/products?foo=bar" ++
             lit "?consumer_key=" ++ k ++ lit "&consumer_secret=" ++ s)) /\
    (includes (lit "/products?foo=bar") (lit "?") = true ->
       VariantA.withAuth Sample.query_env (lit "/products?foo=bar")
       = Ok (VariantA.base Sample.query_env ++ lit "/products?foo=bar" ++
             lit "&consumer_key=" ++ k ++ lit "&consumer_secret=" ++ s)) /\
    VariantA.authHeaders Sample.query_env
      = [(lit "Content-Type", lit "application/json")] /\
    headers_get (VariantA.authHeaders Sample.query_env) (lit "Authorization") = None.
Proof.
  split.
  - repeat split.
  - apply (query_auth_target Sample.query_env (lit "/products?foo=bar"));
      reflexivity.
Defined.

(** The two targets of the specification, for the key "ck_1" and the
    secret "cs 2&x". *)
Example query_auth_targets :
  VariantA.withAuth Sample.query_env (lit "/products")
    = Ok (lit "https://shop.example/wp-json/wc/v3/products?consumer_key=ck_1&consumer_secret=cs%202%26x") /\
  VariantA.withAuth Sample.query_env (lit "/products?foo=bar")
    = Ok (lit "https://shop.example/wp-json/wc/v3/products?foo=bar&consumer_key=ck_1&consumer_secret=cs%202%26x").
Proof. split; reflexivity. Qed.

(** C5.  In header mode the [Authorization] header is "Basic " followed
    by the Base64 text of key, ":" and secret, and [Content-Type] is
    [application/json]; so in [authHeaders] as in [wcHeaders]. *)
Theorem basic_auth_header (env : Env) (key secret : jsstring) (cfg : Woo.Config) :
  VariantA.useQueryAuth env = false ->
  env "WC_KEY"%string = Some key ->
  env "WC_SECRET"%string = Some secret ->
  VariantA.authHeaders env
    = [(lit "Content-Type", lit "application/json");
       (lit "Authorization",
        lit "Basic " ++ base64 (utf8_encode (key ++ lit ":" ++ secret)))] /\
  headers_get (Woo.wcHeaders cfg) (lit "Authorization")
    = Some (lit "Basic " ++
            base64 (utf8_encode (Woo.CK cfg ++ lit ":" ++ Woo.CS cfg))) /\
  headers_get (Woo.wcHeaders cfg) (lit "Content-Type")
    = Some (lit "application/json").
Proof.
  intros Hq Hk Hs. unfold VariantA.authHeaders, Woo.wcHeaders.
  rewrite Hq, Hk, Hs. cbn [negb template app]. repeat split.
Qed.

Lemma basic_auth_header_witness :
  (VariantA.useQueryAuth Sample.header_env = false /\
   Sample.header_env "WC_KEY"%string = Some (lit "ck_1") /\
   Sample.header_env "WC_SECRET"%string = Some (lit "cs 2&x")) /\
  VariantA.authHeaders Sample.header_env
    = [(lit "Content-Type", lit "application/json");
       (lit "Authorization", lit "Basic Y2tfMTpjcyAyJng=")] /\
  headers_get (Woo.wcHeaders Sample.cfg) (lit "Authorization")
    = Some (lit "Basic Y2tfMTpjcyAyJng=").
Proof.
  pose proof (basic_auth_header Sample.header_env (lit "ck_1") (lit "cs 2&x")
                Sample.cfg eq_refl eq_refl eq_refl) as (HA & HB & _).
  split; [repeat split|]. split; [exact HA|exact HB].
Defined.

(** *** The product tools (part_001) *)

Lemma update_unfold (cfg : Woo.Config) (fetch : Fetch)
  (input : list (jsstring * JSValue)) (r : Response) :
  fetch (put_request cfg input) = Ok r ->
  ok r = true ->
  Woo.wc_update_product cfg fetch input =
  bind (resp_json r) (fun updated =>
  bind (Woo.update_out updated) (fun out =>
  Ok (text_content (JSON_stringify_2 out)))).
Proof.
  intros Hf Hok. unfold Woo.wc_update_product, Woo.wcPut.
  unfold put_request in Hf. rewrite Hf. cbn [bind].
  rewrite Hok. reflexivity.
Qed.

(** [out.description] is what line 137 computes from
    [updated.description]. *)
Lemma update_out_description (updated d : JSValue) (text : jsstring) :
  get updated (lit "description") = Ok d ->
  Woo.description_of d = Ok (JStr text) ->
  exists fields,
    Woo.update_out updated = Ok (JObj fields) /\
    lookup (lit "description") fields = JStr text /\
    In (lit "description", JStr text) fields.
Proof.
  intros Hd Htext. unfold Woo.update_out.
  destruct updated; try discriminate; cbn [get bind] in *;
    injection Hd as <-; rewrite Htext; cbn [bind];
    (eexists; split; [reflexivity|]; split; [reflexivity|]);
    cbn [In]; tauto.
Qed.

(** What the tool returns once the upstream has answered: the JSON text
    of [out], which shows the description as a string member. *)
Lemma update_returns (cfg : Woo.Config) (fetch : Fetch)
  (input : list (jsstring * JSValue)) (r : Response) (updated d : JSValue)
  (value : jsstring) :
  fetch (put_request cfg input) = Ok r ->
  ok r = true ->
  resp_json r = Ok updated ->
  get updated (lit "description") = Ok d ->
  Woo.description_of d = Ok (JStr value) ->
  exists out text,
    Woo.wc_update_product cfg fetch input = Ok (text_content (Some text)) /\
    JSON_stringify_2 out = Some text /\
    get_opt out (lit "description") = JStr value /\
    includes text (quote (lit "description") ++ lit ": " ++ quote value) = true.
Proof.
  intros Hf Hok Hj Hd Hvalue.
  destruct (update_out_description updated d value Hd Hvalue)
    as (fields & Hout & Hlook & Hin).
  destruct (stringified_member fields (lit "description") value Hin)
    as (text & Htext & Hinc).
  exists (JObj fields), text. repeat split; try assumption.
  rewrite (update_unfold cfg fetch input r Hf Hok), Hj. cbn [bind].
  rewrite Hout. cbn [bind]. rewrite Htext. reflexivity.
Qed.

Lemma slice_short (d : jsstring) :
  (List.length d <= 200)%nat -> slice0 200 d = d.
Proof. intros H. unfold slice0. apply firstn_all2. exact H. Qed.

Lemma description_of_string (d : jsstring) :
  Woo.description_of (JStr d)
  = Ok (JStr (if 200 <? str_length d then firstn 200 d ++ ellipsis else d)).
Proof.
  unfold Woo.description_of.
  cbn [Woo.opt_slice200 bind to_string Woo.longer_than_200].
  destruct (200 <? str_length d) eqn:E; [reflexivity|].
  rewrite app_nil_r, slice_short; [reflexivity|].
  apply N.ltb_ge in E. unfold str_length in E. lia.
Qed.

(** C7.  When the updated product has a string description,
    [wc_update_product] returns it cut to its first 200 characters and
    followed by one ellipsis if it is longer than 200, and unchanged if
    not. *)
Theorem update_truncates_description
  (cfg : Woo.Config) (fetch : Fetch) (input : list (jsstring * JSValue))
  (r : Response) (updated : JSValue) (d : jsstring) :
  fetch (put_request cfg input) = Ok r ->
  ok r = true ->
  resp_json r = Ok updated ->
  get updated (lit "description") = Ok (JStr d) ->
  exists out text,
    Woo.wc_update_product cfg fetch input = Ok (text_content (Some text)) /\
    JSON_stringify_2 out = Some text /\
    ((200 < List.length d)%nat ->
       get_opt out (lit "description") = JStr (firstn 200 d ++ ellipsis) /\
       List.length (firstn 200 d) = 200%nat /\ List.length ellipsis = 1%nat /\
       includes text (quote (lit "description") ++ lit ": " ++
                      quote (firstn 200 d ++ ellipsis)) = true) /\
    ((List.length d <= 200)%nat ->
       get_opt out (lit "description") = JStr d /\
       includes text (quote (lit "description") ++ lit ": " ++ quote d) = true).
Proof.
  intros Hf Hok Hj Hd.
  destruct (update_returns cfg fetch input r updated (JStr d) _
              Hf Hok Hj Hd (description_of_string d))
    as (out & text & Hrun & Htext & Hdesc & Hinc).
  exists out, text. split; [exact Hrun|]. split; [exact Htext|].
  split; intros Hlen.
  - assert (E : (200 <? str_length d) = true)
      by (apply N.ltb_lt; unfold str_length; lia).
    rewrite E in Hdesc, Hinc. repeat split; try assumption.
    apply firstn_length_le. lia.
  - assert (E : (200 <? str_length d) = false)
      by (apply N.ltb_ge; unfold str_length; lia).
    rewrite E in Hdesc, Hinc. split; assumption.
Qed.

Lemma update_truncates_description_witness :
  (ok (Sample.json_response (Sample.updated (JStr Sample.long_text))) = true /\
   get (Sample.updated (JStr Sample.long_text)) (lit "description")
     = Ok (JStr Sample.long_text) /\
   List.length Sample.long_text = 201%nat) /\
  exists out text,
    Woo.wc_update_product Sample.cfg
      (fun _ => Ok (Sample.json_response (Sample.updated (JStr Sample.long_text))))
      Sample.update_input
      = Ok (text_content (Some text)) /\
    JSON_stringify_2 out = Some text /\
    get_opt out (lit "description") = JStr (repeat 120 200 ++ ellipsis).
Proof.
  split; [repeat split|].
  destruct (update_truncates_description Sample.cfg
              (fun _ => Ok (Sample.json_response (Sample.updated (JStr Sample.long_text))))
              Sample.update_input
              (Sample.json_response (Sample.updated (JStr Sample.long_text)))
              (Sample.updated (JStr Sample.long_text)) Sample.long_text
              eq_refl eq_refl eq_refl eq_refl)
    as (out & text & Hrun & Htext & Hlong & _).
  exists out, text. split; [exact Hrun|]. split; [exact Htext|].
  refine (proj1 (Hlong _)). vm_compute. repeat constructor.
Defined.

(** C10.  When the updated product has no description,
    [wc_update_product] returns the text "undefined" as the description. *)
Theorem update_absent_description
  (cfg : Woo.Config) (fetch : Fetch) (input : list (jsstring * JSValue))
  (r : Response) (updated : JSValue) :
  fetch (put_request cfg input) = Ok r ->
  ok r = true ->
  resp_json r = Ok updated ->
  get updated (lit "description") = Ok JUndefined ->
  exists out text,
    Woo.wc_update_product cfg fetch input = Ok (text_content (Some text)) /\
    JSON_stringify_2 out = Some text /\
    get_opt out (lit "description") = JStr (lit "undefined") /\
    includes text (quote (lit "description") ++ lit ": " ++
                   quote (lit "undefined")) = true.
Proof.
  intros Hf Hok Hj Hd.
  exact (update_returns cfg fetch input r updated JUndefined (lit "undefined")
           Hf Hok Hj Hd eq_refl).
Qed.

Lemma update_absent_description_witness :
  (ok (Sample.json_response Sample.updated_bare) = true /\
   get Sample.updated_bare (lit "description") = Ok JUndefined) /\
  exists out text,
    Woo.wc_update_product Sample.cfg
      (fun _ => Ok (Sample.json_response Sample.updated_bare)) Sample.update_input
      = Ok (text_content (Some text)) /\
    JSON_stringify_2 out = Some text /\
    get_opt out (lit "description") = JStr (lit "undefined") /\
    includes text (quote (lit "description") ++ lit ": " ++
                   quote (lit "undefined")) = true.
Proof.
  split; [repeat split|].
  apply (update_absent_description Sample.cfg
           (fun _ => Ok (Sample.json_response Sample.updated_bare))
           Sample.update_input (Sample.json_response Sample.updated_bare)
           Sample.updated_bare); reflexivity.
Defined.

(** The text returned in that case: the members the upstream left out are
    dropped by [JSON.stringify], the description is there as a string. *)
Example absent_description_text :
  Woo.wc_update_product Sample.cfg
    (fun _ => Ok (Sample.json_response Sample.updated_bare)) Sample.update_input
  = Ok (text_content (Some (
      lit "{" ++ [10] ++
      lit "  " ++ quote (lit "id") ++ lit ": 7," ++ [10] ++
      lit "  " ++ quote (lit "name") ++ lit ": " ++ quote (lit "Basket") ++ lit "," ++ [10] ++
      lit "  " ++ quote (lit "description") ++ lit ": " ++ quote (lit "undefined") ++ [10] ++
      lit "}"))).
Proof. reflexivity. Qed.

(** *** Start-up *)

(** part_001 imports [SseServerTransport] from a module that exports
    [SSEServerTransport]: whatever the environment, the module does not
    link and none of its statements runs. *)
Lemma woo_import_unresolved (env : Env) :
  Woo.startup sse_module_exports env = Unlinked "SseServerTransport".
Proof. reflexivity. Qed.

(** The check of lines 11-14 of part_001, in a module that has linked:
    with any of the three variables absent or empty the process writes
    the message and exits with status 1. *)
Lemma woo_startup_fails_fast (exports : list string) (env : Env) :
  exported "SseServerTransport" exports = true ->
  missing (env "BASE_URL"%string) = true \/
  missing (env "WOO_CONSUMER_KEY"%string) = true \/
  missing (env "WOO_CONSUMER_SECRET"%string) = true ->
  Woo.startup exports env = Exited 1 [missing_env_message].
Proof.
  intros Hx H. unfold Woo.startup. rewrite Hx. cbn [negb].
  destruct H as [H|[H|H]]; rewrite H; rewrite ?orb_true_r; reflexivity.
Qed.

(** C8 fails on the first program of part_000: with an empty environment
    it starts and listens; a call of [list_categories] then asks for a
    URL that begins with the text "undefined", under the credentials
    "undefined:undefined", and fails there. *)
Theorem variantA_starts_unconfigured :
  VariantA.startup Sample.empty_env = Listening Sample.empty_env /\
  VariantA.authHeaders Sample.empty_env
    = [(lit "Content-Type", lit "application/json");
       (lit "Authorization", lit "Basic dW5kZWZpbmVkOnVuZGVmaW5lZA==")] /\
  base64 (utf8_encode (lit "undefined:undefined")) = lit "dW5kZWZpbmVkOnVuZGVmaW5lZA==" /\
  VariantA.list_categories Sample.empty_env Sample.upstream_echo JUndefined
    = Throw (UserError
        (lit "undefined/wp-json/wc/v3/products/categories?per_page=50&page=1")).
Proof. repeat split. Qed.

(** *** Sending *)

Lemma not_fresh_status (req : Request) (r : ServerResponse) :
  ((200 <=? statusCode r) && (statusCode r <? 300)) || (statusCode r =? 304) = false ->
  req_fresh req r = false.
Proof.
  intros H. unfold req_fresh. rewrite H, andb_false_r. reflexivity.
Qed.

Lemma not_fresh_method (req : Request) (r : ServerResponse) :
  handles GET (method req) = false -> req_fresh req r = false.
Proof.
  intros H. unfold req_fresh. unfold handles in H. cbn [method_eqb andb] in H.
  destruct (method req); try discriminate H; reflexivity.
Qed.

(** [res.sendStatus(code)] on a request that is not fresh: the status is
    [code], the response is complete, nothing else happens. *)
Lemma send_status_settles (code : N) (req : Request) (st : St) :
  req_fresh req (res_status code (res st)) = false ->
  statusCode (res (fst (send_status code req st))) = code /\
  ended (res (fst (send_status code req st))) = true /\
  events (fst (send_status code req st)) = events st.
Proof.
  intros H. unfold send_status, res_sendStatus, send.
  cbn [fst on_res res events].
  change (req_fresh req (res_setHeader (lit "Content-Type")
            (lit "text/plain; charset=utf-8") (res_status code (res st))))
    with (req_fresh req (res_status code (res st))).
  rewrite H.
  destruct ((statusCode _ =? 204) || (statusCode _ =? 304));
    [|destruct (method_eqb (method req) HEAD)];
    unfold res_end, res_write, res_removeHeader, res_setHeader, res_status;
    cbn [statusCode headers written ended];
    try (destruct (ended (res st)));
    cbn [statusCode headers written ended]; repeat split.
Qed.

(** Whatever [res.send] sends, it ends the response. *)
Lemma send_ends (req : Request) (content_type text : jsstring) (r : ServerResponse) :
  ended (send req content_type text r) = true.
Proof.
  unfold send.
  destruct (req_fresh _ _);
    destruct ((statusCode _ =? 204) || (statusCode _ =? 304));
    try (destruct (method_eqb (method req) HEAD)); reflexivity.
Qed.

Lemma send_status_ends (code : N) (req : Request) (st : St) :
  ended (res (fst (send_status code req st))) = true.
Proof. apply send_ends. Qed.

(** *** The second program of part_000, route by route *)

Lemma splat_params_decode (p s : jsstring) :
  percent_free (p ++ [slash]) = true ->
  matches (Splat p) s = true ->
  params_decode (Splat p) s = decodes s.
Proof.
  intros Hp. unfold params_decode. cbn [matches captured].
  destruct (strip_prefix (p ++ [slash]) s) as [rest|] eqn:E; [|discriminate].
  intros _. symmetry. apply (decodes_after_prefix _ _ _ Hp E).
Qed.

Lemma variantB_serves (req : Request) :
  serve VariantB.app req = variantB_dispatch req.
Proof.
  unfold serve, VariantB.app, variantB_dispatch.
  cbn [route pattern verb handler].
  change (matches MountAll (path req)) with true.
  change (matches Star (path req)) with true.
  change (params_decode MountAll (path req)) with true.
  change (params_decode Star (path req)) with (decodes (path req)).
  cbv iota. unfold sse_headers at 1. fold unbuffered.
  destruct (matches (Splat (lit "/.well-known")) (path req)) eqn:Hs.
  - rewrite (splat_params_decode (lit "/.well-known") _ eq_refl Hs).
    destruct (decodes (path req)); [|reflexivity]. cbn [negb andb].
    destruct (method req); cbn [handles method_eqb orb andb];
      unfold send_status, handleSse; cbn [fst];
      repeat match goal with
             | |- context [matches ?p ?s] => destruct (matches p s)
             end; reflexivity.
  - cbn [andb].
    destruct (decodes (path req)); [|reflexivity]. cbn [negb].
    destruct (method req); cbn [handles method_eqb orb andb];
      unfold send_status, handleSse; cbn [fst];
      repeat match goal with
             | |- context [matches ?p ?s] => destruct (matches p s)
             end; reflexivity.
Qed.

(* ================================================================== *)
(** ** Further properties *)
(* ================================================================== *)

(** *** Header lists *)

Lemma filter_other_name (h : Headers) (n n' : jsstring) :
  name_eqb n n' = false ->
  filter (fun kv => name_eqb (fst kv) n')
         (filter (fun kv => negb (name_eqb (fst kv) n)) h)
  = filter (fun kv => name_eqb (fst kv) n') h.
Proof.
  intros Hn. induction h as [|[k x] h IH]; [reflexivity|].
  cbn [filter fst]. destruct (name_eqb k n) eqn:E; cbn [negb].
  - destruct (name_eqb k n') eqn:E'; [|exact IH].
    exfalso. unfold name_eqb in *. apply str_eqb_eq in E, E'.
    rewrite <- E, E' in Hn. unfold str_eqb in Hn.
    destruct (list_eq_dec N.eq_dec (toLowerCase n') (toLowerCase n')); congruence.
  - cbn [filter fst]. destruct (name_eqb k n'); rewrite IH; reflexivity.
Qed.

(** Reading a header after [setHeader]: the value just set under that
    name, the earlier value under any other. *)
Lemma headers_get_setHeader (r : ServerResponse) (n v n' : jsstring) :
  headers_get (headers (res_setHeader n v r)) n'
  = if name_eqb n n' then Some v else headers_get (headers r) n'.
Proof.
  cbn [res_setHeader headers]. destruct (name_eqb n n') eqn:Hn.
  - apply headers_get_set. exact Hn.
  - unfold headers_get. rewrite filter_app, (filter_other_name _ _ _ Hn).
    cbn [filter fst]. rewrite Hn, app_nil_r. reflexivity.
Qed.

(** *** The bridge, continued *)

Section BridgeMore.

Variable TARGET BEARER : jsstring.
Variable fetch : Fetch.

Local Abbreviation post_sse := (Bridge.post_sse TARGET BEARER fetch).
Local Abbreviation forwarded := (Bridge.forwarded TARGET BEARER).
Local Abbreviation app := (Bridge.app TARGET BEARER fetch).

(** The run of the handler on an upstream response, in full. *)
Lemma post_sse_on_response (req : Request) (st : St) (up : Response) :
  fetch (forwarded req) = Ok up ->
  ended (res st) = false ->
  post_sse req st =
  ({| res := {| statusCode := status up;
                headers := headers (mirrored up (res st));
                written := written (res st) ++ body_chunks (resp_body up);
                ended := true |};
      events := events st ++ [UpstreamCall (forwarded req)] |}, Ok tt).
Proof.
  intros Hfetch Hopen.
  unfold Bridge.post_sse, try_catch at 1, bindM at 1, Bridge.call_upstream.
  rewrite Hfetch. unfold mirrored.
  cbv [bindM respond when ret].
  destruct st as [r ev]. cbn [res events] in *.
  destruct (truthy_str (or_default (headers_get (resp_headers up)
                                      (lit "mcp-protocol-version")) []));
  destruct (truthy_str (or_default (headers_get (resp_headers up)
                                      (lit "x-transport-type")) []));
  (destruct (resp_body up) as [s|];
   [ rewrite relay_never_rejects by exact Hopen; reflexivity
   | cbn; rewrite app_nil_r; reflexivity ]).
Qed.

(** The run of the handler when the fetch is rejected, in full. *)
Lemma post_sse_on_failure (req : Request) (st : St) (e : Thrown) :
  fetch (forwarded req) = Throw e ->
  ended (res st) = false ->
  exists st',
    post_sse req st = (st', Ok tt) /\
    statusCode (res st') = 502 /\
    ended (res st') = true /\
    events st' = events st ++ [UpstreamCall (forwarded req);
                               ConsoleError (lit "Proxy error:")].
Proof.
  intros Hfetch Hopen.
  unfold Bridge.post_sse, try_catch at 1, bindM at 1, Bridge.call_upstream.
  rewrite Hfetch.
  cbv [bindM respond log].
  eexists; split; [reflexivity|].
  destruct st as [r ev]; cbn [res events emit on_res] in *.
  unfold res_json, res_write, res_end, res_setHeader, res_status;
    cbn [ended statusCode written headers].
  rewrite Hopen. cbn [ended statusCode written headers].
  rewrite <- app_assoc. repeat split.
Qed.

(** Whatever the upstream does, the handler returns, the response is
    ended, and one call went upstream. *)
Lemma post_sse_settles (req : Request) (st : St) :
  ended (res st) = false ->
  exists st',
    post_sse req st = (st', Ok tt) /\
    ended (res st') = true /\
    upstream_calls st' = upstream_calls st ++ [UpstreamCall (forwarded req)].
Proof.
  intros Hopen. destruct (fetch (forwarded req)) as [up|e] eqn:Hfetch.
  - rewrite (post_sse_on_response req st up Hfetch Hopen).
    eexists. split; [reflexivity|]. split; [reflexivity|].
    unfold upstream_calls. cbn [events]. rewrite filter_app. reflexivity.
  - destruct (post_sse_on_failure req st e Hfetch Hopen)
      as (st' & Hrun & _ & He & Hev).
    exists st'. split; [exact Hrun|]. split; [exact He|].
    unfold upstream_calls. rewrite Hev, filter_app. reflexivity.
Qed.

End BridgeMore.

Section BridgeRoutes.

Variable TARGET BEARER : jsstring.
Variable fetch : Fetch.

(** The router, run on the stack of the bridge, takes the routes in the
    order [bridge_dispatch] lists them. *)
Lemma bridge_serves (req : Request) :
  serve (Bridge.app TARGET BEARER fetch) req
  = bridge_dispatch TARGET BEARER fetch req.
Proof.
  unfold serve, Bridge.app, bridge_dispatch.
  cbn [route pattern verb handler].
  change (matches MountAll (path req)) with true. cbv iota.
  unfold cors at 1. fold after_cors.
  destruct (method_eqb (method req) OPTIONS) eqn:Hopt; [reflexivity|].
  unfold express_json at 1.
  destruct (body req) as [v|code] eqn:Hb; [|reflexivity].
  unfold Bridge.options_204. rewrite Hopt.
  unfold Bridge.health, Bridge.root, send_status, async_handler. cbn [fst].
  destruct (matches (Literal (lit "/health")) (path req));
    destruct (handles GET (method req));
    destruct (matches (Mount (lit "/.well-known")) (path req));
    destruct (matches (Literal (lit "/sse")) (path req));
    destruct (handles POST (method req));
    destruct (matches (Literal (lit "/")) (path req));
    cbn [andb orb]; try reflexivity;
    destruct (Bridge.post_sse _ _ _ _ _) as [st' [[]|e]]; reflexivity.
Qed.

End BridgeRoutes.

(** *** Probe routes *)

(** C9, as the code has it.  A request for a path under /.well-known
    whose method is not OPTIONS is answered 404 by the bridge, when its
    JSON parser accepted the body, and by the second program of part_000,
    when the method is not POST either and the escapes of the path are
    well formed.  An OPTIONS request for any path is answered 204 by the
    bridge, and by the second program of part_000 when the escapes of the
    path are well formed.  None of these makes an upstream call. *)
Theorem probes_are_answered
  (TARGET BEARER : jsstring) (fetch : Fetch) (req : Request) :
  (forall v : JSValue,
     matches (Mount (lit "/.well-known")) (path req) = true ->
     method req <> OPTIONS ->
     body req = Parsed v ->
     answered 404 (serve (Bridge.app TARGET BEARER fetch) req)) /\
  (matches (Mount (lit "/.well-known")) (path req) = true ->
     method req <> OPTIONS ->
     method req <> POST ->
     decodes (path req) = true ->
     answered 404 (serve VariantB.app req)) /\
  (method req = OPTIONS ->
     answered 204 (serve (Bridge.app TARGET BEARER fetch) req)) /\
  (method req = OPTIONS ->
     decodes (path req) = true ->
     answered 204 (serve VariantB.app req)).
Proof.
  assert (Hsend : forall st, events st = [] ->
            answered 404 (fst (send_status 404 req st), None)).
  { intros st Hev.
    destruct (send_status_settles 404 req st (not_fresh_status req (res_status 404 (res st)) eq_refl))
      as (H1 & H2 & H3).
    unfold answered. cbn [fst snd]. rewrite H1, H2, H3, Hev. repeat split. }
  split; [|split; [|split]].
  - intros v Hp Hm Hb. rewrite bridge_serves. unfold bridge_dispatch.
    replace (method_eqb (method req) OPTIONS) with false
      by (destruct (method req); try reflexivity; congruence).
    rewrite Hb, (well_known_not_health _ Hp), Hp. cbn [andb].
    apply Hsend. reflexivity.
  - intros Hp Hm Hpost Hd. rewrite variantB_serves. unfold variantB_dispatch.
    rewrite Hd, (well_known_not_sse _ Hp), (well_known_not_root _ Hp).
    cbn [negb orb andb].
    replace (method_eqb (method req) OPTIONS) with false
      by (destruct (method req); try reflexivity; congruence).
    replace (method_eqb (method req) POST) with false
      by (destruct (method req); try reflexivity; congruence).
    destruct (matches (Splat (lit "/.well-known")) (path req)
              && handles GET (method req)).
    + apply Hsend. reflexivity.
    + repeat split.
  - intros Hm. rewrite bridge_serves. unfold bridge_dispatch.
    rewrite Hm. cbn [method_eqb]. repeat split.
  - intros Hm Hd. rewrite variantB_serves. unfold variantB_dispatch.
    rewrite Hd, Hm. cbn [negb handles method_eqb orb andb].
    rewrite andb_false_r.
    destruct (send_status_settles 204 req unbuffered) as (H1 & H2 & H3).
    { apply not_fresh_method. rewrite Hm. reflexivity. }
    unfold answered. cbn [fst snd]. rewrite H1, H2, H3. repeat split.
Qed.

Lemma probes_are_answered_witness :
  (matches (Mount (lit "/.well-known")) (path Sample.probe_delete_deep) = true /\
   method Sample.probe_delete_deep = DELETE /\
   method Sample.options_elsewhere = OPTIONS) /\
  (answered 404 (serve (Bridge.app Sample.target [] Sample.upstream_down)
                       Sample.probe_delete_deep) /\
   answered 404 (serve VariantB.app Sample.probe_delete_deep)) /\
  (answered 204 (serve (Bridge.app Sample.target [] Sample.upstream_down)
                       Sample.options_elsewhere) /\
   answered 204 (serve VariantB.app Sample.options_elsewhere)).
Proof.
  split; [repeat split|].
  pose proof (probes_are_answered Sample.target [] Sample.upstream_down
                Sample.probe_delete_deep) as (Hb & Hv & _).
  pose proof (probes_are_answered Sample.target [] Sample.upstream_down
                Sample.options_elsewhere) as (_ & _ & Ob & Ov).
  split; split.
  - apply (Hb JUndefined); [reflexivity|discriminate|reflexivity].
  - apply Hv; [reflexivity|discriminate|discriminate|reflexivity].
  - apply Ob. reflexivity.
  - apply Ov; reflexivity.
Defined.

(** C9 as stated fails in several ways.  In the second program of
    part_000 a POST under /.well-known falls to the catch-all POST route
    and gets 200. *)
Lemma post_probe_answered_200 :
  starts_with (path Sample.probe_post) (lit "/.well-known/") = true /\
  statusCode (res (fst (serve VariantB.app Sample.probe_post))) = 200 /\
  ~ answered 404 (serve VariantB.app Sample.probe_post).
Proof.
  split; [reflexivity|]. split; [reflexivity|].
  intros (_ & H & _). vm_compute in H. discriminate H.
Qed.

(** There, a path with a malformed escape is answered 400 before any
    route handler runs: under /.well-known, and for OPTIONS anywhere. *)
Lemma malformed_probe_answered_400 :
  decodes (path Sample.probe_malformed) = false /\
  statusCode (res (fst (serve VariantB.app Sample.probe_malformed))) = 400 /\
  decodes (path Sample.options_malformed) = false /\
  statusCode (res (fst (serve VariantB.app Sample.options_malformed))) = 400.
Proof. repeat split. Qed.

(** The bridge answers an OPTIONS request under /.well-known with 204,
    and a probe whose body its JSON parser rejected with 400. *)
Lemma bridge_options_probe_204 :
  starts_with (path Sample.probe_options) (lit "/.well-known/") = true /\
  statusCode (res (fst (serve (Bridge.app Sample.target [] Sample.upstream_down)
                              Sample.probe_options))) = 204.
Proof. split; reflexivity. Qed.

Lemma bridge_probe_bad_body_400 :
  statusCode (res (fst (serve (Bridge.app Sample.target [] Sample.upstream_down)
                              Sample.probe_bad_body))) = 400.
Proof. reflexivity. Qed.

Lemma nonempty_value_truthy (x : option jsstring) :
  nonempty_value x = if truthy_str (or_default x []) then Some (or_default x []) else None.
Proof. destruct x as [[|c r]|]; reflexivity. Qed.

(** X1.  On a POST to /sse the bridge answers with the status of the
    upstream response, with its content type (or application/json when
    it has none), and with its [mcp-protocol-version] and
    [x-transport-type] headers when they are there and not empty. *)
Theorem bridge_mirrors_upstream_head
  (TARGET BEARER : jsstring) (fetch : Fetch)
  (req : Request) (v : JSValue) (up : Response) :
  method req = POST ->
  matches (Literal (lit "/sse")) (path req) = true ->
  body req = Parsed v ->
  fetch (Bridge.forwarded TARGET BEARER req) = Ok up ->
  let st' := fst (serve (Bridge.app TARGET BEARER fetch) req) in
  statusCode (res st') = status up /\
  headers_get (headers (res st')) (lit "Content-Type")
    = Some (or_default (headers_get (resp_headers up) (lit "content-type"))
                       (lit "application/json")) /\
  headers_get (headers (res st')) (lit "mcp-protocol-version")
    = nonempty_value (headers_get (resp_headers up) (lit "mcp-protocol-version")) /\
  headers_get (headers (res st')) (lit "x-transport-type")
    = nonempty_value (headers_get (resp_headers up) (lit "x-transport-type")).
Proof.
  intros Hm Hp Hb Hfetch st'. subst st'.
  rewrite (post_sse_is_routed TARGET BEARER fetch req v Hm Hp Hb).
  fold after_cors.
  rewrite (post_sse_on_response TARGET BEARER fetch req after_cors up Hfetch eq_refl).
  cbn [fst res statusCode headers].
  rewrite !nonempty_value_truthy. unfold mirrored.
  destruct (truthy_str (or_default (headers_get (resp_headers up)
                                      (lit "mcp-protocol-version")) []));
  destruct (truthy_str (or_default (headers_get (resp_headers up)
                                      (lit "x-transport-type")) []));
  rewrite !headers_get_setHeader; name_tests; repeat split.
Qed.

Lemma bridge_mirrors_upstream_head_witness :
  let up := Sample2.plain Closed [(lit "MCP-Protocol-Version", lit "2025-03-26");
                                  (lit "X-Transport-Type", [])] in
  let st' := fst (serve (Bridge.app Sample.target [] (fun _ => Ok up)) Sample.post_rpc) in
  statusCode (res st') = 201 /\
  headers_get (headers (res st')) (lit "Content-Type") = Some (lit "text/event-stream") /\
  headers_get (headers (res st')) (lit "mcp-protocol-version") = Some (lit "2025-03-26") /\
  headers_get (headers (res st')) (lit "x-transport-type") = None.
Proof.
  exact (bridge_mirrors_upstream_head Sample.target [] _ Sample.post_rpc Sample.rpc
           (Sample2.plain Closed [(lit "MCP-Protocol-Version", lit "2025-03-26");
                                  (lit "X-Transport-Type", [])])
           eq_refl eq_refl eq_refl eq_refl).
Defined.

Lemma nonempty_value_default (x y : option jsstring) :
  nonempty_value x = nonempty_value y -> or_default x [] = or_default y [].
Proof.
  destruct x as [[|c r]|], y as [[|c' r']|]; cbn; congruence.
Qed.

(** X2.  Nothing else of the upstream response head reaches the client:
    two upstream responses that agree on the status, the body, the
    content type and the two mirrored headers give the same client
    response, whatever other headers and status text they carry. *)
Theorem bridge_mirrors_nothing_else
  (TARGET BEARER : jsstring) (fetch1 fetch2 : Fetch)
  (req : Request) (v : JSValue) (up1 up2 : Response) :
  method req = POST ->
  matches (Literal (lit "/sse")) (path req) = true ->
  body req = Parsed v ->
  fetch1 (Bridge.forwarded TARGET BEARER req) = Ok up1 ->
  fetch2 (Bridge.forwarded TARGET BEARER req) = Ok up2 ->
  status up1 = status up2 ->
  resp_body up1 = resp_body up2 ->
  or_default (headers_get (resp_headers up1) (lit "content-type"))
             (lit "application/json")
    = or_default (headers_get (resp_headers up2) (lit "content-type"))
                 (lit "application/json") ->
  nonempty_value (headers_get (resp_headers up1) (lit "mcp-protocol-version"))
    = nonempty_value (headers_get (resp_headers up2) (lit "mcp-protocol-version")) ->
  nonempty_value (headers_get (resp_headers up1) (lit "x-transport-type"))
    = nonempty_value (headers_get (resp_headers up2) (lit "x-transport-type")) ->
  res (fst (serve (Bridge.app TARGET BEARER fetch1) req))
  = res (fst (serve (Bridge.app TARGET BEARER fetch2) req)).
Proof.
  intros Hm Hp Hb Hf1 Hf2 Hs Hbody Hct Hproto Htr.
  rewrite (post_sse_is_routed TARGET BEARER fetch1 req v Hm Hp Hb).
  rewrite (post_sse_is_routed TARGET BEARER fetch2 req v Hm Hp Hb).
  fold after_cors.
  rewrite (post_sse_on_response TARGET BEARER fetch1 req after_cors up1 Hf1 eq_refl).
  rewrite (post_sse_on_response TARGET BEARER fetch2 req after_cors up2 Hf2 eq_refl).
  cbn [fst res]. unfold mirrored.
  rewrite Hs, Hbody, Hct.
  rewrite (nonempty_value_default _ _ Hproto), (nonempty_value_default _ _ Htr).
  reflexivity.
Qed.

Lemma bridge_mirrors_nothing_else_witness :
  res (fst (serve (Bridge.app Sample.target []
                     (fun _ => Ok (Sample2.plain Closed [])))
                  Sample.post_rpc))
  = res (fst (serve (Bridge.app Sample.target []
                       (fun _ => Ok (Sample2.plain Closed
                                       [(lit "Set-Cookie", lit "session=1");
                                        (lit "X-Transport-Type", [])])))
                    Sample.post_rpc)).
Proof.
  exact (bridge_mirrors_nothing_else Sample.target []
           (fun _ => Ok (Sample2.plain Closed []))
           (fun _ => Ok (Sample2.plain Closed [(lit "Set-Cookie", lit "session=1");
                                               (lit "X-Transport-Type", [])]))
           Sample.post_rpc Sample.rpc
           (Sample2.plain Closed [])
           (Sample2.plain Closed [(lit "Set-Cookie", lit "session=1");
                                  (lit "X-Transport-Type", [])])
           eq_refl eq_refl eq_refl eq_refl eq_refl eq_refl eq_refl eq_refl
           eq_refl eq_refl).
Defined.

(** X3.  When the upstream response has no body, the client response is
    ended at once with the mirrored status and nothing written. *)
Theorem bridge_null_body_ends_empty
  (TARGET BEARER : jsstring) (fetch : Fetch)
  (req : Request) (v : JSValue) (up : Response) :
  method req = POST ->
  matches (Literal (lit "/sse")) (path req) = true ->
  body req = Parsed v ->
  fetch (Bridge.forwarded TARGET BEARER req) = Ok up ->
  resp_body up = None ->
  snd (serve (Bridge.app TARGET BEARER fetch) req) = None /\
  written (res (fst (serve (Bridge.app TARGET BEARER fetch) req))) = [] /\
  ended (res (fst (serve (Bridge.app TARGET BEARER fetch) req))) = true /\
  statusCode (res (fst (serve (Bridge.app TARGET BEARER fetch) req))) = status up.
Proof.
  intros Hm Hp Hb Hfetch Hbody.
  rewrite (post_sse_is_routed TARGET BEARER fetch req v Hm Hp Hb).
  fold after_cors.
  rewrite (post_sse_on_response TARGET BEARER fetch req after_cors up Hfetch eq_refl).
  rewrite Hbody. repeat split.
Qed.

Lemma bridge_null_body_ends_empty_witness :
  let out := serve (Bridge.app Sample.target [] (fun _ => Ok Sample2.no_content))
                   Sample.post_rpc in
  snd out = None /\
  written (res (fst out)) = [] /\
  ended (res (fst out)) = true /\
  statusCode (res (fst out)) = 204.
Proof.
  exact (bridge_null_body_ends_empty Sample.target [] _ Sample.post_rpc Sample.rpc
           Sample2.no_content eq_refl eq_refl eq_refl eq_refl eq_refl).
Defined.

(** X4.  A POST to /sse makes exactly one upstream call, whatever the
    upstream answers: a POST to the target URL whose body is the JSON text
    of the request body, or of the empty object when there is none, with
    an [Authorization] header only when a bearer token is configured. *)
Theorem bridge_calls_upstream_once
  (TARGET BEARER : jsstring) (fetch : Fetch) (req : Request) (v : JSValue) :
  method req = POST ->
  matches (Literal (lit "/sse")) (path req) = true ->
  body req = Parsed v ->
  exists call,
    upstream_calls (fst (serve (Bridge.app TARGET BEARER fetch) req))
      = [UpstreamCall call] /\
    url call = TARGET /\
    fetch_method call = lit "POST" /\
    fetch_body call = JSON_stringify (if is_nullish v then JObj [] else v) /\
    headers_get (fetch_headers call) (lit "Authorization")
      = (if truthy_str BEARER then Some (lit "Bearer " ++ BEARER) else None) /\
    headers_get (fetch_headers call) (lit "Content-Type")
      = Some (lit "application/json").
Proof.
  intros Hm Hp Hb. exists (Bridge.forwarded TARGET BEARER req).
  split.
  - rewrite (post_sse_is_routed TARGET BEARER fetch req v Hm Hp Hb).
    fold after_cors.
    destruct (post_sse_settles TARGET BEARER fetch req after_cors eq_refl)
      as (st' & Hrun & _ & Hcalls).
    rewrite Hrun. exact Hcalls.
  - unfold Bridge.forwarded, req_body. rewrite Hb.
    cbn [url fetch_method fetch_body fetch_headers].
    repeat split; try reflexivity; destruct (truthy_str BEARER); reflexivity.
Qed.

Lemma bridge_calls_upstream_once_witness :
  exists call,
    upstream_calls (fst (serve (Bridge.app Sample.target (lit "tok")
                                  Sample.upstream_down)
                               {| method := POST; path := lit "/sse";
                                  body := Parsed JUndefined;
                                  revalidates := false |}))
      = [UpstreamCall call] /\
    url call = Sample.target /\
    fetch_method call = lit "POST" /\
    fetch_body call = Some (lit "{}") /\
    headers_get (fetch_headers call) (lit "Authorization") = Some (lit "Bearer tok") /\
    headers_get (fetch_headers call) (lit "Content-Type")
      = Some (lit "application/json").
Proof.
  exact (bridge_calls_upstream_once Sample.target (lit "tok") Sample.upstream_down
           {| method := POST; path := lit "/sse"; body := Parsed JUndefined;
              revalidates := false |}
           JUndefined eq_refl eq_refl eq_refl).
Defined.

(** X5.  Every request to the bridge is answered: whatever the method,
    the path, the body and the upstream, the response is ended and no
    error escapes the router. *)
Theorem bridge_always_answers
  (TARGET BEARER : jsstring) (fetch : Fetch) (req : Request) :
  snd (serve (Bridge.app TARGET BEARER fetch) req) = None /\
  ended (res (fst (serve (Bridge.app TARGET BEARER fetch) req))) = true.
Proof.
  rewrite bridge_serves. unfold bridge_dispatch.
  destruct (method_eqb (method req) OPTIONS); [split; reflexivity|].
  destruct (body req) as [v|code]; [|split; reflexivity].
  destruct (matches (Literal (lit "/health")) (path req) && handles GET (method req));
    [split; [reflexivity|apply send_ends]|].
  destruct (matches (Mount (lit "/.well-known")) (path req));
    [split; [reflexivity|apply send_status_ends]|].
  destruct (matches (Literal (lit "/sse")) (path req) && handles POST (method req)).
  - destruct (post_sse_settles TARGET BEARER fetch req after_cors eq_refl)
      as (st' & Hrun & He & _).
    rewrite Hrun. split; [reflexivity|exact He].
  - destruct (matches (Literal (lit "/")) (path req) && handles GET (method req));
      split; try reflexivity.
    apply send_ends.
Qed.

(** X6.  Only a POST to /sse whose body the parser accepted goes
    upstream: every other request is answered without an upstream call. *)
Theorem bridge_upstream_only_from_post_sse
  (TARGET BEARER : jsstring) (fetch : Fetch) (req : Request) :
  upstream_calls (fst (serve (Bridge.app TARGET BEARER fetch) req)) <> [] ->
  method req = POST /\
  matches (Literal (lit "/sse")) (path req) = true /\
  exists v, body req = Parsed v.
Proof.
  rewrite bridge_serves. unfold bridge_dispatch.
  destruct (method_eqb (method req) OPTIONS); [intros H; elim H; reflexivity|].
  destruct (body req) as [v|code]; [|intros H; elim H; reflexivity].
  destruct (matches (Literal (lit "/health")) (path req) && handles GET (method req));
    [intros H; elim H; reflexivity|].
  destruct (matches (Mount (lit "/.well-known")) (path req));
    [intros H; elim H; reflexivity|].
  destruct (matches (Literal (lit "/sse")) (path req)) eqn:Hp; cbn [andb].
  - destruct (method req) eqn:Hm; cbn [handles method_eqb orb andb];
      try (destruct (matches (Literal (lit "/")) (path req)); cbn [andb];
           intros H; elim H; reflexivity).
    intros _. split; [reflexivity|]. split; [reflexivity|]. exists v. reflexivity.
  - destruct (matches (Literal (lit "/")) (path req) && handles GET (method req));
      intros H; elim H; reflexivity.
Qed.

Lemma bridge_upstream_only_from_post_sse_witness :
  upstream_calls (fst (serve (Bridge.app Sample.target [] Sample.upstream_abc)
                             Sample.post_rpc)) <> [] /\
  method Sample.post_rpc = POST /\
  matches (Literal (lit "/sse")) (path Sample.post_rpc) = true /\
  exists v, body Sample.post_rpc = Parsed v.
Proof.
  assert (H : upstream_calls (fst (serve (Bridge.app Sample.target [] Sample.upstream_abc)
                                         Sample.post_rpc)) <> [])
    by (vm_compute; discriminate).
  split; [exact H|].
  exact (bridge_upstream_only_from_post_sse Sample.target [] Sample.upstream_abc
           Sample.post_rpc H).
Defined.

(** X7.  A request (other than a preflight) whose JSON body the parser
    refuses is answered with the status of that refusal and is never
    forwarded upstream. *)
Theorem bridge_rejected_body_not_forwarded
  (TARGET BEARER : jsstring) (fetch : Fetch) (req : Request) (code : N) :
  method req <> OPTIONS ->
  body req = Rejected code ->
  statusCode (res (fst (serve (Bridge.app TARGET BEARER fetch) req))) = code /\
  upstream_calls (fst (serve (Bridge.app TARGET BEARER fetch) req)) = [].
Proof.
  intros Hm Hb. rewrite bridge_serves. unfold bridge_dispatch. rewrite Hb.
  destruct (method req); try (split; reflexivity). congruence.
Qed.

Lemma bridge_rejected_body_not_forwarded_witness :
  statusCode (res (fst (serve (Bridge.app Sample.target [] Sample.upstream_abc)
                              Sample2.bad_json))) = 400 /\
  upstream_calls (fst (serve (Bridge.app Sample.target [] Sample.upstream_abc)
                             Sample2.bad_json)) = [].
Proof.
  apply (bridge_rejected_body_not_forwarded Sample.target [] Sample.upstream_abc
           Sample2.bad_json 400); [discriminate|reflexivity].
Defined.

Lemma bridge_without_options_serves
  (TARGET BEARER : jsstring) (fetch : Fetch) (req : Request) :
  serve (bridge_without_options TARGET BEARER fetch) req
  = bridge_dispatch TARGET BEARER fetch req.
Proof.
  unfold serve, bridge_without_options, bridge_dispatch.
  cbn [route pattern verb handler].
  change (matches MountAll (path req)) with true. cbv iota.
  unfold cors at 1. fold after_cors.
  destruct (method_eqb (method req) OPTIONS) eqn:Hopt; [reflexivity|].
  unfold express_json at 1.
  destruct (body req) as [v|code] eqn:Hb; [|reflexivity].
  unfold Bridge.health, Bridge.root, send_status, async_handler. cbn [fst].
  destruct (matches (Literal (lit "/health")) (path req));
    destruct (handles GET (method req));
    destruct (matches (Mount (lit "/.well-known")) (path req));
    destruct (matches (Literal (lit "/sse")) (path req));
    destruct (handles POST (method req));
    destruct (matches (Literal (lit "/")) (path req));
    cbn [andb orb]; try reflexivity;
    destruct (Bridge.post_sse _ _ _ _ _) as [st' [[]|e]]; reflexivity.
Qed.

(** X8.  The OPTIONS middleware of lines 25-28 never decides a request:
    [cors()], registered before it, has already answered every preflight,
    so the bridge behaves the same without it. *)
Theorem bridge_options_middleware_shadowed
  (TARGET BEARER : jsstring) (fetch : Fetch) (req : Request) :
  serve (Bridge.app TARGET BEARER fetch) req
  = serve (bridge_without_options TARGET BEARER fetch) req.
Proof.
  rewrite bridge_serves, bridge_without_options_serves. reflexivity.
Qed.
(** The root path matches no other route of the programs. *)
Lemma root_path_exclusive (p : jsstring) :
  matches (Literal (lit "/")) p = true ->
  matches (Literal (lit "/health")) p = false /\
  matches (Mount (lit "/.well-known")) p = false /\
  matches (Literal (lit "/sse")) p = false /\
  matches (Splat (lit "/.well-known")) p = false /\
  matches (Param (lit "/.well-known")) p = false.
Proof.
  intros H. destruct (root_path_only _ H) as [-> | ->]; repeat split; reflexivity.
Qed.

(** X9.  The two liveness routes of the bridge do not depend on the
    upstream.  A GET for /health is answered 200 with the text "ok", a
    GET for / with 200 and the JSON text of
    [{ok: true, sse: "/sse", target}]; when the request revalidates a
    cached copy that is still good, the answer is 304 with no body
    instead.  Neither makes an upstream call. *)
Theorem bridge_liveness_routes
  (TARGET BEARER : jsstring) (fetch : Fetch) (req : Request) (v : JSValue) :
  method req = GET ->
  body req = Parsed v ->
  (matches (Literal (lit "/health")) (path req) = true ->
     (revalidates req = false ->
        answered 200 (serve (Bridge.app TARGET BEARER fetch) req) /\
        written (res (fst (serve (Bridge.app TARGET BEARER fetch) req)))
          = [utf8_encode (lit "ok")]) /\
     (revalidates req = true ->
        answered 304 (serve (Bridge.app TARGET BEARER fetch) req) /\
        written (res (fst (serve (Bridge.app TARGET BEARER fetch) req))) = [])) /\
  (matches (Literal (lit "/")) (path req) = true ->
     (revalidates req = false ->
        answered 200 (serve (Bridge.app TARGET BEARER fetch) req) /\
        exists text,
          JSON_stringify (JObj [(lit "ok", JBool true);
                                (lit "sse", JStr (lit "/sse"));
                                (lit "target", JStr TARGET)]) = Some text /\
          written (res (fst (serve (Bridge.app TARGET BEARER fetch) req)))
            = [utf8_encode text]) /\
     (revalidates req = true ->
        answered 304 (serve (Bridge.app TARGET BEARER fetch) req) /\
        written (res (fst (serve (Bridge.app TARGET BEARER fetch) req))) = [])).
Proof.
  intros Hm Hb. rewrite bridge_serves. unfold bridge_dispatch. rewrite Hb.
  rewrite Hm. cbn [method_eqb handles orb andb]. split; intros Hp.
  - rewrite Hp. cbn [andb].
    unfold Bridge.health, send, req_fresh. rewrite Hm.
    split; intros Hr; rewrite Hr; repeat split.
  - destruct (root_path_exclusive _ Hp) as (H1 & H2 & H3 & _).
    rewrite H1, H2, H3, Hp. cbn [andb].
    unfold Bridge.root, send_json, send, req_fresh. rewrite Hm.
    split; intros Hr; rewrite Hr; [|repeat split].
    split; [repeat split|].
    destruct (stringify_object [(lit "ok", JBool true);
                                (lit "sse", JStr (lit "/sse"));
                                (lit "target", JStr TARGET)]) as [text Htext].
    exists text. split; [exact Htext|].
    rewrite Htext, or_default_some. reflexivity.
Qed.

Lemma bridge_liveness_routes_witness :
  (answered 200 (serve (Bridge.app Sample.target [] Sample.upstream_down)
                       Sample2.get_health) /\
   written (res (fst (serve (Bridge.app Sample.target [] Sample.upstream_down)
                            Sample2.get_health))) = [lit "ok"]) /\
  (answered 304 (serve (Bridge.app Sample.target [] Sample.upstream_down)
                       Sample2.get_root_again) /\
   written (res (fst (serve (Bridge.app Sample.target [] Sample.upstream_down)
                            Sample2.get_root_again))) = []).
Proof.
  split.
  - exact (proj1 (proj1 (bridge_liveness_routes Sample.target [] Sample.upstream_down
                           Sample2.get_health JUndefined eq_refl eq_refl)
                        eq_refl) eq_refl).
  - exact (proj2 (proj2 (bridge_liveness_routes Sample.target [] Sample.upstream_down
                           Sample2.get_root_again JUndefined eq_refl eq_refl)
                        eq_refl) eq_refl).
Defined.

(** The bearer token of the environment: when BEARER is absent or
    empty the forwarded request has no [Authorization] header at all;
    when it is set the header is "Bearer " followed by it.  The target is
    TARGET_STREAM_URL, or the built-in URL when that is absent or
    empty. *)
Theorem bridge_bearer_from_environment (env : Env) (req : Request) :
  let cfg := BridgeProcess.configure env in
  let call := Bridge.forwarded (BridgeProcess.TARGET_STREAM_URL cfg)
                               (BridgeProcess.BEARER cfg) req in
  (missing (env "BEARER"%string) = true ->
     headers_get (fetch_headers call) (lit "Authorization") = None) /\
  (forall c t, env "BEARER"%string = Some (c :: t) ->
     headers_get (fetch_headers call) (lit "Authorization")
       = Some (lit "Bearer " ++ c :: t)) /\
  (missing (env "TARGET_STREAM_URL"%string) = true ->
     url call = BridgeProcess.default_target) /\
  (forall c t, env "TARGET_STREAM_URL"%string = Some (c :: t) ->
     url call = c :: t).
Proof.
  intros cfg call. subst cfg call.
  unfold BridgeProcess.configure, Bridge.forwarded.
  cbn [BridgeProcess.TARGET_STREAM_URL BridgeProcess.BEARER fetch_headers url].
  repeat split.
  - intros H. destruct (env "BEARER"%string) as [[|c t]|]; try discriminate; reflexivity.
  - intros c t H. rewrite H. reflexivity.
  - intros H. destruct (env "TARGET_STREAM_URL"%string) as [[|c t]|];
      try discriminate; reflexivity.
  - intros c t H. rewrite H. reflexivity.
Qed.

Lemma bridge_bearer_from_environment_witness :
  headers_get
    (fetch_headers (Bridge.forwarded
       (BridgeProcess.TARGET_STREAM_URL (BridgeProcess.configure Sample.empty_env))
       (BridgeProcess.BEARER (BridgeProcess.configure Sample.empty_env))
       Sample.post_rpc))
    (lit "Authorization") = None /\
  headers_get
    (fetch_headers (Bridge.forwarded
       (BridgeProcess.TARGET_STREAM_URL (BridgeProcess.configure Sample2.bearer_env))
       (BridgeProcess.BEARER (BridgeProcess.configure Sample2.bearer_env))
       Sample.post_rpc))
    (lit "Authorization") = Some (lit "Bearer tok").
Proof.
  split.
  - exact (proj1 (bridge_bearer_from_environment Sample.empty_env Sample.post_rpc)
                 eq_refl).
  - exact (proj1 (proj2 (bridge_bearer_from_environment Sample2.bearer_env
                           Sample.post_rpc))
                 116 (lit "ok") eq_refl).
Defined.

(** *** The first program of part_000, continued *)

(** In header mode the target is the base URL followed by the path. *)
Lemma header_mode_target (env : Env) (path : jsstring) :
  VariantA.useQueryAuth env = false ->
  VariantA.withAuth env path = Ok (VariantA.base env ++ path).
Proof. intros H. unfold VariantA.withAuth. rewrite H. reflexivity. Qed.

(** X10.  Query mode is chosen exactly when WC_AUTH_IN_QUERY reads
    "true" in any mix of upper and lower case; with any other value, an
    empty one or none, the credentials stay out of the URL, which is the
    base URL followed by the path. *)
Theorem auth_mode_selection (env : Env) :
  (VariantA.useQueryAuth env = true <->
   exists s, env "WC_AUTH_IN_QUERY"%string = Some s /\ toLowerCase s = lit "true") /\
  (VariantA.useQueryAuth env = false ->
   forall path, VariantA.withAuth env path = Ok (VariantA.base env ++ path)).
Proof.
  split.
  - unfold VariantA.useQueryAuth. split.
    + intros H. apply str_eqb_eq in H.
      destruct (env "WC_AUTH_IN_QUERY"%string) as [[|c r]|]; try discriminate.
      exists (c :: r). split; [reflexivity|exact H].
    + intros (s & Hs & Hl). rewrite Hs. apply str_eqb_eq.
      destruct s as [|c r]; [discriminate|exact Hl].
  - intros H path. unfold VariantA.withAuth. rewrite H. reflexivity.
Qed.

Lemma auth_mode_selection_witness :
  VariantA.useQueryAuth Sample.query_env = true /\
  VariantA.withAuth Sample.header_env (lit "/products")
    = Ok (lit "https://shop.example/wp-json/wc/v3/products").
Proof.
  split.
  - apply (proj2 (proj1 (auth_mode_selection Sample.query_env))).
    exists (lit "True"). split; reflexivity.
  - exact (proj2 (auth_mode_selection Sample.header_env) eq_refl (lit "/products")).
Defined.

Lemma url_safe_not_delimiter (c : N) :
  url_safe c = true -> query_delimiter c = false.
Proof.
  intros H. unfold query_delimiter. cbn [existsb].
  destruct (c =? 38) eqn:E1; [apply N.eqb_eq in E1; subst; discriminate|].
  destruct (c =? 61) eqn:E2; [apply N.eqb_eq in E2; subst; discriminate|].
  destruct (c =? 35) eqn:E3; [apply N.eqb_eq in E3; subst; discriminate|].
  destruct (c =? 63) eqn:E4; [apply N.eqb_eq in E4; subst; discriminate|].
  destruct (c =? 32) eqn:E5; [apply N.eqb_eq in E5; subst; discriminate|].
  reflexivity.
Qed.

Lemma forallb_weaken (P Q : N -> bool) (l : list N) :
  (forall c, P c = true -> Q c = true) ->
  forallb P l = true -> forallb Q l = true.
Proof.
  intros H Hl. rewrite forallb_forall in *. intros c Hc. apply H, Hl, Hc.
Qed.

(** X11.  In query mode the key and the secret are written so that they
    cannot break out of their parameters: whatever characters they hold,
    the two values in the target contain no [&], [=], [#], [?] or
    space. *)
Theorem query_values_cannot_split (env : Env) (path : jsstring) :
  VariantA.useQueryAuth env = true ->
  Forall is_unit (template (env "WC_KEY"%string)) ->
  Forall is_unit (template (env "WC_SECRET"%string)) ->
  well_formed (template (env "WC_KEY"%string)) = true ->
  well_formed (template (env "WC_SECRET"%string)) = true ->
  exists k s,
    VariantA.withAuth env path
      = Ok (VariantA.base env ++ path ++
            (if includes path (lit "?") then lit "&" else lit "?") ++
            lit "consumer_key=" ++ k ++ lit "&consumer_secret=" ++ s) /\
    forallb (fun c => negb (query_delimiter c)) k = true /\
    forallb (fun c => negb (query_delimiter c)) s = true.
Proof.
  intros Hq Uk Us Wk Ws.
  destruct (encodeURIComponent_total _ Wk) as [k Ek].
  destruct (encodeURIComponent_total _ Ws) as [s Es].
  exists k, s. split.
  - unfold VariantA.withAuth. rewrite Hq, Ek, Es. cbn [negb bind].
    rewrite <- !app_assoc. reflexivity.
  - split.
    + apply (forallb_weaken url_safe);
        [intros c Hc; rewrite (url_safe_not_delimiter c Hc); reflexivity|].
      exact (encodeURIComponent_safe _ _ Uk Ek).
    + apply (forallb_weaken url_safe);
        [intros c Hc; rewrite (url_safe_not_delimiter c Hc); reflexivity|].
      exact (encodeURIComponent_safe _ _ Us Es).
Qed.

Lemma query_values_cannot_split_witness :
  exists k s,
    VariantA.withAuth Sample.query_env (lit "/products")
      = Ok (VariantA.base Sample.query_env ++ lit "/products" ++
            lit "?" ++ lit "consumer_key=" ++ k ++ lit "&consumer_secret=" ++ s) /\
    forallb (fun c => negb (query_delimiter c)) k = true /\
    forallb (fun c => negb (query_delimiter c)) s = true.
Proof.
  apply (query_values_cannot_split Sample.query_env (lit "/products"));
    try reflexivity; vm_compute; repeat constructor.
Defined.

(** *** Projections *)

Lemma pick_members (names : list jsstring) (c : JSValue) :
  is_nullish c = false -> pick names c = Ok (project names c).
Proof.
  intros Hc. unfold pick, project.
  assert (H : map_result (fun k => bind (get c k) (fun v => Ok (k, v))) names
              = Ok (map (fun k => (k, get_opt c k)) names)).
  { induction names as [|k names IH]; [reflexivity|].
    cbn [map_result map]. rewrite IH.
    destruct c; try discriminate; reflexivity. }
  rewrite H. reflexivity.
Qed.

Lemma pick_nullish (k : jsstring) (names : list jsstring) (c : JSValue) :
  is_nullish c = true -> pick (k :: names) c = Throw TypeError.
Proof. intros Hc. destruct c; try discriminate; reflexivity. Qed.

Lemma pick_outcome (names : list jsstring) (c : JSValue) :
  pick names c = Ok (project names c) \/ pick names c = Throw TypeError.
Proof.
  destruct (is_nullish c) eqn:E.
  - destruct names as [|k names].
    + left. destruct c; reflexivity.
    + right. apply pick_nullish. exact E.
  - left. apply pick_members. exact E.
Qed.

(** Mapping a projection over an array without [null]: every item is
    projected, in order. *)
Lemma array_map_projects (names : list jsstring) (items : list JSValue) :
  existsb is_nullish items = false ->
  array_map (pick names) (JArr items) = Ok (JArr (map (project names) items)).
Proof.
  intros H. cbn [array_map].
  assert (E : map_result (pick names) items = Ok (map (project names) items)).
  { induction items as [|c items IH]; [reflexivity|].
    cbn [existsb] in H. apply orb_false_iff in H. destruct H as [Hc Hitems].
    cbn [map_result map]. rewrite (pick_members names c Hc), (IH Hitems).
    reflexivity. }
  rewrite E. reflexivity.
Qed.

(** An array that holds [null] makes a nonempty projection throw. *)
Lemma array_map_null (k : jsstring) (names : list jsstring) (items : list JSValue) :
  existsb is_nullish items = true ->
  array_map (pick (k :: names)) (JArr items) = Throw TypeError.
Proof.
  intros H. cbn [array_map].
  assert (E : map_result (pick (k :: names)) items = Throw TypeError).
  { induction items as [|c items IH]; [discriminate|].
    cbn [existsb] in H. cbn [map_result].
    destruct (is_nullish c) eqn:Hc.
    - rewrite (pick_nullish k names c Hc). reflexivity.
    - rewrite (pick_members (k :: names) c Hc). cbn [bind].
      rewrite (IH H). reflexivity. }
  rewrite E. reflexivity.
Qed.

Lemma array_map_not_array (f : JSValue -> Result JSValue) (data : JSValue) :
  (forall items, data <> JArr items) -> array_map f data = Throw TypeError.
Proof.
  intros H. destruct data; try reflexivity. elim (H items). reflexivity.
Qed.

(** X12.  [list_categories] passes on, for every item of the upstream
    array and in the same order, an object of exactly the four members
    id, name, slug and count; nothing else of an item reaches the
    result. *)
Theorem list_categories_projects
  (env : Env) (fetch : Fetch) (input : JSValue) (items : list JSValue) :
  VariantA.wc env fetch (categories_path input) (lit "GET") JUndefined
    = Ok (JArr items) ->
  existsb is_nullish items = false ->
  VariantA.list_categories env fetch input
  = Ok (text_content (JSON_stringify_2
          (JArr (map (project category_fields) items)))).
Proof.
  intros Hwc Hitems. unfold VariantA.list_categories.
  fold (categories_path input). rewrite Hwc. cbn [bind truthy].
  fold category_fields. rewrite (array_map_projects _ _ Hitems). reflexivity.
Qed.

Lemma list_categories_projects_witness :
  VariantA.list_categories Sample.header_env
    (fun _ => Ok (Sample.json_response (JArr Sample2.categories))) JUndefined
  = Ok (text_content (JSON_stringify_2
          (JArr [JObj [(lit "id", JNum 1); (lit "name", JStr (lit "baskets"));
                       (lit "slug", JStr (lit "baskets")); (lit "count", JNum 3)];
                 JObj [(lit "id", JNum 2); (lit "name", JStr (lit "bowls"));
                       (lit "slug", JStr (lit "bowls")); (lit "count", JNum 3)]]))).
Proof.
  exact (list_categories_projects Sample.header_env
           (fun _ => Ok (Sample.json_response (JArr Sample2.categories)))
           JUndefined Sample2.categories eq_refl eq_refl).
Defined.

(** X13.  When the upstream answers with a success status but not with
    JSON, [list_categories] returns the text of an empty list instead of
    failing. *)
Theorem list_categories_empty_without_json
  (env : Env) (fetch : Fetch) (input : JSValue) (target : jsstring) (r : Response) :
  VariantA.withAuth env (categories_path input) = Ok target ->
  fetch (wc_request env target (lit "GET") JUndefined) = Ok r ->
  ok r = true ->
  includes (or_default (headers_get (resp_headers r) (lit "content-type")) [])
           (lit "application/json") = false ->
  VariantA.list_categories env fetch input = Ok (text_content (Some (lit "[]"))).
Proof.
  intros Ht Hf Hok Hct. unfold VariantA.list_categories.
  fold (categories_path input). rewrite wc_unfold, Ht. cbn [bind].
  rewrite Hf. cbn [bind]. rewrite Hok. cbn [negb]. rewrite Hct.
  reflexivity.
Qed.

Lemma list_categories_empty_without_json_witness :
  VariantA.list_categories Sample.header_env (fun _ => Ok Sample.html_response)
                           JUndefined
  = Ok (text_content (Some (lit "[]"))).
Proof.
  exact (list_categories_empty_without_json Sample.header_env
           (fun _ => Ok Sample.html_response) JUndefined
           (lit "https://shop.example/wp-json/wc/v3/products/categories?per_page=50&page=1")
           Sample.html_response eq_refl eq_refl eq_refl eq_refl).
Defined.

(** X14.  [list_categories] raises a TypeError, and returns nothing, when
    the upstream value is truthy without being an array, and when it is
    an array that holds [null]. *)
Theorem list_categories_type_errors
  (env : Env) (fetch : Fetch) (input data : JSValue) :
  VariantA.wc env fetch (categories_path input) (lit "GET") JUndefined = Ok data ->
  (truthy data = true /\ forall items, data <> JArr items) \/
  (exists items, data = JArr items /\ existsb is_nullish items = true) ->
  VariantA.list_categories env fetch input = Throw TypeError.
Proof.
  intros Hwc H. unfold VariantA.list_categories.
  fold (categories_path input). rewrite Hwc. cbn [bind].
  destruct H as [[Ht Hna] | (items & -> & Hnull)].
  - rewrite Ht, (array_map_not_array _ _ Hna). reflexivity.
  - cbn [truthy]. rewrite (array_map_null _ _ _ Hnull). reflexivity.
Qed.

Lemma list_categories_type_errors_witness :
  VariantA.list_categories Sample.header_env
    (fun _ => Ok (Sample.json_response (JObj [(lit "code", JStr (lit "rest_error"))])))
    JUndefined = Throw TypeError /\
  VariantA.list_categories Sample.header_env
    (fun _ => Ok (Sample.json_response (JArr [Sample2.category 1 "baskets"; JNull])))
    JUndefined = Throw TypeError.
Proof.
  split.
  - apply (list_categories_type_errors Sample.header_env _ JUndefined
             (JObj [(lit "code", JStr (lit "rest_error"))])); [reflexivity|].
    left. split; [reflexivity|discriminate].
  - apply (list_categories_type_errors Sample.header_env _ JUndefined
             (JArr [Sample2.category 1 "baskets"; JNull])); [reflexivity|].
    right. eexists. split; reflexivity.
Defined.

(** X15.  Without [per_page] and [page] (absent or null) the tool asks
    for 50 categories of page 1; the request goes to the base URL
    followed by the path, by GET and without a body. *)
Theorem list_categories_default_page
  (env : Env) (fetch : Fetch) (input : JSValue) (e : Thrown) :
  VariantA.useQueryAuth env = false ->
  is_nullish (get_opt input (lit "per_page")) = true ->
  is_nullish (get_opt input (lit "page")) = true ->
  fetch {| url := VariantA.base env ++
                  lit "/products/categories?per_page=50&page=1";
           fetch_method := lit "GET";
           fetch_headers := VariantA.authHeaders env;
           fetch_body := None |} = Throw e ->
  VariantA.list_categories env fetch input = Throw e.
Proof.
  intros Hq Hper Hpage Hf. unfold VariantA.list_categories.
  unfold nullish_or. rewrite Hper, Hpage.
  rewrite wc_unfold.
  rewrite (header_mode_target env _ Hq). cbn [bind].
  unfold wc_request. cbn [truthy]. 
  change (lit "/products/categories?per_page=" ++ to_string (JNum 50) ++
          lit "&page=" ++ to_string (JNum 1))
    with (lit "/products/categories?per_page=50&page=1").
  rewrite Hf. reflexivity.
Qed.

Lemma list_categories_default_page_witness :
  VariantA.list_categories Sample.header_env Sample.upstream_down (JObj [])
  = Throw FetchFailed.
Proof.
  exact (list_categories_default_page Sample.header_env Sample.upstream_down
           (JObj []) FetchFailed eq_refl eq_refl eq_refl eq_refl).
Defined.

(** *** Routes of the three SSE servers *)

(** The first program of part_000 serves /sse and nothing else: a
    request for any other path, the root included, gets the default 404
    and opens no SSE session. *)
Theorem variantA_serves_only_sse (req : Request) :
  matches (Literal (lit "/sse")) (path req) = false ->
  statusCode (res (fst (serve VariantA.app req))) = 404 /\
  events (fst (serve VariantA.app req)) = [].
Proof.
  intros Hp. unfold serve, VariantA.app. cbn [route pattern verb handler].
  rewrite Hp. split; reflexivity.
Qed.

Lemma variantA_serves_only_sse_witness :
  statusCode (res (fst (serve VariantA.app Sample2.get_root))) = 404 /\
  events (fst (serve VariantA.app Sample2.get_root)) = [].
Proof.
  exact (variantA_serves_only_sse Sample2.get_root eq_refl).
Defined.

(** X16.  In the second program of part_000 every POST whose path has
    well-formed escapes, whatever the path, is answered 200 by the
    catch-all route; a POST whose path has a malformed escape is answered
    400.  Either way it opens no SSE session and reaches no tool. *)
Theorem variantB_post_catch_all (req : Request) :
  method req = POST ->
  (decodes (path req) = true -> answered 200 (serve VariantB.app req)) /\
  (decodes (path req) = false -> answered 400 (serve VariantB.app req)) /\
  events (fst (serve VariantB.app req)) = [].
Proof.
  intros Hm. rewrite variantB_serves. unfold variantB_dispatch.
  rewrite Hm. cbn [handles method_eqb orb andb]. rewrite andb_false_r.
  destruct (send_status_settles 200 req unbuffered) as (H1 & H2 & H3).
  { apply not_fresh_method. rewrite Hm. reflexivity. }
  split; [|split].
  - intros Hd. rewrite Hd. cbn [negb].
    unfold answered. cbn [fst snd]. rewrite H1, H2, H3. repeat split.
  - intros Hd. rewrite Hd. cbn [negb]. repeat split.
  - destruct (decodes (path req)); cbn [negb fst]; [exact H3|reflexivity].
Qed.

Lemma variantB_post_catch_all_witness :
  answered 200 (serve VariantB.app Sample2.post_anywhere) /\
  answered 200 (serve VariantB.app Sample.probe_post) /\
  events (fst (serve VariantB.app Sample2.post_anywhere)) = [].
Proof.
  split; [|split].
  - exact (proj1 (variantB_post_catch_all Sample2.post_anywhere eq_refl) eq_refl).
  - exact (proj1 (variantB_post_catch_all Sample.probe_post eq_refl) eq_refl).
  - exact (proj2 (proj2 (variantB_post_catch_all Sample2.post_anywhere eq_refl))).
Defined.

Lemma sse_path_not_probe (p : jsstring) :
  matches (Literal (lit "/sse")) p = true ->
  matches (Splat (lit "/.well-known")) p = false /\
  matches (Param (lit "/.well-known")) p = false.
Proof.
  intros H. apply literal_strips in H; [|reflexivity]. cbn [matches].
  change (lit "/.well-known" ++ [slash]) with (47 :: 46 :: lit "well-known/").
  rewrite (strip_prefix_second_differs 47 115 46 (lit "se") _ p);
    [split; reflexivity|discriminate|exact H].
Qed.

(** X17.  In the second program of part_000 a GET (or HEAD) for /sse or
    for / hands the response to the SSE transport: the route leaves the
    response open, with the two anti-buffering headers set, and makes no
    upstream call. *)
Theorem sse_routes_open_transport (req : Request) :
  method req = GET \/ method req = HEAD ->
  matches (Literal (lit "/sse")) (path req) = true \/
  matches (Literal (lit "/")) (path req) = true ->
  snd (serve VariantB.app req) = None /\
  events (fst (serve VariantB.app req)) = [SseConnect] /\
  ended (res (fst (serve VariantB.app req))) = false /\
  headers_get (headers (res (fst (serve VariantB.app req)))) (lit "Cache-Control")
    = Some (lit "no-cache, no-transform") /\
  headers_get (headers (res (fst (serve VariantB.app req)))) (lit "X-Accel-Buffering")
    = Some (lit "no").
Proof.
  intros Hm Hp. rewrite variantB_serves. unfold variantB_dispatch.
  assert (Hd : decodes (path req) = true)
    by (destruct Hp as [Hp | Hp];
        [ apply (literal_path_decodes (lit "/sse") _ eq_refl Hp)
        | apply (literal_path_decodes (lit "/") _ eq_refl Hp) ]).
  assert (Hs : matches (Splat (lit "/.well-known")) (path req) = false).
  { destruct Hp as [Hp | Hp].
    - apply (sse_path_not_probe _ Hp).
    - apply (root_path_exclusive _ Hp). }
  assert (Hor : matches (Literal (lit "/sse")) (path req)
                || matches (Literal (lit "/")) (path req) = true)
    by (destruct Hp as [Hp | Hp]; rewrite Hp; rewrite ?orb_true_r; reflexivity).
  rewrite Hd, Hs, Hor.
  destruct Hm as [Hm | Hm]; rewrite Hm; repeat split.
Qed.

Lemma sse_routes_open_transport_witness :
  events (fst (serve VariantB.app Sample2.get_root)) = [SseConnect] /\
  ended (res (fst (serve VariantB.app Sample2.get_sse))) = false.
Proof.
  pose proof (sse_routes_open_transport Sample2.get_root
                (or_introl eq_refl) (or_intror eq_refl)) as (_ & HB & _).
  pose proof (sse_routes_open_transport Sample2.get_sse
                (or_introl eq_refl) (or_introl eq_refl)) as (_ & _ & HE & _).
  split; assumption.
Defined.

Lemma headers_get_removeHeader (r : ServerResponse) (n n' : jsstring) :
  name_eqb n n' = false ->
  headers_get (headers (res_removeHeader n r)) n' = headers_get (headers r) n'.
Proof.
  intros Hn. unfold headers_get. cbn [res_removeHeader headers].
  rewrite (filter_other_name _ _ _ Hn). reflexivity.
Qed.

(** [res.send] touches no header but the content type. *)
Lemma send_keeps_header (req : Request) (content_type text : jsstring)
  (r : ServerResponse) (n : jsstring) :
  name_eqb (lit "Content-Type") n = false ->
  headers_get (headers (send req content_type text r)) n = headers_get (headers r) n.
Proof.
  intros Hn. unfold send.
  assert (H1 : forall x, headers (res_end x) = headers x) by reflexivity.
  assert (H2 : forall c x, headers (res_write c x) = headers x)
    by (intros c x; unfold res_write; destruct (ended x); reflexivity).
  assert (H3 : forall c x, headers (res_status c x) = headers x) by reflexivity.
  destruct (req_fresh _ _);
    destruct ((statusCode _ =? 204) || (statusCode _ =? 304));
    try (destruct (method_eqb (method req) HEAD));
    rewrite ?H1, ?H2, ?headers_get_removeHeader, ?H3, ?headers_get_setHeader, ?Hn;
    try reflexivity; exact Hn.
Qed.

Lemma sendStatus_keeps_header (req : Request) (code : N) (r : ServerResponse)
  (n : jsstring) :
  name_eqb (lit "Content-Type") n = false ->
  headers_get (headers (res_sendStatus req code r)) n = headers_get (headers r) n.
Proof.
  intros Hn. unfold res_sendStatus. rewrite (send_keeps_header _ _ _ _ _ Hn).
  reflexivity.
Qed.

(** X18.  Every response of the second program of part_000 and of
    part_001, whatever the request, carries
    [Cache-Control: no-cache, no-transform] and [X-Accel-Buffering: no]. *)
Theorem anti_buffering_headers_always (req : Request) :
  forall app, app = VariantB.app \/ app = Woo.app ->
  headers_get (headers (res (fst (serve app req)))) (lit "Cache-Control")
    = Some (lit "no-cache, no-transform") /\
  headers_get (headers (res (fst (serve app req)))) (lit "X-Accel-Buffering")
    = Some (lit "no").
Proof.
  intros app [-> | ->].
  - rewrite variantB_serves. unfold variantB_dispatch, send_status.
    cbn [fst].
    destruct (negb (decodes (path req))); [split; reflexivity|].
    destruct (matches (Splat (lit "/.well-known")) (path req)
              && handles GET (method req));
      [|destruct (method_eqb (method req) OPTIONS);
        [|destruct (method_eqb (method req) POST);
          [|destruct ((matches (Literal (lit "/sse")) (path req)
                       || matches (Literal (lit "/")) (path req))
                      && handles GET (method req))]]];
      cbn [fst on_res res unbuffered];
      rewrite ?sendStatus_keeps_header by reflexivity;
      split; reflexivity.
  - unfold serve, Woo.app;
      cbn [route pattern verb handler];
      change (matches MountAll (path req)) with true;
      change (params_decode MountAll (path req)) with true;
      change (params_decode (Literal (lit "/sse")) (path req)) with true;
      change (params_decode (Literal (lit "/")) (path req)) with true;
      cbv iota;
      unfold sse_headers, Woo.handleSse, send_status.
    destruct (matches (Param (lit "/.well-known")) (path req));
      destruct (params_decode (Param (lit "/.well-known")) (path req));
      destruct (handles GET (method req));
      destruct (method_eqb (method req) OPTIONS);
      destruct (matches (Literal (lit "/sse")) (path req));
      destruct (matches (Literal (lit "/")) (path req));
      cbn [orb fst on_res res init];
      rewrite ?sendStatus_keeps_header by reflexivity;
      split; reflexivity.
Qed.
(** *** part_001, continued *)




Lemma wcPut_unfold (cfg : Woo.Config) (fetch : Fetch)
  (input : list (jsstring * JSValue)) :
  Woo.wc_update_product cfg fetch input =
  bind (fetch (put_request cfg input)) (fun r =>
    if negb (ok r) then
      bind (resp_text r) (fun txt =>
        Throw (UserError (lit "Woo PUT " ++
                          product_url cfg (lookup (lit "id") input) ++
                          lit " -> " ++ N_to_string (status r) ++ lit " " ++ txt)))
    else
      bind (resp_json r) (fun updated =>
      bind (Woo.update_out updated) (fun out =>
      Ok (text_content (JSON_stringify_2 out))))).
Proof.
  unfold Woo.wc_update_product, Woo.wcPut, put_request, product_url.
  destruct (fetch _) as [r|e]; [|reflexivity].
  cbn [bind]. destruct (ok r); cbn [negb]; [reflexivity|].
  destruct (resp_text r); reflexivity.
Qed.

(** X20.  When the upstream refuses the update, [wc_update_product] makes
    no second attempt and returns no content: it raises an error whose
    message names the method, the URL of the product, the status and the
    body text, "Woo PUT <url> -> <status> <body>". *)
Theorem update_failure_names_request
  (cfg : Woo.Config) (fetch : Fetch) (input : list (jsstring * JSValue))
  (r : Response) (txt : jsstring) :
  fetch (put_request cfg input) = Ok r ->
  ok r = false ->
  resp_text r = Ok txt ->
  Woo.wc_update_product cfg fetch input
  = Throw (UserError (lit "Woo PUT " ++ Woo.BASE_URL cfg ++
                      lit "/wp-json/wc/v3/products/" ++
                      to_string (lookup (lit "id") input) ++
                      lit " -> " ++ N_to_string (status r) ++ lit " " ++ txt)).
Proof.
  intros Hf Hok Ht. rewrite wcPut_unfold, Hf. cbn [bind].
  rewrite Hok, Ht. cbn [negb bind]. unfold product_url.
  rewrite <- !app_assoc. reflexivity.
Qed.

Lemma update_failure_names_request_witness :
  Woo.wc_update_product Sample.cfg (fun _ => Ok Sample2.server_error)
                        Sample.update_input
  = Throw (UserError
      (lit "Woo PUT https://shop.example/wp-json/wc/v3/products/7 -> 500 boom")).
Proof.
  exact (update_failure_names_request Sample.cfg (fun _ => Ok Sample2.server_error)
           Sample.update_input Sample2.server_error (lit "boom")
           eq_refl eq_refl eq_refl).
Defined.

(** X21.  When the upstream answers with a failure status and its body
    cannot be read, [wcGet] and [wc_update_product] raise the error of the
    read itself: the status is not reported. *)
Theorem unreadable_failure_hides_status
  (cfg : Woo.Config) (fetch : Fetch) (path : jsstring)
  (params : list (jsstring * jsstring)) (input : list (jsstring * JSValue))
  (r1 r2 : Response) (e1 e2 : Thrown) :
  fetch (wcGet_request cfg path params) = Ok r1 ->
  ok r1 = false -> resp_text r1 = Throw e1 ->
  fetch (put_request cfg input) = Ok r2 ->
  ok r2 = false -> resp_text r2 = Throw e2 ->
  Woo.wcGet cfg fetch path params = Throw e1 /\
  Woo.wc_update_product cfg fetch input = Throw e2.
Proof.
  intros Hf1 Hok1 Ht1 Hf2 Hok2 Ht2. split.
  - rewrite wcGet_unfold, Hf1. cbn [bind]. rewrite Hok1, Ht1. reflexivity.
  - rewrite wcPut_unfold, Hf2. cbn [bind]. rewrite Hok2, Ht2. reflexivity.
Qed.

Lemma unreadable_failure_hides_status_witness :
  Woo.wcGet Sample.cfg (fun _ => Ok Sample2.unreadable_error)
            (lit "/wp-json/wc/v3/products/7") [] = Throw BodyUnreadable /\
  Woo.wc_update_product Sample.cfg (fun _ => Ok Sample2.unreadable_error)
                        Sample.update_input = Throw BodyUnreadable.
Proof.
  exact (unreadable_failure_hides_status Sample.cfg
           (fun _ => Ok Sample2.unreadable_error)
           (lit "/wp-json/wc/v3/products/7") [] Sample.update_input
           Sample2.unreadable_error Sample2.unreadable_error
           BodyUnreadable BodyUnreadable
           eq_refl eq_refl eq_refl eq_refl eq_refl eq_refl).
Defined.

Lemma patch_lookup (input : list (jsstring * JSValue)) (k : jsstring) :
  lookup k (patch_of input)
  = if str_eqb k (lit "id") then JUndefined else lookup k input.
Proof.
  unfold patch_of. induction input as [|[k' x] input IH].
  - cbn [filter lookup]. destruct (str_eqb k (lit "id")); reflexivity.
  - cbn [filter fst]. destruct (str_eqb k' (lit "id")) eqn:E'; cbn [negb].
    + rewrite IH. cbn [lookup]. destruct (str_eqb k (lit "id")) eqn:E; [reflexivity|].
      destruct (str_eqb k k') eqn:Ek; [|reflexivity].
      apply str_eqb_eq in Ek. subst k'. congruence.
    + cbn [lookup]. destruct (str_eqb k k') eqn:Ek.
      * apply str_eqb_eq in Ek. subst k'. rewrite E'. reflexivity.
      * exact IH.
Qed.

(** X22.  [wc_update_product] sends a PUT to the URL that ends in the
    [id] of the input, with the credentials of [wcHeaders], and the body
    it sends is the JSON text of the input without that [id]: every other
    member goes out as it came in.  A failure of that request is the
    failure of the tool, and the result depends on the upstream only
    through the answer to that request. *)
Theorem update_sends_patch_without_id
  (cfg : Woo.Config) (input : list (jsstring * JSValue)) :
  let patch := filter (fun kv => negb (str_eqb (fst kv) (lit "id"))) input in
  let request :=
    {| url := Woo.BASE_URL cfg ++ lit "/wp-json/wc/v3/products/" ++
              to_string (lookup (lit "id") input);
       fetch_method := lit "PUT";
       fetch_headers := Woo.wcHeaders cfg;
       fetch_body := JSON_stringify (JObj patch) |} in
  lookup (lit "id") patch = JUndefined /\
  (forall k, k <> lit "id" -> lookup k patch = lookup k input) /\
  (forall (fetch : Fetch) (e : Thrown),
     fetch request = Throw e ->
     Woo.wc_update_product cfg fetch input = Throw e) /\
  (forall f1 f2 : Fetch,
     f1 request = f2 request ->
     Woo.wc_update_product cfg f1 input = Woo.wc_update_product cfg f2 input).
Proof.
  intros patch request.
  change patch with (patch_of input).
  change request with (put_request cfg input).
  split; [rewrite patch_lookup; reflexivity|].
  split; [|split].
  - intros k Hk. rewrite patch_lookup.
    destruct (str_eqb k (lit "id")) eqn:E; [|reflexivity].
    apply str_eqb_eq in E. contradiction.
  - intros fetch e H. rewrite wcPut_unfold, H. reflexivity.
  - intros f1 f2 H. rewrite !wcPut_unfold, H. reflexivity.
Qed.

Lemma description_of_length (d : jsstring) :
  exists t,
    Woo.description_of (JStr d) = Ok (JStr t) /\
    (List.length t <= 201)%nat /\
    firstn 200 t = firstn 200 d.
Proof.
  eexists. split; [apply description_of_string|].
  destruct (200 <? str_length d) eqn:E.
  - apply N.ltb_lt in E. unfold str_length in E.
    assert (Hlen : List.length (firstn 200 d) = 200%nat)
      by (apply firstn_length_le; lia).
    split.
    + rewrite length_app, Hlen. change (List.length ellipsis) with 1%nat. lia.
    + rewrite firstn_app, Hlen, Nat.sub_diag.
      change (firstn 0 ellipsis) with (@nil N).
      rewrite app_nil_r, firstn_firstn, Nat.min_id. reflexivity.
  - apply N.ltb_ge in E. unfold str_length in E. split; [lia|reflexivity].
Qed.

(** X23.  Whatever string the upstream returns as description, the
    description [wc_update_product] returns is at most 201 characters
    long and agrees with it on the first 200. *)
Theorem update_description_bounded
  (cfg : Woo.Config) (fetch : Fetch) (input : list (jsstring * JSValue))
  (r : Response) (updated : JSValue) (d : jsstring) :
  fetch (put_request cfg input) = Ok r ->
  ok r = true ->
  resp_json r = Ok updated ->
  get updated (lit "description") = Ok (JStr d) ->
  exists out text t,
    Woo.wc_update_product cfg fetch input = Ok (text_content (Some text)) /\
    JSON_stringify_2 out = Some text /\
    get_opt out (lit "description") = JStr t /\
    (List.length t <= 201)%nat /\
    firstn 200 t = firstn 200 d.
Proof.
  intros Hf Hok Hj Hd.
  destruct (description_of_length d) as (t & Ht & Hlen & Hpre).
  destruct (update_returns cfg fetch input r updated (JStr d) t Hf Hok Hj Hd Ht)
    as (out & text & Hrun & Htext & Hdesc & _).
  exists out, text, t. repeat split; assumption.
Qed.

Lemma update_description_bounded_witness :
  exists out text t,
    Woo.wc_update_product Sample.cfg
      (fun _ => Ok (Sample.json_response (Sample.updated (JStr Sample.long_text))))
      Sample.update_input = Ok (text_content (Some text)) /\
    JSON_stringify_2 out = Some text /\
    get_opt out (lit "description") = JStr t /\
    (List.length t <= 201)%nat /\
    firstn 200 t = firstn 200 Sample.long_text.
Proof.
  exact (update_description_bounded Sample.cfg
           (fun _ => Ok (Sample.json_response (Sample.updated (JStr Sample.long_text))))
           Sample.update_input
           (Sample.json_response (Sample.updated (JStr Sample.long_text)))
           (Sample.updated (JStr Sample.long_text)) Sample.long_text
           eq_refl eq_refl eq_refl eq_refl).
Defined.

(** X24.  A description that is JSON [null] is returned as the text
    "undefined", like an absent one. *)
Theorem update_null_description
  (cfg : Woo.Config) (fetch : Fetch) (input : list (jsstring * JSValue))
  (r : Response) (updated : JSValue) :
  fetch (put_request cfg input) = Ok r ->
  ok r = true ->
  resp_json r = Ok updated ->
  get updated (lit "description") = Ok JNull ->
  exists out text,
    Woo.wc_update_product cfg fetch input = Ok (text_content (Some text)) /\
    JSON_stringify_2 out = Some text /\
    get_opt out (lit "description") = JStr (lit "undefined").
Proof.
  intros Hf Hok Hj Hd.
  destruct (update_returns cfg fetch input r updated JNull (lit "undefined")
              Hf Hok Hj Hd eq_refl)
    as (out & text & Hrun & Htext & Hdesc & _).
  exists out, text. repeat split; assumption.
Qed.

Lemma update_null_description_witness :
  exists out text,
    Woo.wc_update_product Sample.cfg
      (fun _ => Ok (Sample.json_response (Sample.updated JNull)))
      Sample.update_input = Ok (text_content (Some text)) /\
    JSON_stringify_2 out = Some text /\
    get_opt out (lit "description") = JStr (lit "undefined").
Proof.
  exact (update_null_description Sample.cfg
           (fun _ => Ok (Sample.json_response (Sample.updated JNull)))
           Sample.update_input (Sample.json_response (Sample.updated JNull))
           (Sample.updated JNull) eq_refl eq_refl eq_refl eq_refl).
Defined.

(** X25.  A description that is a number, a boolean or an object has no
    [slice]: [wc_update_product] raises a TypeError and returns nothing,
    although the update itself went through. *)
Theorem update_description_without_slice
  (cfg : Woo.Config) (fetch : Fetch) (input : list (jsstring * JSValue))
  (r : Response) (updated d : JSValue) :
  fetch (put_request cfg input) = Ok r ->
  ok r = true ->
  resp_json r = Ok updated ->
  get updated (lit "description") = Ok d ->
  lacks_slice d = true ->
  Woo.wc_update_product cfg fetch input = Throw TypeError.
Proof.
  intros Hf Hok Hj Hd Hl.
  rewrite (update_unfold cfg fetch input r Hf Hok), Hj. cbn [bind].
  unfold Woo.update_out.
  destruct d; try discriminate Hl;
    (destruct updated; try discriminate Hd; cbn [get bind] in *;
     injection Hd as Hd; rewrite Hd; reflexivity).
Qed.

Lemma update_description_without_slice_witness :
  Woo.wc_update_product Sample.cfg
    (fun _ => Ok (Sample.json_response (Sample.updated (JNum 5))))
    Sample.update_input = Throw TypeError.
Proof.
  exact (update_description_without_slice Sample.cfg
           (fun _ => Ok (Sample.json_response (Sample.updated (JNum 5))))
           Sample.update_input (Sample.json_response (Sample.updated (JNum 5)))
           (Sample.updated (JNum 5)) (JNum 5)
           eq_refl eq_refl eq_refl eq_refl eq_refl).
Defined.

Lemma update_sends_patch_without_id_witness :
  Woo.wc_update_product Sample.cfg Sample.upstream_echo Sample.update_input
    = Throw (UserError (lit "https://shop.example/wp-json/wc/v3/products/7")) /\
  Woo.wc_update_product Sample.cfg Sample.upstream_echo Sample.update_input
    = Woo.wc_update_product Sample.cfg
        (fun r => if probe_url (lit "https://shop.example/wp-json/wc/v3/products/7") r
                  then Sample.upstream_echo r else Ok Sample2.no_content)
        Sample.update_input.
Proof.
  destruct (update_sends_patch_without_id Sample.cfg Sample.update_input)
    as (_ & _ & Hfail & Hdep).
  split.
  - apply Hfail. reflexivity.
  - apply Hdep. reflexivity.
Defined.

Lemma anti_buffering_headers_always_witness :
  headers_get (headers (res (fst (serve VariantB.app Sample2.post_anywhere))))
              (lit "Cache-Control") = Some (lit "no-cache, no-transform") /\
  headers_get (headers (res (fst (serve Woo.app Sample.options_elsewhere))))
              (lit "X-Accel-Buffering") = Some (lit "no").
Proof.
  split.
  - exact (proj1 (anti_buffering_headers_always Sample2.post_anywhere
                    VariantB.app (or_introl eq_refl))).
  - exact (proj2 (anti_buffering_headers_always Sample.options_elsewhere
                    Woo.app (or_intror eq_refl))).
Defined.

Lemma wc_get_product_unfold (cfg : Woo.Config) (fetch : Fetch)
  (input : list (jsstring * JSValue)) :
  Woo.wc_get_product cfg fetch input =
  bind (Woo.wcGet cfg fetch (lit "/wp-json/wc/v3/products/" ++
                             to_string (lookup (lit "id") input)) [])
       (fun p => bind (pick product_fields p) (fun out =>
                 Ok (text_content (JSON_stringify_2 out)))).
Proof. reflexivity. Qed.

(** X26.  [wc_get_product] returns the seven members id, name,
    permalink, description, short_description, price and stock_status of
    the upstream product, in that order and unchanged (the description is
    not cut here); nothing else of the product reaches the result. *)
Theorem get_product_projects
  (cfg : Woo.Config) (fetch : Fetch) (input : list (jsstring * JSValue))
  (p : JSValue) :
  Woo.wcGet cfg fetch (lit "/wp-json/wc/v3/products/" ++
                       to_string (lookup (lit "id") input)) [] = Ok p ->
  is_nullish p = false ->
  Woo.wc_get_product cfg fetch input
  = Ok (text_content (JSON_stringify_2 (project product_fields p))).
Proof.
  intros Hget Hp. rewrite wc_get_product_unfold, Hget. cbn [bind].
  rewrite (pick_members product_fields p Hp). reflexivity.
Qed.

Lemma get_product_projects_witness :
  Woo.wc_get_product Sample.cfg (fun _ => Ok (Sample.json_response Sample2.product))
                     [(lit "id", JNum 7)]
  = Ok (text_content (JSON_stringify_2
          (JObj [(lit "id", JNum 7); (lit "name", JStr (lit "Basket"));
                 (lit "permalink", JUndefined); (lit "description", JUndefined);
                 (lit "short_description", JUndefined);
                 (lit "price", JStr (lit "12.00"));
                 (lit "stock_status", JUndefined)]))).
Proof.
  exact (get_product_projects Sample.cfg
           (fun _ => Ok (Sample.json_response Sample2.product))
           [(lit "id", JNum 7)] Sample2.product eq_refl eq_refl).
Defined.

(** X27.  When the upstream answers a success with the JSON value
    [null], [wc_get_product] and [wc_update_product] raise a TypeError:
    neither checks the value before reading its members. *)
Theorem null_product_is_type_error
  (cfg : Woo.Config) (fetch : Fetch) (input : list (jsstring * JSValue))
  (r1 r2 : Response) :
  fetch (wcGet_request cfg (lit "/wp-json/wc/v3/products/" ++
                            to_string (lookup (lit "id") input)) []) = Ok r1 ->
  ok r1 = true -> resp_json r1 = Ok JNull ->
  fetch (put_request cfg input) = Ok r2 ->
  ok r2 = true -> resp_json r2 = Ok JNull ->
  Woo.wc_get_product cfg fetch input = Throw TypeError /\
  Woo.wc_update_product cfg fetch input = Throw TypeError.
Proof.
  intros Hf1 Hok1 Hj1 Hf2 Hok2 Hj2. split.
  - rewrite wc_get_product_unfold, wcGet_unfold, Hf1. cbn [bind].
    rewrite Hok1, Hj1. reflexivity.
  - rewrite (update_unfold cfg fetch input r2 Hf2 Hok2), Hj2. reflexivity.
Qed.

Lemma null_product_is_type_error_witness :
  Woo.wc_get_product Sample.cfg (fun _ => Ok (Sample.json_response JNull))
                     Sample.update_input = Throw TypeError /\
  Woo.wc_update_product Sample.cfg (fun _ => Ok (Sample.json_response JNull))
                        Sample.update_input = Throw TypeError.
Proof.
  exact (null_product_is_type_error Sample.cfg
           (fun _ => Ok (Sample.json_response JNull)) Sample.update_input
           (Sample.json_response JNull) (Sample.json_response JNull)
           eq_refl eq_refl eq_refl eq_refl eq_refl eq_refl).
Defined.

Lemma wc_search_products_unfold (cfg : Woo.Config) (fetch : Fetch)
  (input : list (jsstring * JSValue)) :
  Woo.wc_search_products cfg fetch input =
  bind (Woo.wcGet cfg fetch (lit "/wp-json/wc/v3/products")
          [(lit "search", to_string (lookup (lit "q") input));
           (lit "per_page",
            to_string (Woo.param_or input (lit "per_page") (JNum 10)));
           (lit "page", to_string (Woo.param_or input (lit "page") (JNum 1)));
           (lit "orderby", lit "date");
           (lit "order", lit "desc")])
       (fun data => bind (array_map (pick search_fields) data) (fun items =>
                    Ok (text_content (JSON_stringify_2 items)))).
Proof. reflexivity. Qed.

(** X28.  [wc_search_products] passes on, for every item of the upstream
    array and in the same order, an object of the seven members id, name,
    price, permalink, status, stock_status and date_modified; an upstream
    value that is not an array (an error object, [null]) makes it raise a
    TypeError. *)
Theorem search_projects_items
  (cfg : Woo.Config) (fetch : Fetch) (input : list (jsstring * JSValue))
  (data : JSValue) :
  Woo.wcGet cfg fetch (lit "/wp-json/wc/v3/products")
    [(lit "search", to_string (lookup (lit "q") input));
     (lit "per_page", to_string (Woo.param_or input (lit "per_page") (JNum 10)));
     (lit "page", to_string (Woo.param_or input (lit "page") (JNum 1)));
     (lit "orderby", lit "date");
     (lit "order", lit "desc")] = Ok data ->
  (forall items, data = JArr items -> existsb is_nullish items = false ->
     Woo.wc_search_products cfg fetch input
     = Ok (text_content (JSON_stringify_2
             (JArr (map (project search_fields) items))))) /\
  ((forall items, data <> JArr items) ->
     Woo.wc_search_products cfg fetch input = Throw TypeError).
Proof.
  intros Hget. rewrite wc_search_products_unfold, Hget. cbn [bind]. split.
  - intros items -> Hitems. rewrite (array_map_projects _ _ Hitems). reflexivity.
  - intros Hna. rewrite (array_map_not_array _ _ Hna). reflexivity.
Qed.

Lemma search_projects_items_witness :
  Woo.wc_search_products Sample.cfg
    (fun _ => Ok (Sample.json_response (JArr [Sample2.product])))
    [(lit "q", JStr (lit "basket"))]
  = Ok (text_content (JSON_stringify_2
          (JArr [project search_fields Sample2.product]))) /\
  Woo.wc_search_products Sample.cfg
    (fun _ => Ok (Sample.json_response JNull))
    [(lit "q", JStr (lit "basket"))] = Throw TypeError.
Proof.
  split.
  - exact (proj1 (search_projects_items Sample.cfg
                    (fun _ => Ok (Sample.json_response (JArr [Sample2.product])))
                    [(lit "q", JStr (lit "basket"))] (JArr [Sample2.product]) eq_refl)
                 [Sample2.product] eq_refl eq_refl).
  - apply (proj2 (search_projects_items Sample.cfg
                    (fun _ => Ok (Sample.json_response JNull))
                    [(lit "q", JStr (lit "basket"))] JNull eq_refl)).
    discriminate.
Defined.

Lemma hex_digit_alnum (d : N) : d < 16 -> is_alnum (hex_digit d) = true.
Proof.
  intros Hd. exact (forallb_below (fun d => is_alnum (hex_digit d)) 16 eq_refl d Hd).
Qed.

Lemma form_byte_safe (b : N) : is_byte b -> forallb form_safe (form_byte b) = true.
Proof.
  unfold is_byte. intros Hb. unfold form_byte.
  destruct (b =? 32); [reflexivity|].
  destruct (is_alnum b || existsb (N.eqb b) [42; 45; 46; 95]) eqn:E.
  - cbn [forallb]. rewrite andb_true_r. unfold form_safe.
    apply orb_true_iff in E. destruct E as [E|E]; [rewrite E; reflexivity|].
    apply orb_true_iff. right. cbn [existsb] in *.
    repeat (apply orb_true_iff in E; destruct E as [E|E];
            [rewrite E; rewrite ?orb_true_r; reflexivity|]).
    discriminate.
  - unfold percent_byte. cbn [forallb]. unfold form_safe at 2 3.
    rewrite !hex_digit_alnum; [reflexivity| |].
    + change 15 with (N.ones 4). rewrite N.land_ones. divmod.
    + rewrite N.shiftr_div_pow2. divmod.
Qed.

Lemma form_encode_safe (s : jsstring) :
  Forall is_unit s -> forallb form_safe (form_encode s) = true.
Proof.
  intros Hs. unfold form_encode.
  pose proof (utf8_encode_bytes s Hs) as Hb.
  induction Hb as [|b bs Hb _ IH]; [reflexivity|].
  cbn [flat_map]. rewrite forallb_app, form_byte_safe, IH by assumption.
  reflexivity.
Qed.

Lemma form_safe_not_delimiter (c : N) :
  form_safe c = true -> negb (query_delimiter c) = true.
Proof.
  intros H. unfold query_delimiter. cbn [existsb].
  destruct (c =? 38) eqn:E1; [apply N.eqb_eq in E1; subst; discriminate|].
  destruct (c =? 61) eqn:E2; [apply N.eqb_eq in E2; subst; discriminate|].
  destruct (c =? 35) eqn:E3; [apply N.eqb_eq in E3; subst; discriminate|].
  destruct (c =? 63) eqn:E4; [apply N.eqb_eq in E4; subst; discriminate|].
  destruct (c =? 32) eqn:E5; [apply N.eqb_eq in E5; subst; discriminate|].
  reflexivity.
Qed.

Lemma search_target (cfg : Woo.Config) (q per_page page : jsstring) :
  wcGet_url cfg (lit "/wp-json/wc/v3/products")
    [(lit "search", q); (lit "per_page", per_page); (lit "page", page);
     (lit "orderby", lit "date"); (lit "order", lit "desc")]
  = search_url cfg q per_page page.
Proof.
  unfold wcGet_url, search_url, url_search_params.
  cbn [map join fst snd].
  change (form_encode (lit "search")) with (115 :: lit "earch").
  change (form_encode (lit "per_page")) with (lit "per_page").
  change (form_encode (lit "page")) with (lit "page").
  change (form_encode (lit "orderby")) with (lit "orderby").
  change (form_encode (lit "order")) with (lit "order").
  change (form_encode (lit "date")) with (lit "date").
  change (form_encode (lit "desc")) with (lit "desc").
  cbn [app]. rewrite <- !app_assoc. reflexivity.
Qed.

(** X29.  With [per_page] and [page] not given, [wc_search_products]
    sends a GET to the products endpoint with the search text
    form-encoded, 10 per page, page 1, newest first, under the
    credentials of [wcHeaders].  The encoded search text holds no [&],
    [=], [#], [?] or space, so it cannot add or change a parameter.  A
    failure of that request is the failure of the tool, and the result
    depends on the upstream only through the answer to that request. *)
Theorem search_request_is_encoded
  (cfg : Woo.Config) (input : list (jsstring * JSValue)) :
  lookup (lit "per_page") input = JUndefined ->
  lookup (lit "page") input = JUndefined ->
  Forall is_unit (to_string (lookup (lit "q") input)) ->
  let q := to_string (lookup (lit "q") input) in
  let request :=
    {| url := Woo.BASE_URL cfg ++ lit "/wp-json/wc/v3/products?search=" ++
              form_encode q ++ lit "&per_page=10&page=1&orderby=date&order=desc";
       fetch_method := lit "GET";
       fetch_headers := Woo.wcHeaders cfg;
       fetch_body := None |} in
  forallb (fun c => negb (query_delimiter c)) (form_encode q) = true /\
  (forall (fetch : Fetch) (e : Thrown),
     fetch request = Throw e ->
     Woo.wc_search_products cfg fetch input = Throw e) /\
  (forall f1 f2 : Fetch,
     f1 request = f2 request ->
     Woo.wc_search_products cfg f1 input = Woo.wc_search_products cfg f2 input).
Proof.
  intros Hper Hpage Hq q request.
  assert (Hreq : forall fetch : Fetch,
            Woo.wc_search_products cfg fetch input =
            bind (bind (fetch request) (fun r =>
                    if negb (ok r) then
                      bind (resp_text r) (fun txt =>
                        Throw (UserError (wcGet_message (url request) (status r) txt)))
                    else resp_json r))
                 (fun data =>
                    bind (array_map (pick search_fields) data) (fun items =>
                    Ok (text_content (JSON_stringify_2 items))))).
  { intros fetch. rewrite wc_search_products_unfold, wcGet_unfold.
    unfold Woo.param_or. rewrite Hper, Hpage.
    unfold wcGet_request. rewrite search_target.
    change (to_string (JNum 10)) with (lit "10").
    change (to_string (JNum 1)) with (lit "1").
    unfold search_url.
    change (form_encode (lit "10")) with (lit "10").
    change (form_encode (lit "1")) with (lit "1").
    assert (E : lit "&per_page=" ++ lit "10" ++ lit "&page=" ++ lit "1" ++
                lit "&orderby=date&order=desc"
                = lit "&per_page=10&page=1&orderby=date&order=desc")
      by reflexivity.
    rewrite E. reflexivity. }
  split; [|split].
  - apply (forallb_weaken form_safe); [apply form_safe_not_delimiter|].
    apply form_encode_safe. exact Hq.
  - intros fetch e H. rewrite Hreq, H. reflexivity.
  - intros f1 f2 H. rewrite !Hreq, H. reflexivity.
Qed.

Lemma search_request_is_encoded_witness :
  forallb (fun c => negb (query_delimiter c))
          (form_encode (lit "red & blue=1")) = true /\
  form_encode (lit "red & blue=1") = lit "red+%26+blue%3D1" /\
  Woo.wc_search_products Sample.cfg Sample.upstream_down
    [(lit "q", JStr (lit "red & blue=1"))]
  = Throw FetchFailed.
Proof.
  destruct (search_request_is_encoded Sample.cfg
              [(lit "q", JStr (lit "red & blue=1"))] eq_refl eq_refl)
    as (Hsafe & Hfail & _).
  - vm_compute. repeat constructor.
  - split; [exact Hsafe|]. split; [reflexivity|].
    apply Hfail. reflexivity.
Defined.

(** X30.  The [Authorization] header of [wcHeaders] can be read back:
    what follows "Basic " is made of Base64 characters only, and decoding
    it gives the UTF-8 bytes of the key, a colon and the secret. *)
Theorem basic_header_round_trip (cfg : Woo.Config) :
  Forall is_unit (Woo.CK cfg) ->
  Forall is_unit (Woo.CS cfg) ->
  exists token,
    headers_get (Woo.wcHeaders cfg) (lit "Authorization")
      = Some (lit "Basic " ++ token) /\
    forallb is_base64_char token = true /\
    base64_decode token
      = Some (utf8_encode (Woo.CK cfg ++ lit ":" ++ Woo.CS cfg)).
Proof.
  intros Hk Hs.
  exists (base64 (utf8_encode (Woo.CK cfg ++ lit ":" ++ Woo.CS cfg))).
  split; [reflexivity|]. split; [apply base64_alphabet|].
  apply credentials_recoverable; assumption.
Qed.

Lemma basic_header_round_trip_witness :
  exists token,
    headers_get (Woo.wcHeaders Sample.cfg) (lit "Authorization")
      = Some (lit "Basic " ++ token) /\
    forallb is_base64_char token = true /\
    base64_decode token = Some (lit "ck_1:cs 2&x").
Proof.
  apply (basic_header_round_trip Sample.cfg); vm_compute; repeat constructor.
Defined.
